(** * llmade: rate-limited prompt calls, structured parsing and document prompts

    A shallow embedding of [lib/limiter.js] (class [RateLimiter]) and
    [lib/llm.js] (classes [Model], [JSONParser], [Prompt], [TextSplitter],
    [DocumentPrompt]).

    Conventions.
    - Token counts are integers ([Z]); prices and costs are rationals ([Q])
      computed exactly, wrapped in [num] so that JavaScript's [NaN] (what
      arithmetic on [undefined] yields) is represented.
    - The percentages of [splitText] are computed as the code does, in
      IEEE 754 doubles ([SpecFloat]).
    - Asynchronous code is sequential here: every [await] is a plain bind
      of the monad [M], which threads the shared rate limiter, the
      [tokensUsed] cell of the running [process] frame and a log of the
      observable effects.
    - The external capabilities (tokenizer, completion chain, output
      parsers, langchain splitter, progress callback) are inputs: what
      they answer is given by the caller of the model. *)

From Stdlib Require Import ZArith QArith Qround List String Bool Lia Lqa SpecFloat.
Import ListNotations.
Open Scope Z_scope.

(* ================================================================== *)
(** ** JavaScript numbers *)

Module JS.

(** A number, or [NaN]. *)
Inductive num : Type :=
| Num (q : Q)
| NaN.

Definition add (a b : num) : num :=
  match a, b with
  | Num x, Num y => Num (x + y)
  | _, _ => NaN
  end.

Definition mul (a b : num) : num :=
  match a, b with
  | Num x, Num y => Num (x * y)
  | _, _ => NaN
  end.

(** [undefined] coerces to [NaN] in arithmetic. *)
Definition ofOption (o : option Q) : num :=
  match o with
  | Some q => Num q
  | None => NaN
  end.

Definition ofZ (z : Z) : num := Num (inject_Z z).

(** [x || 0] on a number: [0] and [NaN] are falsy. *)
Definition orZero (a : num) : Q :=
  match a with
  | Num q => q
  | NaN => 0%Q
  end.

(** [x || 0] on a possibly missing integer field. *)
Definition orZeroZ (o : option Z) : Z :=
  match o with
  | Some z => z
  | None => 0
  end.

(** [x || y] on a possibly missing integer: [undefined] and [0] are falsy. *)
Definition orElseZ {A} (o : option Z) (some : Z -> A) (none : A) : A :=
  match o with
  | Some z => if z =? 0 then none else some z
  | None => none
  end.

(** [Math.round(n * 1.10)] for an integer [n]: the nearest integer, ties
    upwards. *)
Definition round110 (n : Z) : Z := Qfloor (inject_Z n * (11 # 10) + (1 # 2)).

(** Equality of numbers up to the representation of rationals. *)
Definition eq (a b : num) : Prop :=
  match a, b with
  | Num x, Num y => (x == y)%Q
  | NaN, NaN => True
  | _, _ => False
  end.

(** [0 <= a], false for [NaN]. *)
Definition nonneg (a : num) : Prop :=
  match a with
  | Num x => (0 <= x)%Q
  | NaN => False
  end.

(** [0 < a], false for [NaN]. *)
Definition pos (a : num) : Prop :=
  match a with
  | Num x => (0 < x)%Q
  | NaN => False
  end.

(** Parsed values, as far as their truthiness matters ([a || b]); arrays
    and objects, always truthy, are kept as their JSON text. *)
Inductive value : Type :=
| VNull
| VBool (b : bool)
| VNum (z : Z)
| VStr (s : string)
| VObj (json : string).

Definition truthy (v : value) : bool :=
  match v with
  | VNull => false
  | VBool b => b
  | VNum z => negb (z =? 0)
  | VStr s => negb (String.eqb s EmptyString)
  | VObj _ => true
  end.

(** [a || b] where [None] is [undefined]. *)
Definition orElse (a b : option value) : option value :=
  match a with
  | Some v => if truthy v then Some v else b
  | None => b
  end.

End JS.

(** The message of a thrown [Error]. *)
Definition error : Type := string.

(* ================================================================== *)
(** ** Effects: shared limiter state, local variables, log of effects *)

(** Modelled from the spec: the reservoir of a [Bottleneck] limiter (the
    third-party [bottleneck] package, not part of the sources).  A job of
    weight 1 starts only while the reservoir holds at least 1 and takes 1
    from it; every refresh interval the reservoir is set back to
    [reservoirRefreshAmount].  The two limiters of a model are built
    together with the same interval, so they are refreshed together. *)
Record Bottleneck : Type := mkBottleneck {
  reservoir : Z;
  reservoirRefreshAmount : Z
}.

Inductive limiterKind : Type := Requests | Tokens.

(** [class RateLimiter]: the two limiters of one model name. *)
Record RateLimiter : Type := mkRateLimiter {
  requestLimiter : Bottleneck;
  tokenLimiter : Bottleneck
}.

(** [let tokensSent = 0, tokensReceived = 0, cost = 0] of [Prompt.call]:
    captured by the closure given to [process], so what an attempt added
    before it threw is still there at the next attempt. *)
Record Counters : Type := mkCounters {
  c_tokensSent : Z;
  c_tokensReceived : Z;
  c_cost : JS.num
}.

(** The local variables of [DocumentPrompt.call]. *)
Record DocVars : Type := mkDocVars {
  d_count : Z;
  d_tokensSent : Z;
  d_tokensReceived : Z;
  d_cost : JS.num;
  d_response : option JS.value;
  d_currentTokenCount : Z
}.

(** The running state handed to the progress callback. *)
Record Progress : Type := mkProgress {
  p_count : Z;
  p_cost : JS.num;
  p_tokensSent : Z;
  p_tokensReceived : Z;
  p_response : option JS.value
}.

Inductive event : Type :=
| EvRefresh (k : limiterKind)       (* a job waited for the reservoir refresh *)
| EvIncrementReservoir (delta : Z)  (* tokenLimiter.incrementReservoir(delta) *)
| EvChainCall                       (* this.chain.call(promptData) *)
| EvFixingParse                     (* this.fixingParser.parse(text) *)
| EvDelay (ms : Z)                  (* Delay(retryDelay) *)
| EvConsoleLog (e : error)          (* console.log(e) *)
| EvProgress (st : Progress).       (* settings.progress(...) *)

Record State : Type := mkState {
  limiter : RateLimiter;       (* rateLimiters[modelName], shared *)
  tokensUsed : Z;              (* [let tokensUsed] of the running process frame *)
  vars : Counters;             (* locals of the running Prompt.call *)
  doc : DocVars;               (* locals of the running DocumentPrompt.call *)
  events : list event          (* oldest first *)
}.

Definition withLimiter (l : RateLimiter) (s : State) : State :=
  mkState l (tokensUsed s) (vars s) (doc s) (events s).
Definition withTokensUsed (n : Z) (s : State) : State :=
  mkState (limiter s) n (vars s) (doc s) (events s).
Definition withVars (c : Counters) (s : State) : State :=
  mkState (limiter s) (tokensUsed s) c (doc s) (events s).
Definition withDoc (d : DocVars) (s : State) : State :=
  mkState (limiter s) (tokensUsed s) (vars s) d (events s).
Definition withEvents (l : list event) (s : State) : State :=
  mkState (limiter s) (tokensUsed s) (vars s) (doc s) l.

(** How a computation ends: a value, a thrown error, or a promise that
    never settles (a job the limiter can never start). *)
Inductive Res (A : Type) : Type :=
| Ok (a : A)
| Throw (e : error)
| Suspended.
Arguments Ok {A} a.
Arguments Throw {A} e.
Arguments Suspended {A}.

Definition M (A : Type) : Type := State -> Res A * State.

Definition ret {A} (a : A) : M A := fun s => (Ok a, s).

Definition throw {A} (e : error) : M A := fun s => (Throw e, s).

Definition bind {A B} (m : M A) (f : A -> M B) : M B :=
  fun s =>
    match m s with
    | (Ok a, s') => f a s'
    | (Throw e, s') => (Throw e, s')
    | (Suspended, s') => (Suspended, s')
    end.

Notation "x <- m ;; k" := (bind m (fun x => k))
  (at level 61, m at next level, right associativity).
Notation "m ;;; k" := (bind m (fun _ => k))
  (at level 61, right associativity).

(** [try { body } catch (e) { handler }]: a suspended body stays suspended. *)
Definition tryCatch {A} (body : M A) (handler : error -> M A) : M A :=
  fun s =>
    match body s with
    | (Throw e, s') => handler e s'
    | other => other
    end.

Definition get : M State := fun s => (Ok s, s).

Definition modify (f : State -> State) : M unit := fun s => (Ok tt, f s).

Definition emit (e : event) : M unit :=
  modify (fun s => withEvents (events s ++ [e]) s).

Definition getB (k : limiterKind) (l : RateLimiter) : Bottleneck :=
  match k with
  | Requests => requestLimiter l
  | Tokens => tokenLimiter l
  end.

Definition setB (k : limiterKind) (b : Bottleneck) (l : RateLimiter) : RateLimiter :=
  match k with
  | Requests => mkRateLimiter b (tokenLimiter l)
  | Tokens => mkRateLimiter (requestLimiter l) b
  end.

Definition setReservoir (k : limiterKind) (r : Z) : M unit :=
  modify (fun s =>
    let b := getB k (limiter s) in
    withLimiter (setB k (mkBottleneck r (reservoirRefreshAmount b)) (limiter s)) s).

(** Both reservoirs back at their refresh amounts. *)
Definition refill (l : RateLimiter) : RateLimiter :=
  mkRateLimiter
    (mkBottleneck (reservoirRefreshAmount (requestLimiter l))
                  (reservoirRefreshAmount (requestLimiter l)))
    (mkBottleneck (reservoirRefreshAmount (tokenLimiter l))
                  (reservoirRefreshAmount (tokenLimiter l))).

(** The end of a refresh interval, reached while a job of the limiter [k]
    waits: both reservoirs are refreshed.  Time passes in this model only
    when a job has to wait. *)
Definition refresh (k : limiterKind) : M unit :=
  emit (EvRefresh k) ;;;
  modify (fun s => withLimiter (refill (limiter s)) s).

(** [limiter.schedule(job)]: start [job] at once when the reservoir holds
    at least 1, after the next refresh when the refresh amount does, and
    never otherwise. *)
Definition Bottleneck_schedule {A} (k : limiterKind) (job : M A) : M A :=
  s <- get ;;
  let b := getB k (limiter s) in
  if 1 <=? reservoir b then
    setReservoir k (reservoir b - 1) ;;; job
  else if 1 <=? reservoirRefreshAmount b then
    refresh k ;;; setReservoir k (reservoirRefreshAmount b - 1) ;;; job
  else fun s => (Suspended, s).

(** [limiter.incrementReservoir(delta)]. *)
Definition Bottleneck_incrementReservoir (k : limiterKind) (delta : Z) : M unit :=
  s <- get ;;
  emit (EvIncrementReservoir delta) ;;;
  setReservoir k (reservoir (getB k (limiter s)) + delta).

(* ================================================================== *)
(** ** lib/limiter.js *)

(** [new RateLimiter({maxRequestsPerMinute, maxTokensPerMinute, bufferPercentage})] *)
Definition RateLimiter_new (maxRequestsPerMinute maxTokensPerMinute : Z)
    (bufferPercentage : Q) : RateLimiter :=
  let requests := Qfloor (inject_Z maxRequestsPerMinute * bufferPercentage) in
  let tokens := Qfloor (inject_Z maxTokensPerMinute * bufferPercentage) in
  mkRateLimiter (mkBottleneck requests requests) (mkBottleneck tokens tokens).

(** [const reportTokens = (count) => { tokensUsed = count; }]: of the
    arguments it is called with, the first is kept and the [rest] dropped. *)
Definition reportTokens (count : Z) (rest : list Z) : M unit :=
  modify (withTokensUsed count).

(** The inner job of [process]: a fresh [tokensUsed], the task, then the
    debit of what was reported.  The variable of the enclosing frame is in
    scope again when this frame is left. *)
Definition RateLimiter_job {A} (func : (Z -> list Z -> M unit) -> M A) : M A :=
  fun s =>
    let outer := tokensUsed s in
    match (modify (withTokensUsed 0) ;;; func reportTokens) s with
    | (Ok response, s') =>
        (Bottleneck_incrementReservoir Tokens (- tokensUsed s') ;;;
         modify (withTokensUsed outer) ;;;
         ret response) s'
    | (other, s') => (other, withTokensUsed outer s')
    end.

(** [async process(func)] *)
Definition RateLimiter_process {A} (func : (Z -> list Z -> M unit) -> M A) : M A :=
  Bottleneck_schedule Requests
    (Bottleneck_schedule Tokens (RateLimiter_job func)).

(* ================================================================== *)
(** ** lib/llm.js: Model *)

(** The settings object given to [new Model(settings)]; a key that is not
    given is [undefined]. *)
Record Settings : Type := mkSettings {
  s_modelName : string;
  s_maxTokens : option Z;
  s_tokenTxPrice : option Q;
  s_tokensRxPrice : option Q
}.

Record Model : Type := mkModel {
  modelName : string;
  maxTokens : option Z;
  tokenTxPrice : option Q;
  tokensRxPrice : option Q
}.

(** [constructor(settings = {})]; [this.rateLimiter = rateLimiters[this.modelName]]
    is the [limiter] of the state. *)
Definition Model_new (settings : Settings) : Model :=
  mkModel (s_modelName settings) (s_maxTokens settings)
          (s_tokenTxPrice settings) (s_tokensRxPrice settings).

(** [(tokensSent * this.tokenTxPrice) + (this.tokensRxPrice * tokensReceived)],
    on exact rationals: the rounding of the doubles of the code is not
    modelled, so equations between costs are read up to it. *)
Definition Model_calculateCost (m : Model) (tokensSent tokensReceived : JS.num) : JS.num :=
  JS.add (JS.mul tokensSent (JS.ofOption (tokenTxPrice m)))
         (JS.mul (JS.ofOption (tokensRxPrice m)) tokensReceived).

(** An integer that may be [NaN] ([None]), as a number. *)
Definition ofOptionZ (o : option Z) : JS.num :=
  match o with
  | Some z => JS.ofZ z
  | None => JS.NaN
  end.

(* ================================================================== *)
(** ** lib/llm.js: JSONParser *)

Record JSONParser : Type := mkJSONParser {
  jp_model : Model
}.

(** [this.model = new Model({ modelName, temperature: 0 })] *)
Definition JSONParser_new (modelName : string) : JSONParser :=
  mkJSONParser (Model_new (mkSettings modelName None None None)).

(** What the two langchain parsers and the tokenizer answer for one raw
    text: [parser.parse(text)] gives a value or throws, and so does
    [fixingParser.parse(text)]; [fixedTokens] is
    [countTokens(JSON.stringify(data))] of the repaired value. *)
Record TextWorld : Type := mkTextWorld {
  w_direct : option JS.value;
  w_fixing : error + JS.value;
  w_fixedTokens : Z
}.

(** The object [parse] returns: [data], and after a repair the three
    telemetry fields and [parserFixed]. *)
Record ParseResult : Type := mkParseResult {
  data : JS.value;
  r_tokensSent : option Z;
  r_tokensReceived : option Z;
  r_cost : option JS.num;
  parserFixed : bool
}.

(** [async parse(text, rateLimiter, promptTokens=0)] *)
Definition JSONParser_parse (self : JSONParser) (text : TextWorld) (promptTokens : Z)
  : M ParseResult :=
  match w_direct text with
  | Some d => ret (mkParseResult d None None None false)
  | None =>
      res <- RateLimiter_process (fun reportTokens =>
               emit EvFixingParse ;;;
               data <- match w_fixing text with
                       | inl e => throw e
                       | inr d => ret d
                       end ;;
               let tokensSent := JS.round110 promptTokens in
               let tokensReceived := w_fixedTokens text in
               let cost := Model_calculateCost (jp_model self)
                             (JS.ofZ tokensSent) (JS.ofZ tokensReceived) in
               reportTokens tokensSent [tokensReceived] ;;;
               ret (mkParseResult data (Some tokensSent) (Some tokensReceived)
                      (Some cost) false)) ;;
      ret (mkParseResult (data res) (r_tokensSent res) (r_tokensReceived res)
             (r_cost res) true)
  end.

(* ================================================================== *)
(** ** lib/llm.js: Prompt *)

Record Prompt : Type := mkPrompt {
  model : Model;
  parser : JSONParser
}.

(** [new Prompt({messages, schema, model})] with the [settings] of the
    model in [settings.json] (the file is not part of the sources; its
    entry is an input): [setModel] takes [models[model]] and builds the
    parser from the model's name. *)
Definition Prompt_new (settings : Settings) : Prompt :=
  mkPrompt (Model_new settings) (JSONParser_new (s_modelName settings)).

(** The fields of [data] that [call] reads. *)
Record CallData : Type := mkCallData {
  dryrun : bool;
  responseTokenLength : option Z
}.

(** One turn of the completion chain: [chain.call] throws, or returns a
    text with [textTokens = countTokens(rawResponse.text)]. *)
Inductive Attempt : Type :=
| ChainThrows (e : error)
| ChainReturns (textTokens : Z) (text : TextWorld).

(** What the outside answers during one [call]: the token count of the
    prompt before the budget fields are merged into the data
    ([w_tokenCount], line 202), its count afterwards ([w_promptTokens],
    lines 218 and 233), and the chain's answer at each attempt. *)
Record CallWorld : Type := mkCallWorld {
  w_tokenCount : Z;
  w_promptTokens : Z;
  w_attempt : nat -> Attempt
}.

Record CallResult : Type := mkCallResult {
  response : JS.value;
  tokensSent : Z;
  tokensReceived : Z;
  cost : JS.num
}.

(** The object a dry run returns; [e_tokensReceived] is [None] for [NaN]. *)
Record Estimate : Type := mkEstimate {
  e_tokensSent : Z;
  e_tokensReceived : option Z;
  e_cost : JS.num
}.

Inductive CallOutcome : Type :=
| Result (r : CallResult)
| Estimated (e : Estimate)
| Undefined.

Definition getVars : M Counters := fun s => (Ok (vars s), s).
Definition setVars (c : Counters) : M unit := modify (withVars c).

(** The task given to [process] at one attempt (lines 230-251). *)
Definition Prompt_task (self : Prompt) (a : Attempt) (promptTokens : Z)
    (reportTokens : Z -> list Z -> M unit) : M CallResult :=
  emit EvChainCall ;;;
  rawResponse <- match a with
                 | ChainThrows e => throw e
                 | ChainReturns textTokens text => ret (textTokens, text)
                 end ;;
  v <- getVars ;;
  let tokensSent := c_tokensSent v + promptTokens in
  let tokensReceived := c_tokensReceived v + fst rawResponse in
  let cost := JS.add (c_cost v)
                (Model_calculateCost (model self) (JS.ofZ tokensSent) (JS.ofZ tokensReceived)) in
  setVars (mkCounters tokensSent tokensReceived cost) ;;;
  reportTokens (tokensSent + tokensReceived) [] ;;;
  parsedResponse <- JSONParser_parse (parser self) (snd rawResponse) tokensSent ;;
  let tokensSent := tokensSent + JS.orZeroZ (r_tokensSent parsedResponse) in
  let tokensReceived := tokensReceived + JS.orZeroZ (r_tokensReceived parsedResponse) in
  let cost := JS.add cost (JS.Num
                match r_cost parsedResponse with
                | Some c => JS.orZero c
                | None => 0%Q
                end) in
  setVars (mkCounters tokensSent tokensReceived cost) ;;;
  ret (mkCallResult (data parsedResponse) tokensSent tokensReceived cost).

(** [while (retries > 0) { try { ... return response } catch (error) {
    retries--; if (retries === 0) throw error; await Delay(retryDelay) } }]
    with [retries] attempts left, the next one being attempt number [i]. *)
Fixpoint Prompt_retry (self : Prompt) (w : CallWorld) (retryDelay : Z)
    (retries : nat) (i : nat) : M CallOutcome :=
  match retries with
  | O => ret Undefined
  | S retries' =>
      tryCatch
        (response <- RateLimiter_process (Prompt_task self (w_attempt w i) (w_promptTokens w)) ;;
         ret (Result response))
        (fun e =>
           match retries' with
           | O => throw e
           | S _ => emit (EvDelay retryDelay) ;;;
                    Prompt_retry self w retryDelay retries' (S i)
           end)
  end.

(** [async call(data, retries=5, retryDelay=1000)] *)
Definition Prompt_call (self : Prompt) (data : CallData) (w : CallWorld)
    (retries retryDelay : Z) : M CallOutcome :=
  setVars (mkCounters 0 0 (JS.Num 0)) ;;;
  let tokenCount := w_tokenCount w in
  let remainingTokenCount := option_map (fun m => m - tokenCount) (maxTokens (model self)) in
  if match remainingTokenCount with
     | Some r => r <? 0
     | None => false
     end
  then throw "tokenCount exceeds maxTokens"%string
  else if dryrun data then
    let tokensSent := 0 + w_promptTokens w in
    let tokensReceived :=
      JS.orElseZ (responseTokenLength data)
        (fun declared => Some (0 + declared))
        (option_map (fun m => 0 + (m - tokensSent)) (maxTokens (model self))) in
    let cost := JS.add (JS.Num 0)
                  (Model_calculateCost (model self) (JS.ofZ tokensSent)
                     (ofOptionZ tokensReceived)) in
    ret (Estimated (mkEstimate tokensSent tokensReceived cost))
  else Prompt_retry self w retryDelay (Z.to_nat retries) 0.

(** [c => c] on a string: the empty string is falsy. *)
Definition nonEmpty (c : string) : bool := negb (String.eqb c EmptyString).

(** [async countRemainingTokens(data, debug, fillString)]: [maxTokens]
    minus the measured [tokenCount] of the prompt; [None] is [NaN], for a
    model without [maxTokens]. *)
Definition Prompt_countRemainingTokens (self : Prompt) (tokenCount : Z) : option Z :=
  option_map (fun m => m - tokenCount) (maxTokens (model self)).





Section Messages.

(** [_.template(content)(data)] for the data at hand: the rendered text,
    or [None] when it throws. *)
Variable template : option string -> option (option string).

(** [HumanMessagePromptTemplate.fromTemplate(content)] and its siblings
    for the other roles, of langchain, which parse the braces of the
    content: [Some e] when the parse throws [e]. *)
Variable fromTemplate : option string -> option error.



End Messages.

(** [curChunk ? a : b] on a string that may be [undefined]. *)
Definition truthyStr (o : option string) : bool :=
  match o with
  | Some c => nonEmpty c
  | None => false
  end.

(** The variables of the loop of [chunksFromArray]. *)
Record ChunkVars : Type := mkChunkVars {
  ch_chunks : list string;
  ch_curChunk : option string;
  ch_tokenCount : Z
}.

Section Chunks.

(** The tokenizer of the model. *)
Variable countTokens : string -> Z.

(** One turn of [for (let i = 0; i < arr.length; i++)] (lines 290-308). *)
Definition chunk_step (maxTokens : Z) (delimeter : string) (v : ChunkVars)
    (el : string) : ChunkVars :=
  let delimeterTokens := countTokens delimeter in
  if negb (nonEmpty el) then v
  else
    let tokens := countTokens el
                  + (if truthyStr (ch_curChunk v) then delimeterTokens else 0) in
    let v' :=
      if (negb (truthyStr (ch_curChunk v)) || (maxTokens <? tokens + ch_tokenCount v))%bool
      then (mkChunkVars
              (if truthyStr (ch_curChunk v)
               then ch_chunks v ++ [match ch_curChunk v with Some c => c | None => EmptyString end]
               else ch_chunks v)
              (Some EmptyString) 0,
            tokens - delimeterTokens)
      else (v, tokens) in
    let curChunk :=
      match ch_curChunk (fst v') with
      | Some c => if nonEmpty c then (c ++ delimeter ++ el)%string else el
      | None => el
      end in
    mkChunkVars (ch_chunks (fst v')) (Some curChunk) (ch_tokenCount (fst v') + snd v').

(** [async chunksFromArray(arr, maxTokens, delimeter)] *)
Definition Prompt_chunksFromArray (arr : list string) (maxTokens : Z)
    (delimeter : string) : list string :=
  let v := fold_left (chunk_step maxTokens delimeter) arr (mkChunkVars [] None 0) in
  match ch_curChunk v with
  | Some c => if nonEmpty c then ch_chunks v ++ [c] else ch_chunks v
  | None => ch_chunks v
  end.

End Chunks.

(* ================================================================== *)
(** ** lib/llm.js: TextSplitter *)

(** The value of [Math.round(a / b * 100)]: an integer, [NaN] (0/0) or an
    infinity (a division by zero). *)
Inductive percent : Type :=
| Pct (z : Z)
| PctNaN
| PctInfinity (negative : bool).

(** JavaScript numbers are IEEE 754 doubles: 53 bits of precision,
    rounding to nearest, ties to even. *)
Definition toDouble (z : Z) : spec_float := binary_normalize 53 1024 z 0 false.
Definition doubleDiv (x y : spec_float) : spec_float := SFdiv 53 1024 x y.
Definition doubleMul (x y : spec_float) : spec_float := SFmul 53 1024 x y.

(** [Math.round(x)]: the integer nearest to the double [x], ties upwards. *)
Definition Math_round (x : spec_float) : percent :=
  match x with
  | S754_zero _ => Pct 0
  | S754_infinity negative => PctInfinity negative
  | S754_nan => PctNaN
  | S754_finite negative m e =>
      let n := if negative then Z.neg m else Z.pos m in
      Pct (if 0 <=? e then n * 2 ^ e
           else (2 * n + 2 ^ (- e)) / (2 * 2 ^ (- e)))
  end.

(** [Math.round(a / b * 100)] for the integers [a] and [b], computed as
    the code does, in doubles. *)
Definition roundPercent (a b : Z) : percent :=
  Math_round (doubleMul (doubleDiv (toDouble a) (toDouble b)) (toDouble 100)).

Record Excerpt : Type := mkExcerpt {
  excerpt : string;
  excerptTokenLength : Z;
  excerptPercentageLength : percent
}.

Record SplitResult : Type := mkSplitResult {
  totalTextTokenLength : Z;
  excerpts : list Excerpt
}.

Record TextSplitter : Type := mkTextSplitter {
  chunkSize : Z;
  chunkOverlap : Z
}.

(** [setSplitter({chunkSize, chunkOverlap=0, bufferPercentage=1.0})] *)
Definition TextSplitter_new (chunkSize chunkOverlap : Z) (bufferPercentage : Q)
  : TextSplitter :=
  mkTextSplitter (Qfloor (inject_Z chunkSize * bufferPercentage)) chunkOverlap.

Section Splitting.

(** The tokenizer of the model ([llm.getNumTokens]) and the langchain
    splitter built with a chunk size and an overlap: the [pageContent] of
    the documents it creates for one text. *)
Variable countTokens : string -> Z.
Variable createDocuments : Z -> Z -> string -> list string.

(** [async splitText(text, debug)] *)
Definition TextSplitter_splitText (self : TextSplitter) (text : string) : SplitResult :=
  let totalTextTokenLength := countTokens text in
  let chunks := filter nonEmpty (createDocuments (chunkSize self) (chunkOverlap self) text) in
  let chunks := match chunks with [] => [text] | _ => chunks end in
  let totalTextTokenLength :=
    totalTextTokenLength + chunkOverlap self * Z.of_nat (List.length chunks) in
  let excerpts :=
    map (fun excerpt =>
           let excerptTokenLength := countTokens excerpt in
           mkExcerpt excerpt excerptTokenLength
             (roundPercent excerptTokenLength totalTextTokenLength))
        chunks in
  mkSplitResult totalTextTokenLength excerpts.

(* ================================================================== *)
(** ** lib/llm.js: DocumentPrompt *)

(** The object after [setTextSplitter] has run: its prompt, the response
    length it was built with and its splitter. *)
Record DocumentPrompt : Type := mkDocumentPrompt {
  dp_prompt : Prompt;
  dp_responseTokenLength : Z;
  dp_splitter : TextSplitter
}.

(** [settings]: the dry-run flag and the progress callback, which is given
    the running state and returns a value or throws. *)
Record DocSettings : Type := mkDocSettings {
  ds_dryrun : bool;
  ds_progress : option (Progress -> error + JS.value)
}.

(** What the outside answers at the excerpt number [i]: to the
    [prompt.call] of that excerpt, and to [prompt.countTokens(args)] in a
    dry run. *)
Record DocWorld : Type := mkDocWorld {
  dw_call : nat -> CallWorld;
  dw_tokenCount : nat -> Z
}.

Record DocResult : Type := mkDocResult {
  dr_response : option JS.value;
  dr_cost : JS.num;
  dr_tokensSent : Z;
  dr_tokensReceived : Z
}.

(** [progressResponse === 'stop'] *)
Definition isStop (v : JS.value) : bool :=
  match v with
  | JS.VStr s => String.eqb s "stop"
  | _ => false
  end.

Definition getDoc : M DocVars := fun s => (Ok (doc s), s).
Definition setDoc (d : DocVars) : M unit := modify (withDoc d).

(** [data?.cost || 0], [data?.tokensSent || 0], [data?.tokensReceived || 0]
    and [data?.response] of what [prompt.call] returned. *)
Definition dataCost (o : CallOutcome) : Q :=
  match o with
  | Result r => JS.orZero (cost r)
  | Estimated e => JS.orZero (e_cost e)
  | Undefined => 0%Q
  end.

Definition dataTokensSent (o : CallOutcome) : Z :=
  match o with
  | Result r => tokensSent r
  | Estimated e => e_tokensSent e
  | Undefined => 0
  end.

Definition dataTokensReceived (o : CallOutcome) : Z :=
  match o with
  | Result r => tokensReceived r
  | Estimated e => JS.orZeroZ (e_tokensReceived e)
  | Undefined => 0
  end.

Definition dataResponse (o : CallOutcome) : option JS.value :=
  match o with
  | Result r => Some (response r)
  | _ => None
  end.

(** The body of the [try] block for the excerpt number [i] (lines
    475-515); the value says whether the loop is left by [break]. *)
Definition DocumentPrompt_body (self : DocumentPrompt) (settings : DocSettings)
    (w : DocWorld) (e : Excerpt) (i : nat) : M bool :=
  (if ds_dryrun settings then
     v <- getDoc ;;
     let tokenCount := dw_tokenCount w i in
     let tokensSent := d_tokensSent v + (tokenCount + dp_responseTokenLength self) in
     let tokensReceived := d_tokensReceived v + (tokenCount + dp_responseTokenLength self) in
     let cost := JS.add (d_cost v)
                   (Model_calculateCost (model (dp_prompt self))
                      (JS.ofZ tokensSent) (JS.ofZ tokensReceived)) in
     setDoc (mkDocVars (d_count v) tokensSent tokensReceived cost
               (d_response v) (d_currentTokenCount v))
   else
     data <- Prompt_call (dp_prompt self)
               (mkCallData false (Some (dp_responseTokenLength self)))
               (dw_call w i) 5 1000 ;;
     v <- getDoc ;;
     setDoc (mkDocVars (d_count v)
               (d_tokensSent v + dataTokensSent data)
               (d_tokensReceived v + dataTokensReceived data)
               (JS.add (d_cost v) (JS.Num (dataCost data)))
               (JS.orElse (dataResponse data) (d_response v))
               (d_currentTokenCount v))) ;;;
  v <- getDoc ;;
  setDoc (mkDocVars (d_count v + 1) (d_tokensSent v) (d_tokensReceived v) (d_cost v)
            (d_response v) (d_currentTokenCount v + excerptTokenLength e)) ;;;
  match ds_progress settings with
  | Some progress =>
      v <- getDoc ;;
      let st := mkProgress (d_count v) (d_cost v) (d_tokensSent v)
                  (d_tokensReceived v) (d_response v) in
      emit (EvProgress st) ;;;
      match progress st with
      | inl err => throw err
      | inr progressResponse => ret (isStop progressResponse)
      end
  | None => ret false
  end.

(** [for (const excerpt of excerpts) { try { ... } catch (e) { console.log(e) } }] *)
Fixpoint DocumentPrompt_loop (self : DocumentPrompt) (settings : DocSettings)
    (w : DocWorld) (es : list Excerpt) (i : nat) : M unit :=
  match es with
  | [] => ret tt
  | e :: rest =>
      stop <- tryCatch (DocumentPrompt_body self settings w e i)
                (fun err => emit (EvConsoleLog err) ;;; ret false) ;;
      if stop then ret tt
      else DocumentPrompt_loop self settings w rest (S i)
  end.

(** [async call(text, settings={})] *)
Definition DocumentPrompt_call (self : DocumentPrompt) (text : string)
    (settings : DocSettings) (w : DocWorld) : M DocResult :=
  let split := TextSplitter_splitText (dp_splitter self) text in
  setDoc (mkDocVars 0 0 0 (JS.Num 0) None 0) ;;;
  DocumentPrompt_loop self settings w (excerpts split) 0 ;;;
  v <- getDoc ;;
  ret (mkDocResult (d_response v) (d_cost v) (d_tokensSent v) (d_tokensReceived v)).

End Splitting.

(** [async setTextSplitter({chunkSize, chunkOverlap=0, bufferPercentage=0.95})],
    the chunk size it settles on (lines 444-448): the tokens left by the
    prompt's scaffolding ([scaffoldTokens] is what [countTokens] measures
    for the empty data), less twice the response length, scaled by the
    buffer; a [chunkSize] that is given and not 0 wins.  [None] is [NaN].
    The product with the buffer is taken on exact rationals; the floor of
    the product in doubles lies within the same bounds. *)
Definition DocumentPrompt_chunkSize (prompt : Prompt) (responseTokenLength : Z)
    (scaffoldTokens : Z) (chunkSize : option Z) (bufferPercentage : Q) : option Z :=
  let remainingTokens := Prompt_countRemainingTokens prompt scaffoldTokens in
  let remainingTokens :=
    option_map (fun r => r - Qceiling (inject_Z responseTokenLength * 2)) remainingTokens in
  let remainingTokens :=
    option_map (fun r => Qfloor (inject_Z r * bufferPercentage)) remainingTokens in
  JS.orElseZ chunkSize (fun c => Some c) remainingTokens.

(* ================================================================== *)
(** * Vocabulary of the properties *)

(** Readings of the log. *)
Definition isChainCall (e : event) : bool :=
  match e with EvChainCall => true | _ => false end.

Definition chainCalls (l : list event) : nat := List.length (filter isChainCall l).

Fixpoint delays (l : list event) : list Z :=
  match l with
  | [] => []
  | EvDelay ms :: l' => ms :: delays l'
  | _ :: l' => delays l'
  end.

Fixpoint debits (l : list event) : list Z :=
  match l with
  | [] => []
  | EvIncrementReservoir d :: l' => d :: debits l'
  | _ :: l' => debits l'
  end.

Fixpoint progressCalls (l : list event) : list Progress :=
  match l with
  | [] => []
  | EvProgress st :: l' => st :: progressCalls l'
  | _ :: l' => progressCalls l'
  end.

Fixpoint logged (l : list event) : list error :=
  match l with
  | [] => []
  | EvConsoleLog e :: l' => e :: logged l'
  | _ :: l' => logged l'
  end.

(** A state with nothing logged and fresh local variables. *)
Definition initState (l : RateLimiter) : State :=
  mkState l 0 (mkCounters 0 0 (JS.Num 0)) (mkDocVars 0 0 0 (JS.Num 0) None 0) [].

(** The message of the error thrown for a prompt over budget. *)
Definition budgetError : error := "tokenCount exceeds maxTokens"%string.

(** The price formula of the model on integer token counts. *)
Definition priceFormula (tx rx : Q) (sent received : Z) : Q :=
  (inject_Z sent * tx + inject_Z received * rx)%Q.

(** The attempt number [i] of a call, run from the state [s]. *)
Definition Prompt_attempt (self : Prompt) (w : CallWorld) (i : nat) : M CallResult :=
  RateLimiter_process (Prompt_task self (w_attempt w i) (w_promptTokens w)).

(** What the loop does with [n >= 1] attempts left. *)
Definition retry_post (self : Prompt) (w : CallWorld) (retryDelay : Z)
    (n i : nat) (r : Res CallOutcome) (s' : State) (added : list event) : Prop :=
  (chainCalls added <= n)%nat
  /\ match r with
     | Ok o =>
         exists k r0 sk,
           (k < n)%nat
           /\ o = Result r0
           /\ Prompt_attempt self w (i + k) sk = (Ok r0, s')
           /\ chainCalls added = S k
           /\ delays added = repeat retryDelay k
     | Throw e =>
         exists sl,
           Prompt_attempt self w (i + (n - 1)) sl = (Throw e, s')
           /\ chainCalls added = n
           /\ delays added = repeat retryDelay (n - 1)
     | Suspended =>
         exists k, (k < n)%nat /\ delays added = repeat retryDelay k
     end.

(** The state in which a job waiting on the limiter [k] finds capacity:
    the present one when the reservoir holds at least 1, the one after the
    refresh when only that gives at least 1, none when the job can never
    start. *)
Definition awaitCapacity (k : limiterKind) (s : State) : option State :=
  let b := getB k (limiter s) in
  if 1 <=? reservoir b then Some s
  else if 1 <=? reservoirRefreshAmount b then
    Some (withLimiter (refill (limiter s)) (withEvents (events s ++ [EvRefresh k]) s))
  else None.

(** The reservation of 1 a starting job takes from the limiter [k]. *)
Definition take (k : limiterKind) (s : State) : State :=
  let b := getB k (limiter s) in
  withLimiter (setB k (mkBottleneck (reservoir b - 1) (reservoirRefreshAmount b))
                 (limiter s)) s.

(** The token reservoir debited by [n], and the debit logged. *)
Definition debit (n : Z) (s : State) : State :=
  let b := tokenLimiter (limiter s) in
  withLimiter (setB Tokens (mkBottleneck (reservoir b + - n) (reservoirRefreshAmount b))
                 (limiter s))
    (withEvents (events s ++ [EvIncrementReservoir (- n)]) s).

(** The locals after an excerpt whose [prompt.call] returned [data]. *)
Definition afterExcerpt (v : DocVars) (data : CallOutcome) (e : Excerpt) : DocVars :=
  mkDocVars (d_count v + 1)
    (d_tokensSent v + dataTokensSent data)
    (d_tokensReceived v + dataTokensReceived data)
    (JS.add (d_cost v) (JS.Num (dataCost data)))
    (JS.orElse (dataResponse data) (d_response v))
    (d_currentTokenCount v + excerptTokenLength e).

(** The running state the progress callback is given. *)
Definition runningState (v : DocVars) : Progress :=
  mkProgress (d_count v) (d_cost v) (d_tokensSent v) (d_tokensReceived v) (d_response v).

(** The chunks of [chunksFromArray] as the lists of the elements they
    are joined from, with the same running token count. *)
Record GroupVars : Type := mkGroupVars {
  g_groups : list (list string);
  g_cur : list string;
  g_tokenCount : Z
}.

Definition group_step (countTokens : string -> Z) (maxTokens : Z) (delimeter : string)
    (v : GroupVars) (el : string) : GroupVars :=
  let delimeterTokens := countTokens delimeter in
  if negb (nonEmpty el) then v
  else
    match g_cur v with
    | [] => mkGroupVars (g_groups v) [el] (countTokens el - delimeterTokens)
    | _ :: _ =>
        if maxTokens <? countTokens el + delimeterTokens + g_tokenCount v
        then mkGroupVars (g_groups v ++ [g_cur v]) [el]
               (countTokens el + delimeterTokens - delimeterTokens)
        else mkGroupVars (g_groups v) (g_cur v ++ [el])
               (g_tokenCount v + (countTokens el + delimeterTokens))
    end.

Definition groupsFromArray (countTokens : string -> Z) (arr : list string)
    (maxTokens : Z) (delimeter : string) : list (list string) :=
  let v := fold_left (group_step countTokens maxTokens delimeter) arr
             (mkGroupVars [] [] 0) in
  match g_cur v with
  | [] => g_groups v
  | _ :: _ => g_groups v ++ [g_cur v]
  end.

(** The tokens of a joined group: those of its elements and of the
    delimiters between them. *)
Definition groupTokens (countTokens : string -> Z) (delimeter : string)
    (g : list string) : Z :=
  fold_right (fun el n => countTokens el + n) 0 g
  + countTokens delimeter * (Z.of_nat (List.length g) - 1).

(** The cost a dry run of [DocumentPrompt.call] adds up: the price of the
    running totals after each excerpt. *)
Fixpoint dryCost (tx rx : Q) (increments : list Z) (sent : Z) : Q :=
  match increments with
  | [] => 0%Q
  | c :: rest => (priceFormula tx rx (sent + c) (sent + c) + dryCost tx rx rest (sent + c))%Q
  end.

(** How the variables of [chunksFromArray] and the groups correspond. *)
Definition chunk_rel (delimeter : string) (v : ChunkVars) (g : GroupVars) : Prop :=
  ch_chunks v = map (String.concat delimeter) (g_groups g)
  /\ ch_curChunk v = match g_cur g with
                     | [] => None
                     | _ :: _ => Some (String.concat delimeter (g_cur g))
                     end
  /\ ch_tokenCount v = g_tokenCount g
  /\ Forall (fun el => nonEmpty el = true) (g_cur g).

(** A group of two elements or more stays within [maxTokens], but for
    [slack] tokens. *)
Definition groupBounded (countTokens : string -> Z) (maxTokens : Z) (delimeter : string)
    (slack : Z) (g : list string) : Prop :=
  (2 <= List.length g)%nat -> groupTokens countTokens delimeter g - slack <= maxTokens.

(** The bound on the groups: the first has the tokens of one delimiter as
    slack, the others none. *)
Definition groupsBounded (countTokens : string -> Z) (maxTokens : Z) (delimeter : string)
    (gs : list (list string)) : Prop :=
  match gs with
  | [] => True
  | g :: rest =>
      groupBounded countTokens maxTokens delimeter (countTokens delimeter) g
      /\ Forall (groupBounded countTokens maxTokens delimeter 0) rest
  end.

(** What the loop of [chunksFromArray] keeps true of the groups, after
    the elements [processed]. *)
Definition group_inv (countTokens : string -> Z) (maxTokens : Z) (delimeter : string)
    (processed : list string) (v : GroupVars) : Prop :=
  List.concat (g_groups v) ++ g_cur v = filter nonEmpty processed
  /\ Forall (fun g => g <> []) (g_groups v)
  /\ (g_cur v = [] -> g_groups v = [])
  /\ (g_cur v <> [] ->
      g_tokenCount v = groupTokens countTokens delimeter (g_cur v)
                       - match g_groups v with
                         | [] => countTokens delimeter
                         | _ :: _ => 0
                         end)
  /\ ((2 <= List.length (g_cur v))%nat -> g_tokenCount v <= maxTokens)
  /\ groupsBounded countTokens maxTokens delimeter (g_groups v).

(** What is left in the two reservoirs. *)
Definition requestsLeft (s : State) : Z := reservoir (requestLimiter (limiter s)).
Definition tokensLeft (s : State) : Z := reservoir (tokenLimiter (limiter s)).

(** [round(a / b * 100)] of the exact ratio, ties upwards. *)
Definition roundExact (a b : Z) : Z :=
  Qfloor (inject_Z a / inject_Z b * 100 + (1 # 2)).

(** The percentage the code computes for [a] of [b] is an integer from 0
    to 100, the rounding of the exact ratio or one below it. *)
Definition percentCheck (a b : Z) : bool :=
  match roundPercent a b with
  | Pct z =>
      ((z =? (200 * a + b) / (2 * b)) || (z =? (200 * a + b) / (2 * b) - 1))
      && (0 <=? z) && (z <=? 100)
  | _ => false
  end.

(** [percentCheck] for every [a <= b] with [1 <= b <= n]. *)
Definition percentCheckUpTo (n : nat) : bool :=
  forallb (fun b => forallb (fun a => percentCheck (Z.of_nat a) (Z.of_nat b))
                            (seq 0 (S b)))
          (seq 1 n).

(** Capacity can always come back: both refresh amounts are at least 1. *)
Definition refills (s : State) : Prop :=
  1 <= reservoirRefreshAmount (requestLimiter (limiter s))
  /\ 1 <= reservoirRefreshAmount (tokenLimiter (limiter s)).

(** The state in which the attempt number [i + j] of a call starts, when
    the attempt number [i] starts in [s] and the attempts in between are
    each followed by the sleep of [retryDelay]. *)
Fixpoint attemptState (self : Prompt) (w : CallWorld) (retryDelay : Z)
    (i : nat) (s : State) (j : nat) : State :=
  match j with
  | O => s
  | S j' =>
      let s1 := snd (Prompt_attempt self w i s) in
      attemptState self w retryDelay (S i)
        (withEvents (events s1 ++ [EvDelay retryDelay]) s1) j'
  end.

(** The attempt number [i + j], run in the state it starts in, throws. *)
Definition attemptThrows (self : Prompt) (w : CallWorld) (retryDelay : Z)
    (i : nat) (s : State) (j : nat) : Prop :=
  exists e,
    fst (Prompt_attempt self w (i + j) (attemptState self w retryDelay i s j)) = Throw e.

(** [this.prompt.call(args)] for the excerpt number [i] (line 495). *)
Definition excerptCall (self : DocumentPrompt) (w : DocWorld) (i : nat) : M CallOutcome :=
  Prompt_call (dp_prompt self) (mkCallData false (Some (dp_responseTokenLength self)))
    (dw_call w i) 5 1000.

(** How [prompt.call] ends for each of the excerpts [es], numbered from
    [i]: the call for the excerpt number [i + j] is run in the state the
    loop over the [j] excerpts before it ends in. *)
Definition verdicts (self : DocumentPrompt) (settings : DocSettings) (w : DocWorld)
    (es : list Excerpt) (i : nat) (s : State) : list (Res CallOutcome) :=
  map (fun j => fst (excerptCall self w (i + j)
                       (snd (DocumentPrompt_loop self settings w (firstn j es) i s))))
      (seq 0 (List.length es)).

(** What an excerpt adds to the locals: what its [prompt.call] returned,
    nothing when the call threw. *)
Definition addVerdict (v : DocVars) (p : Excerpt * Res CallOutcome) : DocVars :=
  match snd p with
  | Ok data => afterExcerpt v data (fst p)
  | _ => v
  end.

(** The errors among the verdicts, in order. *)
Definition thrown (vs : list (Res CallOutcome)) : list error :=
  flat_map (fun r => match r with Throw e => [e] | _ => [] end) vs.

(** The object [DocumentPrompt.call] returns from its locals. *)
Definition totals (v : DocVars) : DocResult :=
  mkDocResult (d_response v) (d_cost v) (d_tokensSent v) (d_tokensReceived v).

(** The locals after an excerpt of a dry run whose prompt measures
    [tokenCount]. *)
Definition afterDryExcerpt (self : DocumentPrompt) (v : DocVars) (tokenCount : Z)
    (e : Excerpt) : DocVars :=
  let tokensSent := d_tokensSent v + (tokenCount + dp_responseTokenLength self) in
  let tokensReceived := d_tokensReceived v + (tokenCount + dp_responseTokenLength self) in
  mkDocVars (d_count v + 1) tokensSent tokensReceived
    (JS.add (d_cost v)
       (Model_calculateCost (model (dp_prompt self)) (JS.ofZ tokensSent)
          (JS.ofZ tokensReceived)))
    (d_response v) (d_currentTokenCount v + excerptTokenLength e).

(** The [n] counts after [c]: [c + 1], [c + 2], ... *)
Fixpoint countsFrom (c : Z) (n : nat) : list Z :=
  match n with
  | O => []
  | S n' => (c + 1) :: countsFrom (c + 1) n'
  end.

(** The callback, called with [st], does not answer ["stop"]. *)
Definition goesOn (progress : Progress -> error + JS.value) (st : Progress) : Prop :=
  forall progressResponse,
    progress st = inr progressResponse -> isStop progressResponse = false.

(** Unfolding of the monad's plumbing. *)
Ltac run :=
  unfold bind, ret, throw, tryCatch, get, modify, emit, setReservoir,
    refresh, getVars, setVars, getDoc, setDoc, reportTokens in *; simpl in *.

Ltac break_ifs :=
  repeat match goal with
  | |- context [if ?c then _ else _] => destruct c eqn:?; simpl
  | |- context [match w_direct ?t with _ => _ end] => destruct (w_direct t) eqn:?; simpl
  | |- context [match w_fixing ?t with _ => _ end] => destruct (w_fixing t) eqn:?; simpl
  end.

(** Contradictory capacity tests, after [break_ifs]. *)
Ltac capacity :=
  repeat match goal with
  | H : (_ <=? _) = false |- _ => apply Z.leb_gt in H
  | H : (_ <=? _) = true |- _ => apply Z.leb_le in H
  end;
  unfold requestsLeft, tokensLeft in *; simpl in *; try lia.

(* ================================================================== *)
(** * Properties *)

Lemma chainCalls_app (a b : list event) :
  chainCalls (a ++ b) = (chainCalls a + chainCalls b)%nat.
Proof. unfold chainCalls. now rewrite filter_app, length_app. Qed.

Lemma delays_app (a b : list event) : delays (a ++ b) = delays a ++ delays b.
Proof.
  induction a as [|e a IH]; simpl; [reflexivity|].
  destruct e; simpl; now rewrite ?IH.
Qed.


Lemma progressCalls_app (a b : list event) :
  progressCalls (a ++ b) = progressCalls a ++ progressCalls b.
Proof.
  induction a as [|e a IH]; simpl; [reflexivity|].
  destruct e; simpl; now rewrite ?IH.
Qed.

Lemma logged_app (a b : list event) : logged (a ++ b) = logged a ++ logged b.
Proof.
  induction a as [|e a IH]; simpl; [reflexivity|].
  destruct e; simpl; now rewrite ?IH.
Qed.

(* ------------------------------------------------------------------ *)
(** ** Prompt.call: the token budget *)

(** C2. When the measured token count of the prompt exceeds the model's
    [maxTokens] (the remaining count is negative), [Prompt.call] throws
    the budget error at once: nothing is logged on the way, so the chain
    is never called, no attempt is made and no delay is slept, and the
    rate limiter is left as it was, whatever [retries] is. *)
Theorem Prompt_call_over_budget
    (self : Prompt) (data : CallData) (w : CallWorld) (retries retryDelay : Z)
    (s : State) (mt : Z)
    (Hmax : maxTokens (model self) = Some mt)
    (Hover : mt - w_tokenCount w < 0) :
  exists s',
    Prompt_call self data w retries retryDelay s = (Throw budgetError, s')
    /\ events s' = events s
    /\ limiter s' = limiter s
    /\ chainCalls (events s') = chainCalls (events s)
    /\ delays (events s') = delays (events s).
Proof.
  unfold Prompt_call. rewrite Hmax. simpl.
  apply Z.ltb_lt in Hover. run. rewrite Hover.
  eexists. split; [reflexivity|]. simpl. auto.
Qed.

Lemma Prompt_call_over_budget_witness :
  exists s',
    Prompt_call (Prompt_new (mkSettings "gpt-4" (Some 100) (Some 2%Q) (Some 3%Q)))
      (mkCallData false None)
      (mkCallWorld 101 101 (fun _ => ChainThrows "unreachable"%string)) 5 1000
      (initState (RateLimiter_new 100 1000 (8 # 10)))
    = (Throw budgetError, s')
    /\ events s' = events (initState (RateLimiter_new 100 1000 (8 # 10)))
    /\ limiter s' = limiter (initState (RateLimiter_new 100 1000 (8 # 10)))
    /\ chainCalls (events s') = chainCalls (events (initState (RateLimiter_new 100 1000 (8 # 10))))
    /\ delays (events s') = delays (events (initState (RateLimiter_new 100 1000 (8 # 10)))).
Proof.
  apply (Prompt_call_over_budget _ _ _ _ _ _ 100); [reflexivity | simpl; lia].
Defined.

(* ------------------------------------------------------------------ *)
(** ** Prompt.call: dry run *)

Lemma inject_Z_nonneg (z : Z) : 0 <= z -> (0 <= inject_Z z)%Q.
Proof. intros H. unfold Qle. simpl. lia. Qed.

Lemma priceFormula_nonneg (tx rx : Q) (sent received : Z) :
  (0 <= tx)%Q -> (0 <= rx)%Q -> 0 <= sent -> 0 <= received ->
  (0 <= priceFormula tx rx sent received)%Q.
Proof.
  intros Htx Hrx Hs Hr. unfold priceFormula.
  apply inject_Z_nonneg in Hs. apply inject_Z_nonneg in Hr.
  pose proof (Qmult_le_0_compat _ _ Hs Htx).
  pose proof (Qmult_le_0_compat _ _ Hr Hrx).
  lra.
Qed.

(** C5, as amended.  With [dryrun] set and the prompt within budget,
    [Prompt.call] returns an estimate without touching the log or the
    limiter (the chain is never called): [tokensSent] is the measured
    token count of the prompt, [tokensReceived] is the declared
    [responseTokenLength] when that is given and not 0, and the remaining
    budget [maxTokens - tokensSent] otherwise; the cost follows the price
    formula of the model, and it is non-negative when the prices, the
    measured count and the declared length are, and the measured prompt
    fits [maxTokens]. *)
Theorem Prompt_call_dryrun
    (self : Prompt) (data : CallData) (w : CallWorld) (retries retryDelay : Z)
    (s : State) (mt : Z) (tx rx : Q)
    (Hmax : maxTokens (model self) = Some mt)
    (Htx : tokenTxPrice (model self) = Some tx)
    (Hrx : tokensRxPrice (model self) = Some rx)
    (Hbudget : 0 <= mt - w_tokenCount w)
    (Hdry : dryrun data = true) :
  exists est s',
    Prompt_call self data w retries retryDelay s = (Ok (Estimated est), s')
    /\ events s' = events s
    /\ limiter s' = limiter s
    /\ e_tokensSent est = w_promptTokens w
    /\ e_tokensReceived est =
         Some (JS.orElseZ (responseTokenLength data) (fun declared => declared)
                 (mt - w_promptTokens w))
    /\ (forall received, e_tokensReceived est = Some received ->
          JS.eq (e_cost est) (JS.Num (priceFormula tx rx (e_tokensSent est) received)))
    /\ ((0 <= tx)%Q -> (0 <= rx)%Q -> 0 <= w_promptTokens w ->
        w_promptTokens w <= mt ->
        (forall declared, responseTokenLength data = Some declared -> 0 <= declared) ->
        JS.nonneg (e_cost est)).
Proof.
  unfold Prompt_call. rewrite Hmax, Hdry. simpl.
  assert (Hb : (mt - w_tokenCount w <? 0) = false) by (apply Z.ltb_ge; lia).
  run. rewrite Hb.
  unfold Model_calculateCost. rewrite Htx, Hrx.
  set (recv := JS.orElseZ (responseTokenLength data) (fun declared => declared)
                 (mt - w_promptTokens w)).
  assert (Hrecv :
    JS.orElseZ (responseTokenLength data) (fun declared => Some declared)
      (Some (mt - w_promptTokens w)) = Some recv).
  { unfold recv, JS.orElseZ. destruct (responseTokenLength data) as [d|]; [|reflexivity].
    destruct (d =? 0); reflexivity. }
  rewrite Hrecv. do 2 eexists. split; [reflexivity|]. simpl.
  repeat split; try reflexivity.
  - intros received Heq. injection Heq as <-. unfold priceFormula. simpl. lra.
  - intros H0tx H0rx Hsent Hfit Hdecl.
    assert (Hr : 0 <= recv).
    { unfold recv, JS.orElseZ. destruct (responseTokenLength data) as [d|] eqn:E; [|lia].
      destruct (d =? 0); [lia | now apply Hdecl]. }
    pose proof (priceFormula_nonneg tx rx (w_promptTokens w) recv H0tx H0rx Hsent Hr) as Hp.
    unfold priceFormula in Hp. lra.
Qed.

Lemma Prompt_call_dryrun_witness :
  exists est s',
    Prompt_call (Prompt_new (mkSettings "gpt-4" (Some 100) (Some 2%Q) (Some 3%Q)))
      (mkCallData true (Some 7))
      (mkCallWorld 10 10 (fun _ => ChainThrows "unreachable"%string)) 5 1000
      (initState (RateLimiter_new 100 1000 (8 # 10)))
    = (Ok (Estimated est), s')
    /\ e_tokensSent est = 10
    /\ e_tokensReceived est = Some 7.
Proof.
  destruct (Prompt_call_dryrun
              (Prompt_new (mkSettings "gpt-4" (Some 100) (Some 2%Q) (Some 3%Q)))
              (mkCallData true (Some 7))
              (mkCallWorld 10 10 (fun _ => ChainThrows "unreachable"%string)) 5 1000
              (initState (RateLimiter_new 100 1000 (8 # 10)))
              100 2%Q 3%Q eq_refl eq_refl eq_refl ltac:(simpl; lia) eq_refl)
    as (est & s' & Hcall & _ & _ & Hsent & Hrecv & _).
  exists est, s'. repeat split; assumption.
Defined.

(** C5, the claim as written fails: a caller that declares an expected
    response length of 0 gets the remaining budget (90), not 0, since
    [responseTokenLength || ...] treats 0 like a missing value. *)
Lemma Prompt_call_dryrun_declared_zero :
  exists est s',
    Prompt_call (Prompt_new (mkSettings "gpt-4" (Some 100) (Some 2%Q) (Some 3%Q)))
      (mkCallData true (Some 0))
      (mkCallWorld 10 10 (fun _ => ChainThrows "unreachable"%string)) 5 1000
      (initState (RateLimiter_new 100 1000 (8 # 10)))
    = (Ok (Estimated est), s')
    /\ e_tokensReceived est = Some 90
    /\ e_tokensReceived est <> Some 0.
Proof.
  do 2 eexists. split; [vm_compute; reflexivity|]. simpl. split; [reflexivity | discriminate].
Qed.

(* ------------------------------------------------------------------ *)
(** ** Prompt.call: the retry loop *)

(** One attempt (the admitted call-and-parse cycle) only adds to the log:
    no delay, and the one call of the chain unless the limiter never lets
    the attempt start. *)
Lemma Prompt_attempt_events (self : Prompt) (a : Attempt) (pt : Z) (s : State) :
  exists added,
    events (snd (RateLimiter_process (Prompt_task self a pt) s)) = events s ++ added
    /\ delays added = []
    /\ (chainCalls added <= 1)%nat
    /\ (fst (RateLimiter_process (Prompt_task self a pt) s) <> Suspended ->
        chainCalls added = 1%nat).
Proof.
  unfold RateLimiter_process, Bottleneck_schedule, RateLimiter_job, Prompt_task,
    JSONParser_parse, RateLimiter_process, Bottleneck_schedule, RateLimiter_job,
    Bottleneck_incrementReservoir.
  destruct a as [e | textTokens text]; run; break_ifs.
  all: rewrite <- ?app_assoc; simpl.
  all: first [ eexists; split; [reflexivity|]
             | exists []; split; [now rewrite app_nil_r|] ].
  all: unfold chainCalls; simpl; repeat split; try lia; try congruence.
Qed.

(** One turn of the loop. *)
Lemma Prompt_retry_step (self : Prompt) (w : CallWorld) (retryDelay : Z)
    (n i : nat) (s : State) :
  Prompt_retry self w retryDelay (S n) i s =
  match Prompt_attempt self w i s with
  | (Ok r0, s1) => (Ok (Result r0), s1)
  | (Throw e, s1) =>
      match n with
      | O => (Throw e, s1)
      | S _ => Prompt_retry self w retryDelay n (S i)
                 (withEvents (events s1 ++ [EvDelay retryDelay]) s1)
      end
  | (Suspended, s1) => (Suspended, s1)
  end.
Proof.
  cbn [Prompt_retry]. unfold tryCatch, bind at 1, Prompt_attempt.
  destruct (RateLimiter_process _ s) as [[r0 | e | ] s1]; try reflexivity.
  destruct n; reflexivity.
Qed.

Lemma Prompt_retry_spec (self : Prompt) (w : CallWorld) (retryDelay : Z) :
  forall (n i : nat) (s : State), (1 <= n)%nat ->
  exists added,
    events (snd (Prompt_retry self w retryDelay n i s)) = events s ++ added
    /\ retry_post self w retryDelay n i
         (fst (Prompt_retry self w retryDelay n i s))
         (snd (Prompt_retry self w retryDelay n i s)) added.
Proof.
  induction n as [|n IH]; intros i s Hn; [lia|].
  destruct (Prompt_attempt_events self (w_attempt w i) (w_promptTokens w) s)
    as (a1 & Hev & Hd & Hle & Hone).
  fold (Prompt_attempt self w i) in *.
  rewrite Prompt_retry_step.
  destruct (Prompt_attempt self w i s) as [[r0 | e | ] s1] eqn:Hatt; simpl in Hev, Hone.
  - (* the attempt succeeds *)
    exists a1. simpl. split; [assumption|]. split; [lia|].
    exists 0%nat, r0, s. rewrite Nat.add_0_r, Hatt.
    repeat split; try lia; [apply Hone; discriminate | assumption].
  - (* the attempt throws *)
    destruct n as [|m].
    + exists a1. simpl. split; [assumption|]. split; [lia|].
      exists s. rewrite Nat.add_0_r, Hatt.
      repeat split; [apply Hone; discriminate | assumption].
    + specialize (IH (S i) (withEvents (events s1 ++ [EvDelay retryDelay]) s1)
                     ltac:(lia)).
      destruct IH as (a2 & Hev2 & Hle2 & Hpost).
      set (rest := Prompt_retry self w retryDelay (S m) (S i)
                     (withEvents (events s1 ++ [EvDelay retryDelay]) s1)) in *.
      exists (a1 ++ EvDelay retryDelay :: a2).
      assert (Hc : chainCalls (a1 ++ EvDelay retryDelay :: a2) = S (chainCalls a2)).
      { rewrite chainCalls_app, Hone by discriminate.
        unfold chainCalls. simpl. reflexivity. }
      assert (Hdl : delays (a1 ++ EvDelay retryDelay :: a2) = retryDelay :: delays a2).
      { rewrite delays_app, Hd. reflexivity. }
      split.
      { rewrite Hev2. simpl. rewrite Hev, <- !app_assoc. reflexivity. }
      split; [lia|].
      destruct (fst rest) as [o | e' | ].
      * destruct Hpost as (k & r1 & sk & Hk & Ho & Hk' & Hck & Hdk).
        exists (S k), r1, sk.
        replace (i + S k)%nat with (S i + k)%nat by lia.
        repeat split; try assumption; try lia.
        rewrite Hdl, Hdk. reflexivity.
      * destruct Hpost as (sl & Hl & Hcl & Hdl').
        exists sl.
        replace (i + (S (S m) - 1))%nat with (S i + (S m - 1))%nat by lia.
        repeat split; try assumption; try lia.
        rewrite Hdl, Hdl'. simpl. rewrite Nat.sub_0_r. reflexivity.
      * destruct Hpost as (k & Hk & Hdk).
        exists (S k). split; [lia|]. rewrite Hdl, Hdk. reflexivity.
  - (* the limiter never lets the attempt start *)
    exists a1. simpl. split; [assumption|]. split; [lia|].
    exists 0%nat. split; [lia | assumption].
Qed.

(** While both refresh amounts are at least 1, an attempt is always
    admitted in the end: it returns or throws. *)
Lemma Prompt_attempt_settles (self : Prompt) (a : Attempt) (pt : Z) (s : State) :
  refills s ->
  fst (RateLimiter_process (Prompt_task self a pt) s) <> Suspended
  /\ refills (snd (RateLimiter_process (Prompt_task self a pt) s)).
Proof.
  intros [Hr Ht]. apply Z.leb_le in Hr, Ht.
  unfold RateLimiter_process, Bottleneck_schedule, RateLimiter_job, Prompt_task,
    JSONParser_parse, RateLimiter_process, Bottleneck_schedule, RateLimiter_job,
    Bottleneck_incrementReservoir.
  destruct a as [e | textTokens text]; run; rewrite ?Hr, ?Ht.
  all: break_ifs.
  all: rewrite ?Hr, ?Ht; simpl.
  all: unfold refills; simpl; split; try discriminate.
  all: split; apply Z.leb_le; assumption.
Qed.

Lemma Prompt_retry_settles (self : Prompt) (w : CallWorld) (retryDelay : Z) :
  forall (n i : nat) (s : State),
    refills s ->
    fst (Prompt_retry self w retryDelay n i s) <> Suspended
    /\ refills (snd (Prompt_retry self w retryDelay n i s)).
Proof.
  induction n as [|n IH]; intros i s Hs; [split; [discriminate | exact Hs]|].
  rewrite Prompt_retry_step.
  destruct (Prompt_attempt_settles self (w_attempt w i) (w_promptTokens w) s Hs)
    as [Hne Href].
  fold (Prompt_attempt self w i) in Hne, Href.
  destruct (Prompt_attempt self w i s) as [[r0 | e | ] s1]; simpl in Hne, Href.
  - split; [discriminate | exact Href].
  - destruct n as [|m]; [split; [discriminate | exact Href]|].
    apply IH. exact Href.
  - congruence.
Qed.

(** The loop, attempt by attempt. *)
Lemma Prompt_retry_trajectory (self : Prompt) (w : CallWorld) (retryDelay : Z) :
  forall (n i : nat) (s : State), (1 <= n)%nat ->
  exists added,
    events (snd (Prompt_retry self w retryDelay n i s)) = events s ++ added
    /\ match fst (Prompt_retry self w retryDelay n i s) with
       | Ok o =>
           exists k r0,
             (k < n)%nat
             /\ o = Result r0
             /\ Prompt_attempt self w (i + k) (attemptState self w retryDelay i s k)
                = (Ok r0, snd (Prompt_retry self w retryDelay n i s))
             /\ (forall j, (j < k)%nat -> attemptThrows self w retryDelay i s j)
             /\ chainCalls added = S k
             /\ delays added = repeat retryDelay k
       | Throw e =>
           Prompt_attempt self w (i + (n - 1)) (attemptState self w retryDelay i s (n - 1))
           = (Throw e, snd (Prompt_retry self w retryDelay n i s))
           /\ (forall j, (j < n)%nat -> attemptThrows self w retryDelay i s j)
           /\ chainCalls added = n
           /\ delays added = repeat retryDelay (n - 1)
       | Suspended =>
           exists k,
             (k < n)%nat
             /\ Prompt_attempt self w (i + k) (attemptState self w retryDelay i s k)
                = (Suspended, snd (Prompt_retry self w retryDelay n i s))
             /\ (forall j, (j < k)%nat -> attemptThrows self w retryDelay i s j)
             /\ delays added = repeat retryDelay k
       end.
Proof.
  induction n as [|n IH]; intros i s Hn; [lia|].
  destruct (Prompt_attempt_events self (w_attempt w i) (w_promptTokens w) s)
    as (a1 & Hev & Hd & Hle & Hone).
  fold (Prompt_attempt self w i) in *.
  rewrite Prompt_retry_step.
  destruct (Prompt_attempt self w i s) as [[r0 | e | ] s1] eqn:Hatt; simpl in Hev, Hone.
  - exists a1. simpl. split; [assumption|].
    exists 0%nat, r0. rewrite Nat.add_0_r. simpl.
    repeat split; try lia; try assumption. apply Hone. discriminate.
  - destruct n as [|m].
    + exists a1. simpl. split; [assumption|].
      rewrite Nat.add_0_r.
      repeat split; try assumption; [|apply Hone; discriminate].
      intros j Hj. replace j with 0%nat by lia.
      exists e. unfold attemptState. rewrite Nat.add_0_r, Hatt. reflexivity.
    + specialize (IH (S i) (withEvents (events s1 ++ [EvDelay retryDelay]) s1)
                     ltac:(lia)).
      destruct IH as (a2 & Hev2 & Hpost).
      assert (Hstate : forall j,
                attemptState self w retryDelay i s (S j)
                = attemptState self w retryDelay (S i)
                    (withEvents (events s1 ++ [EvDelay retryDelay]) s1) j).
      { intros j. cbn [attemptState]. rewrite Hatt. reflexivity. }
      assert (Hthrows : forall k,
                (forall j, (j < k)%nat ->
                   attemptThrows self w retryDelay (S i)
                     (withEvents (events s1 ++ [EvDelay retryDelay]) s1) j) ->
                forall j, (j < S k)%nat -> attemptThrows self w retryDelay i s j).
      { intros k Hk j Hj. destruct j as [|j].
        - exists e. unfold attemptState. rewrite Nat.add_0_r, Hatt. reflexivity.
        - destruct (Hk j ltac:(lia)) as [e' He']. exists e'.
          rewrite Hstate. replace (i + S j)%nat with (S i + j)%nat by lia. exact He'. }
      set (rest := Prompt_retry self w retryDelay (S m) (S i)
                     (withEvents (events s1 ++ [EvDelay retryDelay]) s1)) in *.
      exists (a1 ++ EvDelay retryDelay :: a2).
      assert (Hc : chainCalls (a1 ++ EvDelay retryDelay :: a2) = S (chainCalls a2)).
      { rewrite chainCalls_app, Hone by discriminate.
        unfold chainCalls. simpl. reflexivity. }
      assert (Hdl : delays (a1 ++ EvDelay retryDelay :: a2) = retryDelay :: delays a2).
      { rewrite delays_app, Hd. reflexivity. }
      split.
      { rewrite Hev2. simpl. rewrite Hev, <- !app_assoc. reflexivity. }
      destruct (fst rest) as [o | e' | ].
      * destruct Hpost as (k & r1 & Hk & Ho & Hk' & Hbefore & Hck & Hdk).
        exists (S k), r1. rewrite Hstate.
        replace (i + S k)%nat with (S i + k)%nat by lia.
        repeat split; try assumption; try lia.
        -- now apply Hthrows.
        -- rewrite Hdl, Hdk. reflexivity.
      * destruct Hpost as (Hl & Hbefore & Hcl & Hdl').
        replace (S (S m) - 1)%nat with (S (S m - 1))%nat by lia.
        rewrite Hstate.
        replace (i + S (S m - 1))%nat with (S i + (S m - 1))%nat by lia.
        repeat split; try assumption; try lia.
        -- now apply Hthrows.
        -- rewrite Hdl, Hdl'. simpl. rewrite Nat.sub_0_r. reflexivity.
      * destruct Hpost as (k & Hk & Hsusp & Hbefore & Hdk).
        exists (S k). rewrite Hstate.
        replace (i + S k)%nat with (S i + k)%nat by lia.
        repeat split; try assumption; try lia.
        -- now apply Hthrows.
        -- rewrite Hdl, Hdk. reflexivity.
  - exists a1. simpl. split; [assumption|].
    exists 0%nat. rewrite Nat.add_0_r. simpl.
    repeat split; try lia; try assumption.
Qed.

(** C3. A call that is not a dry run, within budget, with [retries >= 1],
    attempt by attempt ([first] is the state the first attempt starts in,
    [attemptState ... j] the one attempt [j] starts in).  The chain is
    called at most [retries] times.  A call that returns returns the
    result of an attempt [k < retries]; the [k] attempts before it threw
    and each was followed by one sleep of [retryDelay].  A call that
    throws has made all [retries] attempts, which all threw; a sleep of
    [retryDelay] followed each of them but the last, and the error is the
    one the last attempt threw.  So when every attempt throws, the call
    throws the error of the last one.  A call stays pending only when the
    limiter never admits one of its attempts, which cannot be while both
    refresh amounts are at least 1. *)
Theorem Prompt_call_retries
    (self : Prompt) (data : CallData) (w : CallWorld) (retries retryDelay : Z)
    (s : State) (mt : Z)
    (Hmax : maxTokens (model self) = Some mt)
    (Hbudget : 0 <= mt - w_tokenCount w)
    (Hdry : dryrun data = false)
    (Hretries : 1 <= retries) :
  let n := Z.to_nat retries in
  let first := withVars (mkCounters 0 0 (JS.Num 0)) s in
  let out := Prompt_call self data w retries retryDelay s in
  exists added,
    events (snd out) = events s ++ added
    /\ (chainCalls added <= n)%nat
    /\ match fst out with
       | Ok o =>
           exists k r0,
             (k < n)%nat
             /\ o = Result r0
             /\ Prompt_attempt self w k (attemptState self w retryDelay 0 first k)
                = (Ok r0, snd out)
             /\ (forall j, (j < k)%nat -> attemptThrows self w retryDelay 0 first j)
             /\ chainCalls added = S k
             /\ delays added = repeat retryDelay k
       | Throw e =>
           Prompt_attempt self w (n - 1) (attemptState self w retryDelay 0 first (n - 1))
           = (Throw e, snd out)
           /\ (forall j, (j < n)%nat -> attemptThrows self w retryDelay 0 first j)
           /\ chainCalls added = n
           /\ delays added = repeat retryDelay (n - 1)
       | Suspended =>
           exists k,
             (k < n)%nat
             /\ Prompt_attempt self w k (attemptState self w retryDelay 0 first k)
                = (Suspended, snd out)
             /\ (forall j, (j < k)%nat -> attemptThrows self w retryDelay 0 first j)
             /\ delays added = repeat retryDelay k
       end
    /\ ((forall j, (j < n)%nat -> attemptThrows self w retryDelay 0 first j) ->
        exists e,
          fst out = Throw e
          /\ fst (Prompt_attempt self w (n - 1)
                    (attemptState self w retryDelay 0 first (n - 1))) = Throw e
          /\ chainCalls added = n
          /\ delays added = repeat retryDelay (n - 1))
    /\ (refills s -> fst out <> Suspended).
Proof.
  cbv zeta.
  assert (Hcall : Prompt_call self data w retries retryDelay s =
                  Prompt_retry self w retryDelay (Z.to_nat retries) 0
                    (withVars (mkCounters 0 0 (JS.Num 0)) s)).
  { unfold Prompt_call. rewrite Hmax, Hdry. simpl.
    assert (Hb : (mt - w_tokenCount w <? 0) = false) by (apply Z.ltb_ge; lia).
    run. rewrite Hb. reflexivity. }
  rewrite Hcall.
  set (first := withVars (mkCounters 0 0 (JS.Num 0)) s).
  set (n := Z.to_nat retries).
  destruct (Prompt_retry_trajectory self w retryDelay n 0 first ltac:(lia))
    as (added & Hev & Hpost).
  destruct (Prompt_retry_spec self w retryDelay n 0 first ltac:(lia))
    as (added' & Hev' & Hle & _).
  assert (added' = added) as ->.
  { rewrite Hev in Hev'. now apply app_inv_head in Hev'. }
  exists added. split; [exact Hev|]. split; [exact Hle|].
  split; [exact Hpost|]. split.
  - intros Hall.
    destruct (fst (Prompt_retry self w retryDelay n 0 first)) as [o | e | ].
    + destruct Hpost as (k & r0 & Hk & _ & Hok & _).
      destruct (Hall k Hk) as [e He]. rewrite Hok in He. discriminate.
    + destruct Hpost as (Hlast & _ & Hc & Hd).
      exists e. change (0 + (n - 1))%nat with (n - 1)%nat in Hlast.
      rewrite Hlast. repeat split; assumption.
    + destruct Hpost as (k & Hk & Hsusp & _).
      destruct (Hall k Hk) as [e He]. rewrite Hsusp in He. discriminate.
  - intros Hs.
    apply (Prompt_retry_settles self w retryDelay n 0 first). exact Hs.
Qed.

Lemma Prompt_call_retries_witness :
  let out := Prompt_call
               (Prompt_new (mkSettings "gpt-4" (Some 100) (Some 2%Q) (Some 3%Q)))
               (mkCallData false None)
               (mkCallWorld 10 10
                  (fun i => match i with
                            | 2%nat => ChainThrows "last"%string
                            | _ => ChainThrows "network"%string
                            end))
               3 1000 (initState (RateLimiter_new 100 1000 (8 # 10))) in
  exists added,
    events (snd out) = [] ++ added
    /\ fst out = Throw "last"%string
    /\ chainCalls added = 3%nat
    /\ delays added = [1000; 1000].
Proof.
  cbv zeta.
  destruct (Prompt_call_retries
              (Prompt_new (mkSettings "gpt-4" (Some 100) (Some 2%Q) (Some 3%Q)))
              (mkCallData false None)
              (mkCallWorld 10 10
                 (fun i => match i with
                           | 2%nat => ChainThrows "last"%string
                           | _ => ChainThrows "network"%string
                           end))
              3 1000 (initState (RateLimiter_new 100 1000 (8 # 10)))
              100 eq_refl ltac:(simpl; lia) eq_refl ltac:(lia))
    as (added & Hev & _ & _ & Hall & _).
  exists added. split; [exact Hev|].
  destruct Hall as (e & Hout & Hlast & Hc & Hd).
  { intros j Hj. change (Z.to_nat 3) with 3%nat in Hj.
    destruct j as [|[|[|j]]]; [| | | lia];
      unfold attemptThrows; eexists; vm_compute; reflexivity. }
  rewrite Hout. split; [|split; [exact Hc | exact Hd]].
  vm_compute in Hlast. injection Hlast as <-. reflexivity.
Defined.

(** The same call evaluated: three calls of the chain, two sleeps, and the
    error of the last attempt. *)
Example Prompt_call_retries_exhausted :
  let out := Prompt_call
               (Prompt_new (mkSettings "gpt-4" (Some 100) (Some 2%Q) (Some 3%Q)))
               (mkCallData false None)
               (mkCallWorld 10 10
                  (fun i => match i with
                            | 2%nat => ChainThrows "last"%string
                            | _ => ChainThrows "network"%string
                            end))
               3 1000 (initState (RateLimiter_new 100 1000 (8 # 10))) in
  fst out = Throw "last"%string
  /\ events (snd out) = [EvChainCall; EvDelay 1000; EvChainCall; EvDelay 1000; EvChainCall].
Proof. vm_compute. split; reflexivity. Qed.

(* ------------------------------------------------------------------ *)
(** ** RateLimiter.process *)

Lemma awaitCapacity_available (k : limiterKind) (s s' : State) :
  awaitCapacity k s = Some s' -> 1 <= reservoir (getB k (limiter s')).
Proof.
  unfold awaitCapacity.
  destruct (1 <=? reservoir (getB k (limiter s))) eqn:E1.
  - intros [= <-]. now apply Z.leb_le.
  - destruct (1 <=? reservoirRefreshAmount (getB k (limiter s))) eqn:E2; [|discriminate].
    intros [= <-]. apply Z.leb_le in E2. destruct k; simpl; exact E2.
Qed.

Lemma awaitCapacity_tokensUsed (k : limiterKind) (s s' : State) :
  awaitCapacity k s = Some s' -> tokensUsed s' = tokensUsed s.
Proof.
  unfold awaitCapacity.
  destruct (1 <=? reservoir (getB k (limiter s))).
  - now intros [= <-].
  - destruct (1 <=? reservoirRefreshAmount (getB k (limiter s))); [|discriminate].
    now intros [= <-].
Qed.

Lemma Bottleneck_schedule_spec {A} (k : limiterKind) (job : M A) (s : State) :
  Bottleneck_schedule k job s =
  match awaitCapacity k s with
  | Some s' => job (take k s')
  | None => (Suspended, s)
  end.
Proof.
  unfold Bottleneck_schedule, awaitCapacity, take. run.
  destruct (1 <=? reservoir (getB k (limiter s))); [reflexivity|].
  destruct (1 <=? reservoirRefreshAmount (getB k (limiter s))); [|reflexivity].
  destruct k; reflexivity.
Qed.

Lemma RateLimiter_job_spec {A} (func : (Z -> list Z -> M unit) -> M A) (s : State) :
  RateLimiter_job func s =
  match func reportTokens (withTokensUsed 0 s) with
  | (Ok response, s2) => (Ok response, withTokensUsed (tokensUsed s) (debit (tokensUsed s2) s2))
  | (other, s2) => (other, withTokensUsed (tokensUsed s) s2)
  end.
Proof.
  unfold RateLimiter_job, Bottleneck_incrementReservoir, debit. run.
  destruct (func _ (withTokensUsed 0 s)) as [[r | e | ] s2]; reflexivity.
Qed.

Lemma RateLimiter_process_spec {A} (func : (Z -> list Z -> M unit) -> M A)
    (s sr st : State) :
  awaitCapacity Requests s = Some sr ->
  awaitCapacity Tokens (take Requests sr) = Some st ->
  RateLimiter_process func s =
  match func reportTokens (withTokensUsed 0 (take Tokens st)) with
  | (Ok response, s2) =>
      (Ok response, withTokensUsed (tokensUsed s) (debit (tokensUsed s2) s2))
  | (other, s2) => (other, withTokensUsed (tokensUsed s) s2)
  end.
Proof.
  intros Er Et.
  unfold RateLimiter_process.
  rewrite Bottleneck_schedule_spec, Er, Bottleneck_schedule_spec, Et, RateLimiter_job_spec.
  assert (Hu : tokensUsed (take Tokens st) = tokensUsed s).
  { apply awaitCapacity_tokensUsed in Er, Et. simpl in *. congruence. }
  destruct (func reportTokens (withTokensUsed 0 (take Tokens st))) as [[r | e | ] s2];
    rewrite Hu; reflexivity.
Qed.

(** C9. [process(func)] waits until the request reservoir holds at least
    1, takes 1, waits until the token reservoir holds at least 1, takes 1,
    and only then runs the task; where no capacity can ever come the call
    stays suspended, it does not fail, and the task is not run.  When the
    task has returned, the token reservoir is debited by exactly the count
    the task reported last ([reportTokens] stores its first argument),
    whatever that count is; a task that throws is not debited. *)
Theorem RateLimiter_process_admits_then_debits
    {A} (func : (Z -> list Z -> M unit) -> M A) (s : State) :
  (forall count rest s0, tokensUsed (snd (reportTokens count rest s0)) = count)
  /\ match awaitCapacity Requests s with
     | None => RateLimiter_process func s = (Suspended, s)
     | Some sr =>
         1 <= reservoir (requestLimiter (limiter sr))
         /\ match awaitCapacity Tokens (take Requests sr) with
            | None => RateLimiter_process func s = (Suspended, take Requests sr)
            | Some st =>
                1 <= reservoir (tokenLimiter (limiter st))
                /\ match func reportTokens (withTokensUsed 0 (take Tokens st)) with
                   | (Ok response, s2) =>
                       RateLimiter_process func s =
                       (Ok response,
                        withTokensUsed (tokensUsed s) (debit (tokensUsed s2) s2))
                   | (other, s2) =>
                       RateLimiter_process func s =
                       (other, withTokensUsed (tokensUsed s) s2)
                   end
            end
     end.
Proof.
  split; [reflexivity|].
  unfold RateLimiter_process. rewrite Bottleneck_schedule_spec.
  destruct (awaitCapacity Requests s) as [sr|] eqn:Er; [|reflexivity].
  split; [exact (awaitCapacity_available Requests s sr Er)|].
  rewrite Bottleneck_schedule_spec.
  destruct (awaitCapacity Tokens (take Requests sr)) as [st|] eqn:Et; [|reflexivity].
  split; [exact (awaitCapacity_available Tokens _ st Et)|].
  rewrite RateLimiter_job_spec.
  assert (Hu : tokensUsed (take Tokens st) = tokensUsed s).
  { apply awaitCapacity_tokensUsed in Er, Et. simpl in *. congruence. }
  destruct (func reportTokens (withTokensUsed 0 (take Tokens st))) as [[r | e | ] s2];
    rewrite Hu; reflexivity.
Qed.

(** A task that reports 50 tokens: the reservation was 1, the debit after
    the task is 50, and the reservoir of 40 ends at [40 - 1 - 50]. *)
Example RateLimiter_process_debit_exceeds_reservation :
  let l := mkRateLimiter (mkBottleneck 5 5) (mkBottleneck 40 40) in
  let out := RateLimiter_process (fun report => report 50 [] ;;; ret tt) (initState l) in
  fst out = Ok tt
  /\ debits (events (snd out)) = [-50]
  /\ reservoir (tokenLimiter (limiter (snd out))) = -11
  /\ reservoir (requestLimiter (limiter (snd out))) = 4.
Proof. vm_compute. repeat split; reflexivity. Qed.

(* ------------------------------------------------------------------ *)
(** ** JSONParser.parse *)

(** [Math.round(n * 1.10)] is the integer nearest to [11 n / 10], ties
    upwards. *)
Lemma round110_div (n : Z) : JS.round110 n = (11 * n + 5) / 10.
Proof.
  unfold JS.round110.
  assert (H : (inject_Z n * (11 # 10) + (1 # 2) == (11 * n + 5) # 10)%Q).
  { unfold Qeq, Qplus, Qmult, inject_Z. cbn [Qnum Qden]. lia. }
  rewrite (Qfloor_comp _ _ H). reflexivity.
Qed.

Lemma round110_pos (n : Z) : 1 <= n -> 0 < JS.round110 n.
Proof.
  intros H. rewrite round110_div.
  apply Z.div_str_pos. lia.
Qed.

(** The repair branch of [parse], when the limiter finds capacity. *)
Lemma JSONParser_parse_repair (self : JSONParser) (text : TextWorld) (promptTokens : Z)
    (s sr st : State) (d : JS.value) :
  w_direct text = None ->
  w_fixing text = inr d ->
  awaitCapacity Requests s = Some sr ->
  awaitCapacity Tokens (take Requests sr) = Some st ->
  JSONParser_parse self text promptTokens s =
  (Ok (mkParseResult d (Some (JS.round110 promptTokens)) (Some (w_fixedTokens text))
         (Some (Model_calculateCost (jp_model self)
                  (JS.ofZ (JS.round110 promptTokens)) (JS.ofZ (w_fixedTokens text))))
         true),
   withTokensUsed (tokensUsed s)
     (debit (JS.round110 promptTokens)
        (withTokensUsed (JS.round110 promptTokens)
           (withEvents (events st ++ [EvFixingParse]) (take Tokens st))))).
Proof.
  intros Hd Hf Er Et.
  unfold JSONParser_parse. rewrite Hd.
  unfold bind at 1.
  rewrite (RateLimiter_process_spec _ s sr st Er Et), Hf.
  reflexivity.
Qed.

(** C4, as amended.  A text the parser validates directly is returned as
    it was coerced, with [parserFixed] unset and no token or cost field,
    and the state is untouched: no repair call, no limiter traffic.  A
    text that fails direct validation and that the fixing parser coerces
    is returned with [parserFixed] set, [tokensSent] the integer
    [Math.round(promptTokens * 1.10)] (the integer nearest to
    [11 * promptTokens / 10]), and [tokensReceived] the measured token
    count of the repaired value; both are strictly positive when
    [promptTokens >= 1] and the measured count is positive. *)
Theorem JSONParser_parse_direct_or_repaired
    (self : JSONParser) (text : TextWorld) (promptTokens : Z) (s : State) :
  match w_direct text with
  | Some d =>
      JSONParser_parse self text promptTokens s
      = (Ok (mkParseResult d None None None false), s)
  | None =>
      forall d sr st,
        w_fixing text = inr d ->
        awaitCapacity Requests s = Some sr ->
        awaitCapacity Tokens (take Requests sr) = Some st ->
        exists res s',
          JSONParser_parse self text promptTokens s = (Ok res, s')
          /\ parserFixed res = true
          /\ data res = d
          /\ r_tokensSent res = Some ((11 * promptTokens + 5) / 10)
          /\ r_tokensReceived res = Some (w_fixedTokens text)
          /\ (1 <= promptTokens -> 0 < (11 * promptTokens + 5) / 10)
          /\ chainCalls (events s') = chainCalls (events st)
          /\ events s' = events st ++ [EvFixingParse;
                                       EvIncrementReservoir (- JS.round110 promptTokens)]
  end.
Proof.
  destruct (w_direct text) as [d|] eqn:Hd.
  - unfold JSONParser_parse. rewrite Hd. reflexivity.
  - intros d sr st Hf Er Et.
    rewrite <- round110_div.
    rewrite (JSONParser_parse_repair self text promptTokens s sr st d Hd Hf Er Et).
    do 2 eexists. split; [reflexivity|].
    cbn [parserFixed data r_tokensSent r_tokensReceived].
    repeat split.
    + apply round110_pos.
    + unfold debit, withTokensUsed, withEvents, withLimiter, take. cbn [events].
      rewrite <- app_assoc, chainCalls_app. unfold chainCalls. simpl. lia.
    + unfold debit, withTokensUsed, withEvents, withLimiter, take. cbn [events].
      rewrite <- app_assoc. reflexivity.
Qed.

Lemma JSONParser_parse_direct_or_repaired_witness :
  exists res s',
    JSONParser_parse (JSONParser_new "gpt-4")
      (mkTextWorld None (inr (JS.VStr "fixed")) 4) 10
      (initState (RateLimiter_new 100 1000 (8 # 10)))
    = (Ok res, s')
    /\ parserFixed res = true
    /\ r_tokensSent res = Some 11
    /\ r_tokensReceived res = Some 4.
Proof.
  destruct (JSONParser_parse_direct_or_repaired (JSONParser_new "gpt-4")
              (mkTextWorld None (inr (JS.VStr "fixed")) 4) 10
              (initState (RateLimiter_new 100 1000 (8 # 10)))
              (JS.VStr "fixed") _ _ eq_refl eq_refl eq_refl)
    as (res & s' & Hp & Hfixed & _ & Hsent & Hrecv & _).
  exists res, s'. repeat split; assumption.
Defined.

(** C4, the claim as written fails: with [promptTokens = 1] the repair
    reports [tokensSent = 1], an integer, where [promptTokens * 1.10] is
    [11/10]; and with the default [promptTokens = 0] it reports 0, which
    is not strictly positive. *)
Lemma JSONParser_parse_repair_rounds :
  (exists res s',
     JSONParser_parse (JSONParser_new "gpt-4")
       (mkTextWorld None (inr (JS.VStr "fixed")) 4) 1
       (initState (RateLimiter_new 100 1000 (8 # 10)))
     = (Ok res, s')
     /\ parserFixed res = true
     /\ r_tokensSent res = Some 1
     /\ ~ (inject_Z 1 == inject_Z 1 * (11 # 10))%Q)
  /\ (exists res s',
        JSONParser_parse (JSONParser_new "gpt-4")
          (mkTextWorld None (inr (JS.VStr "fixed")) 4) 0
          (initState (RateLimiter_new 100 1000 (8 # 10)))
        = (Ok res, s')
        /\ parserFixed res = true
        /\ r_tokensSent res = Some 0
        /\ ~ 0 < 0).
Proof.
  split; do 2 eexists; (split; [vm_compute; reflexivity|]); simpl;
    repeat split; try reflexivity.
  - intros H. vm_compute in H. discriminate.
  - lia.
Qed.



(** A whole call on the repair path: the debits are 11 for the repair
    (round of 10 * 1.10) and 15 for the completion (10 sent, 5 received);
    the 4 tokens received from the repair are counted in the result but
    debited nowhere. *)
Example Prompt_call_repair_debits :
  let out := Prompt_call
               (Prompt_new (mkSettings "gpt-4" (Some 100) (Some 2%Q) (Some 3%Q)))
               (mkCallData false None)
               (mkCallWorld 10 10
                  (fun _ => ChainReturns 5 (mkTextWorld None (inr (JS.VStr "fixed")) 4)))
               5 1000 (initState (RateLimiter_new 100 1000 (8 # 10))) in
  debits (events (snd out)) = [-11; -15]
  /\ reservoir (tokenLimiter (limiter (snd out))) = 800 - 2 - 11 - 15.
Proof. vm_compute. split; reflexivity. Qed.

(* ------------------------------------------------------------------ *)
(** ** Prompt.call: the cost of a result *)

(** A call whose first attempt succeeds with a directly valid text
    returns the counts of that attempt, at the price formula. *)
Lemma Prompt_call_first_attempt
    (self : Prompt) (data : CallData) (w : CallWorld) (retries retryDelay : Z)
    (s sr st : State) (mt : Z) (tx rx : Q) (textTokens : Z) (text : TextWorld)
    (d : JS.value) :
  maxTokens (model self) = Some mt ->
  tokenTxPrice (model self) = Some tx ->
  tokensRxPrice (model self) = Some rx ->
  0 <= mt - w_tokenCount w ->
  dryrun data = false ->
  1 <= retries ->
  w_attempt w 0 = ChainReturns textTokens text ->
  w_direct text = Some d ->
  awaitCapacity Requests (withVars (mkCounters 0 0 (JS.Num 0)) s) = Some sr ->
  awaitCapacity Tokens (take Requests sr) = Some st ->
  exists r s',
    Prompt_call self data w retries retryDelay s = (Ok (Result r), s')
    /\ response r = d
    /\ tokensSent r = w_promptTokens w
    /\ tokensReceived r = textTokens
    /\ JS.eq (cost r) (JS.Num (priceFormula tx rx (tokensSent r) (tokensReceived r))).
Proof.
  intros Hmax Htx Hrx Hbudget Hdry Hretries Hatt Hdirect Er Et.
  unfold Prompt_call. rewrite Hmax, Hdry. simpl.
  assert (Hb : (mt - w_tokenCount w <? 0) = false) by (apply Z.ltb_ge; lia).
  unfold bind at 1, setVars, modify. rewrite Hb.
  destruct (Z.to_nat retries) as [|n] eqn:En; [lia|].
  rewrite Prompt_retry_step. unfold Prompt_attempt.
  rewrite (RateLimiter_process_spec _ _ sr st Er Et), Hatt.
  assert (Hv : vars st = mkCounters 0 0 (JS.Num 0)).
  { unfold awaitCapacity in Er, Et.
    destruct (1 <=? reservoir (getB Requests _));
      [|destruct (1 <=? reservoirRefreshAmount (getB Requests _)); [|discriminate]];
      injection Er as <-;
      (destruct (1 <=? reservoir (getB Tokens _));
       [|destruct (1 <=? reservoirRefreshAmount (getB Tokens _)); [|discriminate]]);
      injection Et as <-; reflexivity. }
  unfold Prompt_task. run. unfold JSONParser_parse. simpl. rewrite Hdirect. simpl.
  rewrite Hv. unfold Model_calculateCost. rewrite Htx, Hrx.
  do 2 eexists. split; [reflexivity|].
  cbn [response tokensSent tokensReceived cost c_tokensSent c_tokensReceived c_cost].
  repeat split; try lia.
  unfold priceFormula, JS.ofZ. simpl. rewrite !Z.add_0_r. lra.
Qed.

(** C1, the code at two inputs where the returned cost is not the price
    formula of the returned counts (prices 2 and 3 per token).
    - A first attempt whose text fails both the parser and the repair,
      then a second attempt that succeeds: the counters of the first
      attempt are still in the closure, the result counts 20 sent and 10
      received and a cost of 105, where the formula gives 70.
    - One attempt that takes the repair path: the repair model is built
      without prices, its cost is [NaN] and is added as 0; the result
      counts 21 sent and 9 received and a cost of 35, where the formula
      gives 69. *)
Theorem Prompt_call_cost_off_formula :
  let self := Prompt_new (mkSettings "gpt-4" (Some 100) (Some 2%Q) (Some 3%Q)) in
  let s := initState (RateLimiter_new 100 1000 (8 # 10)) in
  let valid := mkTextWorld (Some (JS.VStr "hi")) (inl "unused"%string) 0 in
  let repairable := mkTextWorld None (inr (JS.VStr "fixed")) 4 in
  let hopeless := mkTextWorld None (inl "parse failed"%string) 0 in
  let retried := mkCallWorld 10 10
                   (fun i => match i with
                             | O => ChainReturns 5 hopeless
                             | _ => ChainReturns 5 valid
                             end) in
  let repaired := mkCallWorld 10 10 (fun _ => ChainReturns 5 repairable) in
  (fst (Prompt_call self (mkCallData false None) retried 5 1000 s)
   = Ok (Result (mkCallResult (JS.VStr "hi") 20 10 (JS.Num 105)))
   /\ (priceFormula 2 3 20 10 == 70)%Q
   /\ ~ JS.eq (JS.Num 105) (JS.Num (priceFormula 2 3 20 10)))
  /\ (fst (Prompt_call self (mkCallData false None) repaired 5 1000 s)
      = Ok (Result (mkCallResult (JS.VStr "fixed") 21 9 (JS.Num 35)))
      /\ (priceFormula 2 3 21 9 == 69)%Q
      /\ ~ JS.eq (JS.Num 35) (JS.Num (priceFormula 2 3 21 9))).
Proof.
  cbv zeta. split; (split; [vm_compute; reflexivity|]); split;
    try (vm_compute; reflexivity); intros H; vm_compute in H; discriminate.
Qed.

(** The repair model has no prices: the cost it computes is [NaN]. *)
Example JSONParser_repair_cost_is_NaN :
  Model_calculateCost (jp_model (JSONParser_new "gpt-4")) (JS.ofZ 11) (JS.ofZ 4) = JS.NaN
  /\ ~ JS.pos (Model_calculateCost (jp_model (JSONParser_new "gpt-4")) (JS.ofZ 11) (JS.ofZ 4)).
Proof. split; [reflexivity | intros []]. Qed.

(* ------------------------------------------------------------------ *)
(** ** TextSplitter.splitText *)

Lemma roundExact_div (a b : Z) :
  0 < b -> roundExact a b = (200 * a + b) / (2 * b).
Proof.
  intros Hb. unfold roundExact.
  destruct b as [|p|p]; try lia.
  assert (H : (inject_Z a / inject_Z (Z.pos p) * 100 + (1 # 2)
               == (200 * a + Z.pos p) # (2 * p))%Q).
  { cbv [Qeq Qplus Qmult Qdiv Qinv inject_Z Qnum Qden].
    rewrite ?Pos2Z.inj_mul. ring. }
  rewrite (Qfloor_comp _ _ H). reflexivity.
Qed.

(** What the check says of each pair it covers. *)
Lemma percentCheckUpTo_spec (n : nat) :
  percentCheckUpTo n = true ->
  forall a b : nat, (1 <= b <= n)%nat -> (a <= b)%nat ->
    percentCheck (Z.of_nat a) (Z.of_nat b) = true.
Proof.
  intros Hall a b Hb Ha.
  unfold percentCheckUpTo in Hall. rewrite forallb_forall in Hall.
  specialize (Hall b ltac:(apply in_seq; lia)).
  rewrite forallb_forall in Hall.
  apply Hall. apply in_seq. lia.
Qed.

(** The check, computed, for every excerpt count [a <= b <= 100]. *)
Lemma percentCheck_100 : percentCheckUpTo 100 = true.
Proof. vm_compute. reflexivity. Qed.

(** For totals up to 100 the percentage computed in doubles is an integer
    from 0 to 100: the rounding of the exact ratio, or one below it. *)
Lemma roundPercent_small (a b : Z) :
  0 <= a <= b -> 1 <= b <= 100 ->
  exists z, roundPercent a b = Pct z
            /\ 0 <= z <= 100
            /\ (z = roundExact a b \/ z = roundExact a b - 1).
Proof.
  intros Ha Hb.
  pose proof (percentCheckUpTo_spec 100 percentCheck_100 (Z.to_nat a) (Z.to_nat b)
                ltac:(lia) ltac:(lia)) as Hall.
  rewrite !Z2Nat.id in Hall by lia.
  unfold percentCheck in Hall.
  destruct (roundPercent a b) as [z | | ]; try discriminate.
  apply andb_prop in Hall. destruct Hall as [Hall Hhi].
  apply andb_prop in Hall. destruct Hall as [Heq Hlo].
  exists z. split; [reflexivity|].
  rewrite roundExact_div by lia.
  apply Z.leb_le in Hhi, Hlo. split; [lia|].
  apply orb_prop in Heq. destruct Heq as [Heq | Heq]; apply Z.eqb_eq in Heq; lia.
Qed.

(** C8, as amended.  [splitText] returns as [totalTextTokenLength] the
    token count of the whole text plus [chunkOverlap] times the number of
    excerpts, there is always at least one excerpt, and every excerpt
    carries its own token count and, as percentage, the value of
    [Math.round(excerptTokenLength / totalTextTokenLength * 100)] as
    JavaScript computes it, in doubles, against that total.  For totals
    up to 100 this is the rounding of the exact ratio or one below it. *)
Theorem TextSplitter_splitText_totals
    (countTokens : string -> Z) (createDocuments : Z -> Z -> string -> list string)
    (self : TextSplitter) (text : string) :
  let r := TextSplitter_splitText countTokens createDocuments self text in
  totalTextTokenLength r
  = countTokens text + chunkOverlap self * Z.of_nat (List.length (excerpts r))
  /\ excerpts r <> []
  /\ Forall (fun e =>
               excerptTokenLength e = countTokens (excerpt e)
               /\ excerptPercentageLength e
                  = roundPercent (excerptTokenLength e) (totalTextTokenLength r)
               /\ (0 <= excerptTokenLength e <= totalTextTokenLength r ->
                   1 <= totalTextTokenLength r <= 100 ->
                   exists z,
                     excerptPercentageLength e = Pct z
                     /\ 0 <= z <= 100
                     /\ (z = roundExact (excerptTokenLength e) (totalTextTokenLength r)
                         \/ z = roundExact (excerptTokenLength e)
                                  (totalTextTokenLength r) - 1)))
            (excerpts r).
Proof.
  unfold TextSplitter_splitText. cbn [totalTextTokenLength excerpts].
  set (chunks := match filter nonEmpty _ with [] => [text] | _ => _ end).
  split; [now rewrite length_map|].
  split.
  - assert (Hne : chunks <> []).
    { unfold chunks. destruct (filter nonEmpty _); discriminate. }
    destruct chunks; [congruence | discriminate].
  - apply Forall_forall. intros e He.
    apply in_map_iff in He. destruct He as (c & <- & _).
    cbn [excerptTokenLength excerpt excerptPercentageLength].
    split; [reflexivity|]. split; [reflexivity|].
    apply roundPercent_small.
Qed.

Lemma TextSplitter_splitText_totals_witness :
  let r := TextSplitter_splitText (fun t => Z.of_nat (String.length t))
             (fun _ _ _ => ["aaaaaaaaaaaaaaaaaaaaaaa"; "bbbbbbbbbbbbbbbbb"]%string)
             (TextSplitter_new 23 0 1)
             "aaaaaaaaaaaaaaaaaaaaaaabbbbbbbbbbbbbbbbb" in
  totalTextTokenLength r = 40
  /\ Forall (fun e => exists z,
                excerptPercentageLength e = Pct z
                /\ 0 <= z <= 100
                /\ (z = roundExact (excerptTokenLength e) 40
                    \/ z = roundExact (excerptTokenLength e) 40 - 1))
       (excerpts r).
Proof.
  cbv zeta.
  destruct (TextSplitter_splitText_totals (fun t => Z.of_nat (String.length t))
              (fun _ _ _ => ["aaaaaaaaaaaaaaaaaaaaaaa"; "bbbbbbbbbbbbbbbbb"]%string)
              (TextSplitter_new 23 0 1)
              "aaaaaaaaaaaaaaaaaaaaaaabbbbbbbbbbbbbbbbb") as (Htotal & _ & Hall).
  remember (TextSplitter_splitText (fun t => Z.of_nat (String.length t))
              (fun _ _ _ => ["aaaaaaaaaaaaaaaaaaaaaaa"; "bbbbbbbbbbbbbbbbb"]%string)
              (TextSplitter_new 23 0 1)
              "aaaaaaaaaaaaaaaaaaaaaaabbbbbbbbbbbbbbbbb") as r eqn:Hr.
  assert (Htot : totalTextTokenLength r = 40) by (rewrite Hr; vm_compute; reflexivity).
  assert (Hex : excerpts r = [mkExcerpt "aaaaaaaaaaaaaaaaaaaaaaa" 23 (Pct 57);
                              mkExcerpt "bbbbbbbbbbbbbbbbb" 17 (Pct 43)])
    by (rewrite Hr; vm_compute; reflexivity).
  split; [exact Htot|].
  rewrite Htot, Hex in Hall. rewrite Hex.
  inversion Hall as [|e1 l1 (_ & _ & H1) Hall' E1]; subst.
  inversion Hall' as [|e2 l2 (_ & _ & H2) _ E2]; subst.
  constructor; [apply H1; simpl; lia|].
  constructor; [apply H2; simpl; lia|].
  constructor.
Defined.

(** C8, the claim as written fails: an excerpt of 23 tokens in a text of
    40 carries 57, where [round(23 / 40 * 100)] is the rounding of 57.5,
    58: the double [23 / 40 * 100] is 57.49999999999999. *)
Lemma TextSplitter_splitText_percentage_in_doubles :
  let r := TextSplitter_splitText (fun t => Z.of_nat (String.length t))
             (fun _ _ _ => ["aaaaaaaaaaaaaaaaaaaaaaa"; "bbbbbbbbbbbbbbbbb"]%string)
             (TextSplitter_new 23 0 1)
             "aaaaaaaaaaaaaaaaaaaaaaabbbbbbbbbbbbbbbbb" in
  totalTextTokenLength r = 40
  /\ map excerptTokenLength (excerpts r) = [23; 17]
  /\ map excerptPercentageLength (excerpts r) = [Pct 57; Pct 43]
  /\ (inject_Z 23 / inject_Z 40 * 100 == 115 # 2)%Q
  /\ roundExact 23 40 = 58
  /\ Pct 57 <> Pct (roundExact 23 40).
Proof.
  vm_compute. repeat split; try reflexivity; discriminate.
Qed.

(** A text of 10 tokens cut into pieces of 6 and 4 tokens with an overlap
    of 1: the total is 12, the percentages 50 and 33. *)
Example TextSplitter_splitText_two_chunks :
  TextSplitter_splitText (fun t => Z.of_nat (String.length t))
    (fun _ _ _ => ["aaaaaa"; ""; "bbbb"]%string)
    (TextSplitter_new 6 1 1) "aaaaaabbbb"
  = mkSplitResult 12 [mkExcerpt "aaaaaa" 6 (Pct 50); mkExcerpt "bbbb" 4 (Pct 33)].
Proof. reflexivity. Qed.

(* ------------------------------------------------------------------ *)
(** ** DocumentPrompt.call *)

(** [Prompt.call] leaves the locals of [DocumentPrompt.call] alone. *)
Lemma Prompt_attempt_doc (self : Prompt) (a : Attempt) (pt : Z) (s : State) :
  doc (snd (RateLimiter_process (Prompt_task self a pt) s)) = doc s.
Proof.
  unfold RateLimiter_process, Bottleneck_schedule, RateLimiter_job, Prompt_task,
    JSONParser_parse, RateLimiter_process, Bottleneck_schedule, RateLimiter_job,
    Bottleneck_incrementReservoir.
  destruct a as [e | textTokens text]; run; break_ifs; reflexivity.
Qed.

Lemma Prompt_retry_doc (self : Prompt) (w : CallWorld) (retryDelay : Z) :
  forall (n i : nat) (s : State),
    doc (snd (Prompt_retry self w retryDelay n i s)) = doc s.
Proof.
  induction n as [|n IH]; intros i s; [reflexivity|].
  rewrite Prompt_retry_step.
  pose proof (Prompt_attempt_doc self (w_attempt w i) (w_promptTokens w) s) as Hd.
  fold (Prompt_attempt self w i) in Hd.
  destruct (Prompt_attempt self w i s) as [[r0 | e | ] s1]; simpl in Hd; try exact Hd.
  destruct n as [|m]; [exact Hd|].
  rewrite IH. exact Hd.
Qed.

Lemma Prompt_call_doc (self : Prompt) (data : CallData) (w : CallWorld)
    (retries retryDelay : Z) (s : State) :
  doc (snd (Prompt_call self data w retries retryDelay s)) = doc s.
Proof.
  unfold Prompt_call. run.
  destruct (match option_map _ (maxTokens (model self)) with
            | Some r => r <? 0
            | None => false
            end); [reflexivity|].
  destruct (dryrun data); [reflexivity|].
  rewrite Prompt_retry_doc. reflexivity.
Qed.

(** The loop never throws: what an excerpt throws is caught. *)
Lemma DocumentPrompt_loop_no_throw (self : DocumentPrompt) (settings : DocSettings)
    (w : DocWorld) :
  forall (es : list Excerpt) (i : nat) (s : State) (err : error),
    fst (DocumentPrompt_loop self settings w es i s) <> Throw err.
Proof.
  induction es as [|e rest IH]; intros i s err; [discriminate|].
  cbn [DocumentPrompt_loop]. unfold bind at 1, tryCatch.
  destruct (DocumentPrompt_body self settings w e i s) as [[stop | e' | ] s1].
  - destruct stop; [discriminate | apply IH].
  - run. apply IH.
  - discriminate.
Qed.

(** One turn of the loop, by how the body of the [try] ends. *)
Lemma DocumentPrompt_loop_step (self : DocumentPrompt) (settings : DocSettings)
    (w : DocWorld) (e : Excerpt) (rest : list Excerpt) (i : nat) (s : State) :
  DocumentPrompt_loop self settings w (e :: rest) i s =
  match DocumentPrompt_body self settings w e i s with
  | (Ok true, s1) => (Ok tt, s1)
  | (Ok false, s1) => DocumentPrompt_loop self settings w rest (S i) s1
  | (Throw err, s1) =>
      DocumentPrompt_loop self settings w rest (S i)
        (withEvents (events s1 ++ [EvConsoleLog err]) s1)
  | (Suspended, s1) => (Suspended, s1)
  end.
Proof.
  cbn [DocumentPrompt_loop]. unfold bind at 1, tryCatch.
  destruct (DocumentPrompt_body self settings w e i s) as [[stop | e' | ] s1];
    try reflexivity.
  destruct stop; reflexivity.
Qed.

(** The body of the [try], outside of a dry run, by how [prompt.call] ends. *)
Lemma DocumentPrompt_body_call (self : DocumentPrompt) (settings : DocSettings)
    (w : DocWorld) (e : Excerpt) (i : nat) (s : State) :
  ds_dryrun settings = false ->
  DocumentPrompt_body self settings w e i s =
  match Prompt_call (dp_prompt self)
          (mkCallData false (Some (dp_responseTokenLength self))) (dw_call w i) 5 1000 s
  with
  | (Ok data, s1) =>
      let v := afterExcerpt (doc s1) data e in
      match ds_progress settings with
      | Some progress =>
          let s2 := withEvents (events s1 ++ [EvProgress (runningState v)])
                      (withDoc v s1) in
          match progress (runningState v) with
          | inl err => (Throw err, s2)
          | inr progressResponse => (Ok (isStop progressResponse), s2)
          end
      | None => (Ok false, withDoc v s1)
      end
  | (Throw err, s1) => (Throw err, s1)
  | (Suspended, s1) => (Suspended, s1)
  end.
Proof.
  intros Hdry. unfold DocumentPrompt_body. rewrite Hdry.
  unfold bind at 1. unfold bind at 1.
  destruct (Prompt_call _ _ _ 5 1000 s) as [[data | err | ] s1]; try reflexivity.
  run. destruct (ds_progress settings) as [progress|]; [|reflexivity].
  simpl. unfold runningState, afterExcerpt. simpl.
  destruct (progress _); reflexivity.
Qed.

(** [Prompt.call] neither logs an error nor calls a progress callback. *)
Lemma Prompt_attempt_quiet (self : Prompt) (a : Attempt) (pt : Z) (s : State) :
  logged (events (snd (RateLimiter_process (Prompt_task self a pt) s))) = logged (events s)
  /\ progressCalls (events (snd (RateLimiter_process (Prompt_task self a pt) s)))
     = progressCalls (events s).
Proof.
  unfold RateLimiter_process, Bottleneck_schedule, RateLimiter_job, Prompt_task,
    JSONParser_parse, RateLimiter_process, Bottleneck_schedule, RateLimiter_job,
    Bottleneck_incrementReservoir.
  destruct a as [e | textTokens text]; run; break_ifs.
  all: rewrite ?logged_app, ?progressCalls_app; simpl; rewrite ?app_nil_r.
  all: split; reflexivity.
Qed.

Lemma Prompt_retry_quiet (self : Prompt) (w : CallWorld) (retryDelay : Z) :
  forall (n i : nat) (s : State),
    logged (events (snd (Prompt_retry self w retryDelay n i s))) = logged (events s)
    /\ progressCalls (events (snd (Prompt_retry self w retryDelay n i s)))
       = progressCalls (events s).
Proof.
  induction n as [|n IH]; intros i s; [split; reflexivity|].
  rewrite Prompt_retry_step.
  pose proof (Prompt_attempt_quiet self (w_attempt w i) (w_promptTokens w) s) as Hq.
  fold (Prompt_attempt self w i) in Hq.
  destruct (Prompt_attempt self w i s) as [[r0 | e | ] s1]; simpl in Hq; try exact Hq.
  destruct n as [|m]; [exact Hq|].
  destruct (IH (S i) (withEvents (events s1 ++ [EvDelay retryDelay]) s1)) as [Hl Hp].
  rewrite Hl, Hp. simpl.
  rewrite logged_app, progressCalls_app. simpl. rewrite !app_nil_r. exact Hq.
Qed.

Lemma Prompt_call_quiet (self : Prompt) (data : CallData) (w : CallWorld)
    (retries retryDelay : Z) (s : State) :
  logged (events (snd (Prompt_call self data w retries retryDelay s))) = logged (events s)
  /\ progressCalls (events (snd (Prompt_call self data w retries retryDelay s)))
     = progressCalls (events s).
Proof.
  unfold Prompt_call. run.
  destruct (match option_map _ (maxTokens (model self)) with
            | Some r => r <? 0
            | None => false
            end); [simpl; split; reflexivity|].
  destruct (dryrun data); [simpl; split; reflexivity|].
  apply (Prompt_retry_quiet self w retryDelay (Z.to_nat retries) 0
           (withVars (mkCounters 0 0 (JS.Num 0)) s)).
Qed.

(** With capacity to come, [Prompt.call] returns or throws. *)
Lemma Prompt_call_settles (self : Prompt) (data : CallData) (w : CallWorld)
    (retries retryDelay : Z) (s : State) :
  refills s ->
  fst (Prompt_call self data w retries retryDelay s) <> Suspended
  /\ refills (snd (Prompt_call self data w retries retryDelay s)).
Proof.
  intros Hs. unfold Prompt_call. unfold bind at 1, setVars, modify.
  destruct (match option_map _ (maxTokens (model self)) with
            | Some r => r <? 0
            | None => false
            end); [split; [discriminate | exact Hs]|].
  destruct (dryrun data); [split; [discriminate | exact Hs]|].
  apply Prompt_retry_settles. exact Hs.
Qed.

(** [DocumentPrompt.call] is its loop over the excerpts of the text, run
    from fresh locals, followed by the return of the running totals. *)
Lemma DocumentPrompt_call_loop
    (countTokens : string -> Z) (createDocuments : Z -> Z -> string -> list string)
    (self : DocumentPrompt) (text : string) (settings : DocSettings) (w : DocWorld)
    (s : State) :
  DocumentPrompt_call countTokens createDocuments self text settings w s
  = match DocumentPrompt_loop self settings w
            (excerpts (TextSplitter_splitText countTokens createDocuments
                         (dp_splitter self) text)) 0
            (withDoc (mkDocVars 0 0 0 (JS.Num 0) None 0) s)
    with
    | (Ok _, s') => (Ok (totals (doc s')), s')
    | (Throw err, s') => (Throw err, s')
    | (Suspended, s') => (Suspended, s')
    end.
Proof.
  unfold DocumentPrompt_call.
  unfold bind at 1, setDoc, modify. unfold bind at 1.
  destruct (DocumentPrompt_loop _ _ _ _ _ _) as [[[] | err | ] s1]; reflexivity.
Qed.

(** One turn of the loop outside of a dry run, by how [prompt.call] ends
    for the excerpt. *)
Lemma DocumentPrompt_loop_turn (self : DocumentPrompt) (settings : DocSettings)
    (w : DocWorld) (e : Excerpt) (i : nat) (s : State) :
  ds_dryrun settings = false ->
  refills s ->
  fst (excerptCall self w i s) <> Suspended
  /\ exists s1,
       refills s1
       /\ doc s1 = addVerdict (doc s) (e, fst (excerptCall self w i s))
       /\ (ds_progress settings = None ->
           logged (events s1)
           = logged (events s) ++ thrown [fst (excerptCall self w i s)])
       /\ ((forall rest,
              DocumentPrompt_loop self settings w (e :: rest) i s
              = DocumentPrompt_loop self settings w rest (S i) s1)
           \/ ((forall rest,
                  DocumentPrompt_loop self settings w (e :: rest) i s = (Ok tt, s1))
               /\ exists progress progressResponse,
                    ds_progress settings = Some progress
                    /\ progress (runningState (doc s1)) = inr progressResponse
                    /\ isStop progressResponse = true)).
Proof.
  intros Hdry Hs. unfold excerptCall.
  pose proof (DocumentPrompt_body_call self settings w e i s Hdry) as Hbody.
  destruct (Prompt_call_settles (dp_prompt self)
              (mkCallData false (Some (dp_responseTokenLength self)))
              (dw_call w i) 5 1000 s Hs) as [Hne Href].
  destruct (Prompt_call_quiet (dp_prompt self)
              (mkCallData false (Some (dp_responseTokenLength self)))
              (dw_call w i) 5 1000 s) as [Hlog _].
  pose proof (Prompt_call_doc (dp_prompt self)
                (mkCallData false (Some (dp_responseTokenLength self)))
                (dw_call w i) 5 1000 s) as Hd.
  split; [exact Hne|].
  destruct (Prompt_call _ _ _ 5 1000 s) as [[data | err | ] s1];
    cbn [fst snd] in *; [| |congruence].
  - (* prompt.call returned *)
    cbv zeta in Hbody. rewrite Hd in Hbody.
    destruct (ds_progress settings) as [progress|] eqn:Hp.
    + destruct (progress (runningState (afterExcerpt (doc s) data e)))
        as [err | progressResponse] eqn:Hanswer.
      * exists (withEvents
                  ((events s1 ++ [EvProgress (runningState (afterExcerpt (doc s) data e))])
                   ++ [EvConsoleLog err])
                  (withDoc (afterExcerpt (doc s) data e) s1)).
        split; [exact Href|]. split; [reflexivity|]. split; [discriminate|].
        left. intros rest. rewrite DocumentPrompt_loop_step, Hbody. reflexivity.
      * destruct (isStop progressResponse) eqn:Hstop.
        -- exists (withEvents
                     (events s1 ++ [EvProgress (runningState (afterExcerpt (doc s) data e))])
                     (withDoc (afterExcerpt (doc s) data e) s1)).
           split; [exact Href|]. split; [reflexivity|]. split; [discriminate|].
           right. split.
           ++ intros rest. rewrite DocumentPrompt_loop_step, Hbody. reflexivity.
           ++ exists progress, progressResponse.
              split; [reflexivity|]. split; [exact Hanswer | exact Hstop].
        -- exists (withEvents
                     (events s1 ++ [EvProgress (runningState (afterExcerpt (doc s) data e))])
                     (withDoc (afterExcerpt (doc s) data e) s1)).
           split; [exact Href|]. split; [reflexivity|]. split; [discriminate|].
           left. intros rest. rewrite DocumentPrompt_loop_step, Hbody. reflexivity.
    + exists (withDoc (afterExcerpt (doc s) data e) s1).
      split; [exact Href|]. split; [reflexivity|]. split.
      * intros _. simpl. rewrite app_nil_r. exact Hlog.
      * left. intros rest. rewrite DocumentPrompt_loop_step, Hbody. reflexivity.
  - (* prompt.call threw *)
    exists (withEvents (events s1 ++ [EvConsoleLog err]) s1).
    split; [exact Href|]. split; [exact Hd|]. split.
    + intros _. simpl. rewrite logged_app, Hlog. reflexivity.
    + left. intros rest. rewrite DocumentPrompt_loop_step, Hbody. reflexivity.
Qed.

(** The verdicts of a list of excerpts, from those of its tail. *)
Lemma verdicts_step (self : DocumentPrompt) (settings : DocSettings) (w : DocWorld)
    (e : Excerpt) (l : list Excerpt) (i : nat) (s s1 : State) :
  (forall rest,
     DocumentPrompt_loop self settings w (e :: rest) i s
     = DocumentPrompt_loop self settings w rest (S i) s1) ->
  verdicts self settings w (e :: l) i s
  = fst (excerptCall self w i s) :: verdicts self settings w l (S i) s1.
Proof.
  intros Hstep. unfold verdicts. cbn [List.length seq].
  rewrite <- seq_shift. cbn [map]. rewrite map_map.
  change (firstn 0 (e :: l)) with (@nil Excerpt).
  change (snd (DocumentPrompt_loop self settings w [] i s)) with s.
  rewrite Nat.add_0_r. apply (f_equal (cons (fst (excerptCall self w i s)))).
  apply map_ext. intros j. cbn [firstn]. rewrite Hstep, Nat.add_succ_r. reflexivity.
Qed.

Lemma verdicts_one (self : DocumentPrompt) (settings : DocSettings) (w : DocWorld)
    (e : Excerpt) (i : nat) (s : State) :
  verdicts self settings w [e] i s = [fst (excerptCall self w i s)].
Proof. unfold verdicts. simpl. rewrite Nat.add_0_r. reflexivity. Qed.

(** The loop outside of a dry run: the totals it ends with are those of
    the excerpts whose [prompt.call] returned. *)
Lemma DocumentPrompt_loop_totals (self : DocumentPrompt) (settings : DocSettings)
    (w : DocWorld) :
  ds_dryrun settings = false ->
  forall (es : list Excerpt) (i : nat) (s : State),
    refills s ->
    exists s' k,
      DocumentPrompt_loop self settings w es i s = (Ok tt, s')
      /\ refills s'
      /\ (k <= List.length es)%nat
      /\ doc s' = fold_left addVerdict
                    (combine (firstn k es) (verdicts self settings w (firstn k es) i s))
                    (doc s)
      /\ Forall (fun r => r <> Suspended) (verdicts self settings w (firstn k es) i s)
      /\ (ds_progress settings = None ->
          k = List.length es
          /\ logged (events s')
             = logged (events s) ++ thrown (verdicts self settings w (firstn k es) i s))
      /\ ((k < List.length es)%nat ->
          exists progress progressResponse,
            ds_progress settings = Some progress
            /\ progress (runningState (doc s')) = inr progressResponse
            /\ isStop progressResponse = true).
Proof.
  intros Hdry. induction es as [|e rest IH]; intros i s Hs.
  - exists s, 0%nat. cbn.
    split; [reflexivity|]. split; [exact Hs|]. split; [lia|]. split; [reflexivity|].
    split; [constructor|]. split; [|lia].
    intros _. split; [reflexivity|]. now rewrite app_nil_r.
  - destruct (DocumentPrompt_loop_turn self settings w e i s Hdry Hs)
      as (Hne & s1 & Href & Hdoc & Hlog & [Hstep | [Hstop Hanswer]]).
    + destruct (IH (S i) s1 Href)
        as (s' & k & Hrun & Href' & Hk & Hdoc' & Hall & Hnone & Hstopped).
      exists s', (S k). cbn [firstn List.length].
      rewrite (verdicts_step self settings w e (firstn k rest) i s s1 Hstep).
      cbn [combine fold_left]. rewrite <- Hdoc.
      split; [rewrite Hstep; exact Hrun|]. split; [exact Href'|]. split; [lia|].
      split; [exact Hdoc'|]. split; [constructor; assumption|]. split.
      * intros Hp. destruct (Hnone Hp) as [-> Hl]. split; [reflexivity|].
        rewrite Hl, (Hlog Hp). unfold thrown. cbn [flat_map].
        rewrite app_nil_r, app_assoc. reflexivity.
      * intros Hlt. apply Hstopped. lia.
    + exists s1, 1%nat. cbn [firstn List.length].
      rewrite verdicts_one. cbn [combine fold_left].
      split; [apply Hstop|]. split; [exact Href|]. split; [lia|].
      split; [exact Hdoc|]. split; [constructor; [exact Hne | constructor]|]. split.
      * intros Hp. destruct Hanswer as (progress & r & Hsome & _). congruence.
      * intros _. exact Hanswer.
Qed.

(** The body of the [try] in a dry run. *)
Lemma DocumentPrompt_body_dryrun (self : DocumentPrompt) (settings : DocSettings)
    (w : DocWorld) (e : Excerpt) (i : nat) (s : State) :
  ds_dryrun settings = true ->
  DocumentPrompt_body self settings w e i s =
  let v := afterDryExcerpt self (doc s) (dw_tokenCount w i) e in
  match ds_progress settings with
  | Some progress =>
      let s2 := withEvents (events s ++ [EvProgress (runningState v)]) (withDoc v s) in
      match progress (runningState v) with
      | inl err => (Throw err, s2)
      | inr progressResponse => (Ok (isStop progressResponse), s2)
      end
  | None => (Ok false, withDoc v s)
  end.
Proof.
  intros Hdry. unfold DocumentPrompt_body. rewrite Hdry. run.
  destruct (ds_progress settings) as [progress|]; [|reflexivity].
  simpl. unfold runningState, afterDryExcerpt. simpl.
  destruct (progress _); reflexivity.
Qed.

(** With capacity to come, the body of the [try] returns or throws. *)
Lemma DocumentPrompt_body_settles (self : DocumentPrompt) (settings : DocSettings)
    (w : DocWorld) (e : Excerpt) (i : nat) (s : State) :
  (ds_dryrun settings = false -> refills s) ->
  fst (DocumentPrompt_body self settings w e i s) <> Suspended
  /\ (ds_dryrun settings = false ->
      refills (snd (DocumentPrompt_body self settings w e i s))).
Proof.
  intros Hadmit. destruct (ds_dryrun settings) eqn:Hdry.
  - rewrite (DocumentPrompt_body_dryrun self settings w e i s Hdry). cbv zeta.
    destruct (ds_progress settings) as [progress|];
      [destruct (progress _)|]; split; discriminate.
  - rewrite (DocumentPrompt_body_call self settings w e i s Hdry).
    destruct (Prompt_call_settles (dp_prompt self)
                (mkCallData false (Some (dp_responseTokenLength self)))
                (dw_call w i) 5 1000 s (Hadmit eq_refl)) as [Hne Href].
    destruct (Prompt_call _ _ _ 5 1000 s) as [[data | err | ] s1];
      cbn [fst snd] in *; [| |congruence].
    + cbv zeta. destruct (ds_progress settings) as [progress|];
        [destruct (progress _)|]; (split; [discriminate | intros _; exact Href]).
    + split; [discriminate | intros _; exact Href].
Qed.

(** So the loop returns, whatever the excerpts do. *)
Lemma DocumentPrompt_loop_returns (self : DocumentPrompt) (settings : DocSettings)
    (w : DocWorld) :
  forall (es : list Excerpt) (i : nat) (s : State),
    (ds_dryrun settings = false -> refills s) ->
    exists s', DocumentPrompt_loop self settings w es i s = (Ok tt, s').
Proof.
  induction es as [|e rest IH]; intros i s Hadmit; [now exists s|].
  rewrite DocumentPrompt_loop_step.
  destruct (DocumentPrompt_body_settles self settings w e i s Hadmit) as [Hne Href].
  destruct (DocumentPrompt_body self settings w e i s) as [[[] | err | ] s1];
    cbn [fst snd] in *; [| | |congruence].
  - now exists s1.
  - apply IH. exact Href.
  - apply IH. exact Href.
Qed.

(** C6, as amended.  [DocumentPrompt.call] never throws: what the
    processing of an excerpt throws is caught and logged, and the loop
    goes on with the next excerpt; with capacity to come in the limiter
    the call returns, and what it returns is the running response with
    the running cost, [tokensSent] and [tokensReceived] the loop over the
    excerpts of the text ends with.  Outside of a dry run these totals are
    cumulated over the excerpts whose [prompt.call] returned: each adds
    what its call returned and replaces the response when the new one is
    truthy, while an excerpt whose [prompt.call] threw is logged and adds
    nothing.  Without a progress callback every excerpt is gone through
    and the errors logged are those thrown by [prompt.call], in order;
    with one, the excerpts gone through are all of them or those up to
    the one after which the callback answered ["stop"]. *)
Theorem DocumentPrompt_call_tolerates_failures
    (countTokens : string -> Z) (createDocuments : Z -> Z -> string -> list string)
    (self : DocumentPrompt) (text : string) (settings : DocSettings) (w : DocWorld)
    (s : State) :
  let es := excerpts (TextSplitter_splitText countTokens createDocuments
                        (dp_splitter self) text) in
  let first := withDoc (mkDocVars 0 0 0 (JS.Num 0) None 0) s in
  let out := DocumentPrompt_call countTokens createDocuments self text settings w s in
  (forall err, fst out <> Throw err)
  /\ ((ds_dryrun settings = false -> refills s) ->
      exists s',
        DocumentPrompt_loop self settings w es 0 first = (Ok tt, s')
        /\ out = (Ok (totals (doc s')), s'))
  /\ (forall e rest i s0 err s1,
        DocumentPrompt_body self settings w e i s0 = (Throw err, s1) ->
        DocumentPrompt_loop self settings w (e :: rest) i s0 =
        DocumentPrompt_loop self settings w rest (S i)
          (withEvents (events s1 ++ [EvConsoleLog err]) s1))
  /\ (forall e i s0 err s1,
        ds_dryrun settings = false ->
        excerptCall self w i s0 = (Throw err, s1) ->
        DocumentPrompt_body self settings w e i s0 = (Throw err, s1)
        /\ doc s1 = doc s0)
  /\ (forall e i s0 data s1,
        ds_dryrun settings = false ->
        excerptCall self w i s0 = (Ok data, s1) ->
        doc (snd (DocumentPrompt_body self settings w e i s0))
        = afterExcerpt (doc s0) data e
        /\ (ds_progress settings = None ->
            DocumentPrompt_body self settings w e i s0
            = (Ok false, withDoc (afterExcerpt (doc s0) data e) s1)))
  /\ (ds_dryrun settings = false ->
      ds_progress settings = None ->
      refills s ->
      exists s',
        out = (Ok (totals (doc s')), s')
        /\ doc s' = fold_left addVerdict
                      (combine es (verdicts self settings w es 0 first))
                      (mkDocVars 0 0 0 (JS.Num 0) None 0)
        /\ logged (events s')
           = logged (events s) ++ thrown (verdicts self settings w es 0 first)
        /\ Forall (fun r => r <> Suspended) (verdicts self settings w es 0 first))
  /\ (ds_dryrun settings = false ->
      refills s ->
      exists s' k,
        out = (Ok (totals (doc s')), s')
        /\ (k <= List.length es)%nat
        /\ doc s' = fold_left addVerdict
                      (combine (firstn k es)
                         (verdicts self settings w (firstn k es) 0 first))
                      (mkDocVars 0 0 0 (JS.Num 0) None 0)
        /\ Forall (fun r => r <> Suspended)
             (verdicts self settings w (firstn k es) 0 first)
        /\ ((k < List.length es)%nat ->
            exists progress progressResponse,
              ds_progress settings = Some progress
              /\ progress (runningState (doc s')) = inr progressResponse
              /\ isStop progressResponse = true)).
Proof.
  cbv zeta.
  set (es := excerpts (TextSplitter_splitText countTokens createDocuments
                         (dp_splitter self) text)).
  set (first := withDoc (mkDocVars 0 0 0 (JS.Num 0) None 0) s).
  pose proof (DocumentPrompt_call_loop countTokens createDocuments self text settings w s)
    as Hcall.
  fold es first in Hcall.
  split; [|split; [|split; [|split; [|split; [|split]]]]].
  - intros err. rewrite Hcall.
    pose proof (DocumentPrompt_loop_no_throw self settings w es 0 first err) as Hno.
    destruct (DocumentPrompt_loop self settings w es 0 first) as [[[] | e' | ] s1];
      cbn [fst] in *; [discriminate | intros [= ->]; now apply Hno | discriminate].
  - intros Hadmit.
    destruct (DocumentPrompt_loop_returns self settings w es 0 first Hadmit) as [s' Hrun].
    exists s'. split; [exact Hrun|]. rewrite Hcall, Hrun. reflexivity.
  - intros e rest i s0 err s1 Hbody.
    rewrite DocumentPrompt_loop_step, Hbody. reflexivity.
  - intros e i s0 err s1 Hdry Hthrows. unfold excerptCall in Hthrows.
    rewrite (DocumentPrompt_body_call self settings w e i s0 Hdry), Hthrows.
    split; [reflexivity|].
    pose proof (Prompt_call_doc (dp_prompt self)
                  (mkCallData false (Some (dp_responseTokenLength self)))
                  (dw_call w i) 5 1000 s0) as Hd.
    rewrite Hthrows in Hd. exact Hd.
  - intros e i s0 data s1 Hdry Hreturns. unfold excerptCall in Hreturns.
    rewrite (DocumentPrompt_body_call self settings w e i s0 Hdry), Hreturns.
    pose proof (Prompt_call_doc (dp_prompt self)
                  (mkCallData false (Some (dp_responseTokenLength self)))
                  (dw_call w i) 5 1000 s0) as Hd.
    rewrite Hreturns in Hd. cbn [snd] in Hd. cbv zeta. rewrite Hd.
    split.
    + destruct (ds_progress settings) as [progress|];
        [destruct (progress _)|]; reflexivity.
    + intros ->. reflexivity.
  - intros Hdry Hnone Hs.
    destruct (DocumentPrompt_loop_totals self settings w Hdry es 0 first Hs)
      as (s' & k & Hrun & _ & _ & Hdoc & Hall & Hlog & _).
    destruct (Hlog Hnone) as [-> Hl].
    rewrite firstn_all in Hdoc, Hall, Hl.
    exists s'. rewrite Hcall, Hrun.
    split; [reflexivity|]. split; [exact Hdoc|]. split; [exact Hl | exact Hall].
  - intros Hdry Hs.
    destruct (DocumentPrompt_loop_totals self settings w Hdry es 0 first Hs)
      as (s' & k & Hrun & _ & Hk & Hdoc & Hall & _ & Hstopped).
    exists s', k. rewrite Hcall, Hrun.
    split; [reflexivity|]. split; [exact Hk|]. split; [exact Hdoc|].
    split; [exact Hall | exact Hstopped].
Qed.

Lemma DocumentPrompt_call_tolerates_failures_witness :
  let valid := fun v => mkTextWorld (Some (JS.VStr v)) (inl "unused"%string) 0 in
  let w := mkDocWorld
             (fun i => match i with
                       | 0%nat => mkCallWorld 10 10 (fun _ => ChainReturns 5 (valid "first"%string))
                       | 1%nat => mkCallWorld 101 101 (fun _ => ChainThrows "unused"%string)
                       | _ => mkCallWorld 12 12 (fun _ => ChainReturns 7 (valid "third"%string))
                       end)
             (fun _ => 0) in
  exists s',
    DocumentPrompt_call (fun t => Z.of_nat (String.length t))
      (fun _ _ _ => ["aaaaaa"; "bbbbbb"; "cc"]%string)
      (mkDocumentPrompt
         (Prompt_new (mkSettings "gpt-4" (Some 100) (Some 2%Q) (Some 3%Q)))
         10 (TextSplitter_new 6 0 1))
      "aaaaaabbbbbbcc" (mkDocSettings false None) w
      (initState (RateLimiter_new 100 1000 (8 # 10)))
    = (Ok (mkDocResult (Some (JS.VStr "third")) (JS.Num 80) 22 12), s')
    /\ logged (events s') = [budgetError].
Proof.
  cbv zeta.
  destruct (DocumentPrompt_call_tolerates_failures
              (fun t => Z.of_nat (String.length t))
              (fun _ _ _ => ["aaaaaa"; "bbbbbb"; "cc"]%string)
              (mkDocumentPrompt
                 (Prompt_new (mkSettings "gpt-4" (Some 100) (Some 2%Q) (Some 3%Q)))
                 10 (TextSplitter_new 6 0 1))
              "aaaaaabbbbbbcc" (mkDocSettings false None)
              (mkDocWorld
                 (fun i => match i with
                           | 0%nat => mkCallWorld 10 10
                                        (fun _ => ChainReturns 5
                                           (mkTextWorld (Some (JS.VStr "first"))
                                              (inl "unused"%string) 0))
                           | 1%nat => mkCallWorld 101 101 (fun _ => ChainThrows "unused"%string)
                           | _ => mkCallWorld 12 12
                                    (fun _ => ChainReturns 7
                                       (mkTextWorld (Some (JS.VStr "third"))
                                          (inl "unused"%string) 0))
                           end)
                 (fun _ => 0))
              (initState (RateLimiter_new 100 1000 (8 # 10))))
    as (_ & _ & _ & _ & _ & Htotals & _).
  destruct (Htotals eq_refl eq_refl ltac:(split; apply Z.leb_le; vm_compute; reflexivity))
    as (s' & Hout & Hdoc & Hlog & _).
  exists s'. rewrite Hout, Hdoc, Hlog. split; vm_compute; reflexivity.
Defined.

(** C6, the claim as written fails: a text of two excerpts.  For the
    first, [prompt.call] makes its five attempts, each sending the prompt
    of 10 tokens and receiving 5 tokens that neither parser can read, and
    throws; its own counters stand at 50 and 25.  The second returns at
    once.  Both excerpts were attempted and the chain was called six
    times, yet the totals returned are those of the second excerpt alone. *)
Lemma DocumentPrompt_call_failed_excerpt_adds_nothing :
  let self := mkDocumentPrompt
                (Prompt_new (mkSettings "gpt-4" (Some 100) (Some 2%Q) (Some 3%Q)))
                10 (TextSplitter_new 6 0 1) in
  let w := mkDocWorld
             (fun i => match i with
                       | 0%nat => mkCallWorld 10 10
                                    (fun _ => ChainReturns 5
                                       (mkTextWorld None (inl "bad json"%string) 0))
                       | _ => mkCallWorld 10 10
                                (fun _ => ChainReturns 5
                                   (mkTextWorld (Some (JS.VStr "second"))
                                      (inl "unused"%string) 0))
                       end)
             (fun _ => 0) in
  let s := initState (RateLimiter_new 100 1000 (8 # 10)) in
  let split := TextSplitter_splitText (fun t => Z.of_nat (String.length t))
                 (fun _ _ _ => ["aaaaaa"; "bbbbbb"]%string) (dp_splitter self)
                 "aaaaaabbbbbb" in
  let out := DocumentPrompt_call (fun t => Z.of_nat (String.length t))
               (fun _ _ _ => ["aaaaaa"; "bbbbbb"]%string)
               self "aaaaaabbbbbb" (mkDocSettings false None) w s in
  List.length (excerpts split) = 2%nat
  /\ fst (excerptCall self w 0 s) = Throw "bad json"%string
  /\ chainCalls (events (snd (excerptCall self w 0 s))) = 5%nat
  /\ c_tokensSent (vars (snd (excerptCall self w 0 s))) = 50
  /\ c_tokensReceived (vars (snd (excerptCall self w 0 s))) = 25
  /\ chainCalls (events (snd out)) = 6%nat
  /\ logged (events (snd out)) = ["bad json"%string]
  /\ fst out = Ok (mkDocResult (Some (JS.VStr "second")) (JS.Num 35) 10 5).
Proof. vm_compute. repeat split; reflexivity. Qed.

(** Three excerpts, the second over budget: its error is logged, the
    third is still processed, and the result carries the third response
    with the totals of the first and the third. *)
Example DocumentPrompt_call_middle_excerpt_fails :
  let valid := fun v => mkTextWorld (Some (JS.VStr v)) (inl "unused"%string) 0 in
  let w := mkDocWorld
             (fun i => match i with
                       | 0%nat => mkCallWorld 10 10 (fun _ => ChainReturns 5 (valid "first"%string))
                       | 1%nat => mkCallWorld 101 101 (fun _ => ChainThrows "unused"%string)
                       | _ => mkCallWorld 12 12 (fun _ => ChainReturns 7 (valid "third"%string))
                       end)
             (fun _ => 0) in
  let out := DocumentPrompt_call (fun t => Z.of_nat (String.length t))
               (fun _ _ _ => ["aaaaaa"; "bbbbbb"; "cc"]%string)
               (mkDocumentPrompt
                  (Prompt_new (mkSettings "gpt-4" (Some 100) (Some 2%Q) (Some 3%Q)))
                  10 (TextSplitter_new 6 0 1))
               "aaaaaabbbbbbcc" (mkDocSettings false None) w
               (initState (RateLimiter_new 100 1000 (8 # 10))) in
  fst out = Ok (mkDocResult (Some (JS.VStr "third")) (JS.Num 80) 22 12)
  /\ logged (events (snd out)) = [budgetError]
  /\ chainCalls (events (snd out)) = 2%nat.
Proof. vm_compute. repeat split; reflexivity. Qed.

(** The last element of a list that is not empty. *)
Lemma last_default {A} (l : list A) (d d' : A) : l <> [] -> last l d = last l d'.
Proof.
  induction l as [|a l IH]; intros Hne; [congruence|].
  destruct l as [|b l]; [reflexivity|].
  change (last (b :: l) d = last (b :: l) d'). apply IH. discriminate.
Qed.

Lemma last_app_default {A} (l1 l2 : list A) (d : A) :
  last (l1 ++ l2) d = last l2 (last l1 d).
Proof.
  revert d. induction l1 as [|a l1 IH]; intros d; [reflexivity|].
  destruct l1 as [|b l1].
  - destruct l2 as [|c l2]; [reflexivity|].
    change (last (c :: l2) d = last (c :: l2) a). apply last_default. discriminate.
  - change (last ((b :: l1) ++ l2) d = last l2 (last (b :: l1) d)). apply IH.
Qed.

(** One turn of the loop with a progress callback: the excerpt is
    skipped without a call of the callback when [prompt.call] throws, and
    is counted otherwise, the callback being called once with the running
    state; the loop is left when the callback answers ["stop"]. *)
Lemma DocumentPrompt_loop_turn_progress (self : DocumentPrompt) (settings : DocSettings)
    (w : DocWorld) (progress : Progress -> error + JS.value)
    (e : Excerpt) (i : nat) (s : State) :
  ds_progress settings = Some progress ->
  (ds_dryrun settings = false -> refills s) ->
  exists s1 ps,
    (ds_dryrun settings = false -> refills s1)
    /\ progressCalls (events s1) = progressCalls (events s) ++ ps
    /\ ((ps = [] /\ doc s1 = doc s /\ ds_dryrun settings = false
         /\ exists err, fst (excerptCall self w i s) = Throw err)
        \/ (ps = [runningState (doc s1)] /\ d_count (doc s1) = d_count (doc s) + 1))
    /\ (((forall rest,
            DocumentPrompt_loop self settings w (e :: rest) i s
            = DocumentPrompt_loop self settings w rest (S i) s1)
         /\ Forall (goesOn progress) ps)
        \/ ((forall rest,
               DocumentPrompt_loop self settings w (e :: rest) i s = (Ok tt, s1))
            /\ ps = [runningState (doc s1)]
            /\ exists progressResponse,
                 progress (runningState (doc s1)) = inr progressResponse
                 /\ isStop progressResponse = true)).
Proof.
  intros Hp Hadmit.
  assert (Hcounted : forall (v : DocVars) (s1 : State),
            d_count v = d_count (doc s) + 1 ->
            (ds_dryrun settings = false -> refills s1) ->
            progressCalls (events s1) = progressCalls (events s) ->
            DocumentPrompt_body self settings w e i s
            = (let s2 := withEvents (events s1 ++ [EvProgress (runningState v)])
                           (withDoc v s1) in
               match progress (runningState v) with
               | inl err => (Throw err, s2)
               | inr progressResponse => (Ok (isStop progressResponse), s2)
               end) ->
            exists s1 ps,
              (ds_dryrun settings = false -> refills s1)
              /\ progressCalls (events s1) = progressCalls (events s) ++ ps
              /\ ((ps = [] /\ doc s1 = doc s /\ ds_dryrun settings = false
                   /\ exists err, fst (excerptCall self w i s) = Throw err)
                  \/ (ps = [runningState (doc s1)]
                      /\ d_count (doc s1) = d_count (doc s) + 1))
              /\ (((forall rest,
                      DocumentPrompt_loop self settings w (e :: rest) i s
                      = DocumentPrompt_loop self settings w rest (S i) s1)
                   /\ Forall (goesOn progress) ps)
                  \/ ((forall rest,
                         DocumentPrompt_loop self settings w (e :: rest) i s = (Ok tt, s1))
                      /\ ps = [runningState (doc s1)]
                      /\ exists progressResponse,
                           progress (runningState (doc s1)) = inr progressResponse
                           /\ isStop progressResponse = true))).
  { intros v s1 Hcount Href Hquiet Hbody. cbv zeta in Hbody.
    destruct (progress (runningState v)) as [err | progressResponse] eqn:Hanswer.
    - exists (withEvents ((events s1 ++ [EvProgress (runningState v)])
                          ++ [EvConsoleLog err]) (withDoc v s1)), [runningState v].
      split; [exact Href|]. split.
      { cbn [events withEvents]. rewrite !progressCalls_app, Hquiet. simpl.
        rewrite app_nil_r. reflexivity. }
      split; [right; split; [reflexivity | exact Hcount]|].
      left. split.
      + intros rest. rewrite DocumentPrompt_loop_step, Hbody. reflexivity.
      + constructor; [|constructor]. intros r Hr. change (progress (runningState v) = inr r) in Hr.
        congruence.
    - exists (withEvents (events s1 ++ [EvProgress (runningState v)]) (withDoc v s1)),
        [runningState v].
      split; [exact Href|]. split.
      { cbn [events withEvents]. rewrite progressCalls_app, Hquiet. reflexivity. }
      split; [right; split; [reflexivity | exact Hcount]|].
      destruct (isStop progressResponse) eqn:Hstop.
      + right. split; [|split; [reflexivity|]].
        * intros rest. rewrite DocumentPrompt_loop_step, Hbody. reflexivity.
        * exists progressResponse. split; [exact Hanswer | exact Hstop].
      + left. split.
        * intros rest. rewrite DocumentPrompt_loop_step, Hbody. reflexivity.
        * constructor; [|constructor]. intros r Hr.
          change (progress (runningState v) = inr r) in Hr. congruence. }
  destruct (ds_dryrun settings) eqn:Hdry.
  - apply (Hcounted (afterDryExcerpt self (doc s) (dw_tokenCount w i) e) s).
    + reflexivity.
    + discriminate.
    + reflexivity.
    + rewrite (DocumentPrompt_body_dryrun self settings w e i s Hdry), Hp. reflexivity.
  - pose proof (DocumentPrompt_body_call self settings w e i s Hdry) as Hbody.
    destruct (Prompt_call_settles (dp_prompt self)
                (mkCallData false (Some (dp_responseTokenLength self)))
                (dw_call w i) 5 1000 s (Hadmit eq_refl)) as [Hne Href].
    destruct (Prompt_call_quiet (dp_prompt self)
                (mkCallData false (Some (dp_responseTokenLength self)))
                (dw_call w i) 5 1000 s) as [_ Hquiet].
    pose proof (Prompt_call_doc (dp_prompt self)
                  (mkCallData false (Some (dp_responseTokenLength self)))
                  (dw_call w i) 5 1000 s) as Hd.
    destruct (Prompt_call _ _ _ 5 1000 s) as [[data | err | ] s1] eqn:Hcall;
      cbn [fst snd] in *; [| |congruence].
    + apply (Hcounted (afterExcerpt (doc s) data e) s1).
      * reflexivity.
      * intros _. exact Href.
      * exact Hquiet.
      * rewrite Hbody, Hp, Hd. reflexivity.
    + exists (withEvents (events s1 ++ [EvConsoleLog err]) s1), [].
      split; [intros _; exact Href|]. split.
      { cbn [events withEvents]. rewrite progressCalls_app, Hquiet. reflexivity. }
      split.
      * left. split; [reflexivity|]. split; [exact Hd|]. split; [reflexivity|].
        exists err. unfold excerptCall. rewrite Hcall. reflexivity.
      * left. split; [|constructor].
        intros rest. rewrite DocumentPrompt_loop_step, Hbody. reflexivity.
Qed.

(** The calls of the progress callback over the whole loop. *)
Lemma DocumentPrompt_loop_progress (self : DocumentPrompt) (settings : DocSettings)
    (w : DocWorld) (progress : Progress -> error + JS.value) :
  ds_progress settings = Some progress ->
  forall (es : list Excerpt) (i : nat) (s : State),
    (ds_dryrun settings = false -> refills s) ->
    exists s' ps,
      DocumentPrompt_loop self settings w es i s = (Ok tt, s')
      /\ progressCalls (events s') = progressCalls (events s) ++ ps
      /\ map p_count ps = countsFrom (d_count (doc s)) (List.length ps)
      /\ d_count (doc s') = d_count (doc s) + Z.of_nat (List.length ps)
      /\ (List.length ps <= List.length es)%nat
      /\ last ps (runningState (doc s)) = runningState (doc s')
      /\ Forall (goesOn progress) (removelast ps)
      /\ (ds_dryrun settings = true ->
          Forall (goesOn progress) ps ->
          List.length ps = List.length es).
Proof.
  intros Hp. induction es as [|e rest IH]; intros i s Hadmit.
  - exists s, []. cbn.
    split; [reflexivity|]. split; [now rewrite app_nil_r|]. split; [reflexivity|].
    split; [lia|]. split; [lia|]. split; [reflexivity|]. split; [constructor|].
    reflexivity.
  - destruct (DocumentPrompt_loop_turn_progress self settings w progress e i s Hp Hadmit)
      as (s1 & ps1 & Href & Hcalls & Hkind & [[Hstep Hgo] | (Hstop & Hps & Hanswer)]).
    + destruct (IH (S i) s1 Href)
        as (s' & ps' & Hrun & Hcalls' & Hcounts & Hcount & Hlen & Hlast & Hbut & Hdryall).
      exists s', (ps1 ++ ps').
      split; [rewrite Hstep; exact Hrun|].
      split; [rewrite Hcalls', Hcalls, app_assoc; reflexivity|].
      destruct Hkind as [(-> & Hdoc & Hnondry & _) | (-> & Hone)].
      * cbn [app]. rewrite <- Hdoc.
        split; [exact Hcounts|]. split; [exact Hcount|]. split; [cbn; lia|].
        split; [exact Hlast|]. split; [exact Hbut|].
        intros Hdry. congruence.
      * cbn [app List.length map countsFrom].
        change (p_count (runningState (doc s1))) with (d_count (doc s1)).
        rewrite Hone in *.
        split; [rewrite Hcounts; reflexivity|]. split; [lia|]. split; [lia|].
        split.
        { change (runningState (doc s1) :: ps') with ([runningState (doc s1)] ++ ps').
          rewrite last_app_default. exact Hlast. }
        split.
        { destruct ps' as [|st ps'']; [constructor|].
          change (runningState (doc s1) :: st :: ps'')
            with ([runningState (doc s1)] ++ st :: ps'').
          rewrite removelast_app by discriminate.
          cbn [app]. constructor; [|exact Hbut].
          inversion Hgo; assumption. }
        intros Hdry Hall. inversion Hall as [|? ? _ Hall']; subst.
        rewrite (Hdryall Hdry Hall'). reflexivity.
    + destruct Hanswer as (progressResponse & Hanswer & Hisstop).
      exists s1, ps1. subst ps1.
      destruct Hkind as [(Hnil & _) | (_ & Hone)]; [discriminate|].
      split; [apply Hstop|]. split; [exact Hcalls|].
      cbn [List.length map countsFrom].
      change (p_count (runningState (doc s1))) with (d_count (doc s1)).
      split; [rewrite Hone; reflexivity|]. split; [lia|]. split; [lia|].
      split; [reflexivity|]. split; [constructor|].
      intros _ Hall. inversion Hall as [|? ? Hgo _]; subst.
      rewrite (Hgo progressResponse Hanswer) in Hisstop. discriminate.
Qed.

(** C7, as amended.  With a progress callback, in a dry run or not: an
    excerpt that is counted (in a dry run every excerpt, otherwise one
    whose [prompt.call] returned) is followed by one call of the callback
    with the running state (count, cost, [tokensSent], [tokensReceived],
    response so far); if the callback answers ["stop"] the loop is left
    without touching the remaining excerpts, otherwise it goes on.  An
    excerpt whose [prompt.call] throws is logged and skipped without a
    call of the callback.  Over a whole call, with capacity to come in
    the limiter: the call returns, the callback has been called once per
    counted excerpt, with the counts 1, 2, ..., never after an answer
    ["stop"], and what is returned is the running state of its last call;
    in a dry run never stopped it is called for every excerpt.  For a
    text of exactly two excerpts whose callback answers ["stop"] after
    the first, the callback has been called once, the count is 1 and the
    call returns the totals of the first excerpt with the response of its
    result when that is truthy, and no response otherwise or in a dry
    run. *)
Theorem DocumentPrompt_call_progress_stop
    (countTokens : string -> Z) (createDocuments : Z -> Z -> string -> list string)
    (self : DocumentPrompt) (settings : DocSettings) (w : DocWorld)
    (progress : Progress -> error + JS.value)
    (Hprogress : ds_progress settings = Some progress) :
  (ds_dryrun settings = false ->
   forall e rest i s0 data s1 progressResponse,
     excerptCall self w i s0 = (Ok data, s1) ->
     let v := afterExcerpt (doc s0) data e in
     let s2 := withEvents (events s1 ++ [EvProgress (runningState v)]) (withDoc v s1) in
     progress (runningState v) = inr progressResponse ->
     DocumentPrompt_loop self settings w (e :: rest) i s0 =
     if isStop progressResponse then (Ok tt, s2)
     else DocumentPrompt_loop self settings w rest (S i) s2)
  /\ (ds_dryrun settings = true ->
      forall e rest i s0 progressResponse,
        let v := afterDryExcerpt self (doc s0) (dw_tokenCount w i) e in
        let s2 := withEvents (events s0 ++ [EvProgress (runningState v)]) (withDoc v s0) in
        progress (runningState v) = inr progressResponse ->
        DocumentPrompt_loop self settings w (e :: rest) i s0 =
        if isStop progressResponse then (Ok tt, s2)
        else DocumentPrompt_loop self settings w rest (S i) s2)
  /\ (ds_dryrun settings = false ->
      forall e rest i s0 err s1,
        excerptCall self w i s0 = (Throw err, s1) ->
        DocumentPrompt_loop self settings w (e :: rest) i s0 =
        DocumentPrompt_loop self settings w rest (S i)
          (withEvents (events s1 ++ [EvConsoleLog err]) s1)
        /\ progressCalls (events s1 ++ [EvConsoleLog err]) = progressCalls (events s0)
        /\ doc s1 = doc s0)
  /\ (forall text s,
        (ds_dryrun settings = false -> refills s) ->
        let es := excerpts (TextSplitter_splitText countTokens createDocuments
                              (dp_splitter self) text) in
        exists s' ps,
          DocumentPrompt_call countTokens createDocuments self text settings w s
          = (Ok (totals (doc s')), s')
          /\ progressCalls (events s') = progressCalls (events s) ++ ps
          /\ map p_count ps = countsFrom 0 (List.length ps)
          /\ d_count (doc s') = Z.of_nat (List.length ps)
          /\ (List.length ps <= List.length es)%nat
          /\ last ps (runningState (mkDocVars 0 0 0 (JS.Num 0) None 0))
             = runningState (doc s')
          /\ Forall (goesOn progress) (removelast ps)
          /\ (ds_dryrun settings = true ->
              Forall (goesOn progress) ps ->
              List.length ps = List.length es))
  /\ (ds_dryrun settings = false ->
      forall text e1 e2 s data s1,
        excerpts (TextSplitter_splitText countTokens createDocuments
                    (dp_splitter self) text) = [e1; e2] ->
        excerptCall self w 0 (withDoc (mkDocVars 0 0 0 (JS.Num 0) None 0) s)
        = (Ok data, s1) ->
        let st1 := mkProgress 1 (JS.add (JS.Num 0) (JS.Num (dataCost data)))
                     (0 + dataTokensSent data) (0 + dataTokensReceived data)
                     (JS.orElse (dataResponse data) None) in
        progress st1 = inr (JS.VStr "stop") ->
        exists s',
          DocumentPrompt_call countTokens createDocuments self text settings w s
          = (Ok (mkDocResult (p_response st1) (p_cost st1) (p_tokensSent st1)
                   (p_tokensReceived st1)), s')
          /\ events s' = events s1 ++ [EvProgress st1]
          /\ d_count (doc s') = 1)
  /\ (ds_dryrun settings = true ->
      forall text e1 e2 s,
        excerpts (TextSplitter_splitText countTokens createDocuments
                    (dp_splitter self) text) = [e1; e2] ->
        let st1 := runningState
                     (afterDryExcerpt self (mkDocVars 0 0 0 (JS.Num 0) None 0)
                        (dw_tokenCount w 0) e1) in
        progress st1 = inr (JS.VStr "stop") ->
        exists s',
          DocumentPrompt_call countTokens createDocuments self text settings w s
          = (Ok (mkDocResult None (p_cost st1) (p_tokensSent st1)
                   (p_tokensReceived st1)), s')
          /\ events s' = events s ++ [EvProgress st1]
          /\ d_count (doc s') = 1).
Proof.
  split; [|split; [|split; [|split; [|split]]]].
  - intros Hdry e rest i s0 data s1 progressResponse Hcall v s2 Hanswer.
    unfold excerptCall in Hcall.
    rewrite DocumentPrompt_loop_step, (DocumentPrompt_body_call _ _ _ _ _ _ Hdry),
      Hcall, Hprogress.
    assert (Hd : doc s1 = doc s0).
    { pose proof (Prompt_call_doc (dp_prompt self)
                    (mkCallData false (Some (dp_responseTokenLength self)))
                    (dw_call w i) 5 1000 s0) as Hd.
      rewrite Hcall in Hd. exact Hd. }
    cbv zeta. rewrite Hd. fold v. rewrite Hanswer.
    destruct (isStop progressResponse); reflexivity.
  - intros Hdry e rest i s0 progressResponse v s2 Hanswer.
    rewrite DocumentPrompt_loop_step, (DocumentPrompt_body_dryrun _ _ _ _ _ _ Hdry),
      Hprogress.
    cbv zeta. fold v. rewrite Hanswer.
    destruct (isStop progressResponse); reflexivity.
  - intros Hdry e rest i s0 err s1 Hcall. unfold excerptCall in Hcall.
    rewrite DocumentPrompt_loop_step, (DocumentPrompt_body_call _ _ _ _ _ _ Hdry), Hcall.
    split; [reflexivity|].
    destruct (Prompt_call_quiet (dp_prompt self)
                (mkCallData false (Some (dp_responseTokenLength self)))
                (dw_call w i) 5 1000 s0) as [_ Hquiet].
    pose proof (Prompt_call_doc (dp_prompt self)
                  (mkCallData false (Some (dp_responseTokenLength self)))
                  (dw_call w i) 5 1000 s0) as Hd.
    rewrite Hcall in Hquiet, Hd. cbn [snd] in Hquiet, Hd.
    split; [|exact Hd].
    rewrite progressCalls_app, Hquiet. simpl. now rewrite app_nil_r.
  - intros text s Hadmit. cbv zeta.
    destruct (DocumentPrompt_loop_progress self settings w progress Hprogress
                (excerpts (TextSplitter_splitText countTokens createDocuments
                             (dp_splitter self) text)) 0
                (withDoc (mkDocVars 0 0 0 (JS.Num 0) None 0) s) Hadmit)
      as (s' & ps & Hrun & Hcalls & Hcounts & Hcount & Hlen & Hlast & Hbut & Hall).
    exists s', ps. rewrite DocumentPrompt_call_loop, Hrun.
    split; [reflexivity|]. split; [exact Hcalls|]. split; [exact Hcounts|].
    split; [exact Hcount|]. split; [exact Hlen|]. split; [exact Hlast|].
    split; [exact Hbut | exact Hall].
  - intros Hdry text e1 e2 s data s1 Hsplit Hcall st1 Hanswer.
    unfold excerptCall in Hcall.
    rewrite DocumentPrompt_call_loop, Hsplit.
    rewrite DocumentPrompt_loop_step, (DocumentPrompt_body_call _ _ _ _ _ _ Hdry),
      Hcall, Hprogress.
    assert (Hd : doc s1 = mkDocVars 0 0 0 (JS.Num 0) None 0).
    { pose proof (Prompt_call_doc (dp_prompt self)
                    (mkCallData false (Some (dp_responseTokenLength self)))
                    (dw_call w 0) 5 1000
                    (withDoc (mkDocVars 0 0 0 (JS.Num 0) None 0) s)) as Hd.
      rewrite Hcall in Hd. exact Hd. }
    cbv zeta. rewrite Hd.
    change (runningState (afterExcerpt (mkDocVars 0 0 0 (JS.Num 0) None 0) data e1))
      with st1.
    rewrite Hanswer. cbn [isStop String.eqb Ascii.eqb Bool.eqb].
    eexists. split; [reflexivity|]. split; reflexivity.
  - intros Hdry text e1 e2 s Hsplit st1 Hanswer.
    rewrite DocumentPrompt_call_loop, Hsplit.
    rewrite DocumentPrompt_loop_step, (DocumentPrompt_body_dryrun _ _ _ _ _ _ Hdry),
      Hprogress.
    cbv zeta.
    change (doc (withDoc (mkDocVars 0 0 0 (JS.Num 0) None 0) s))
      with (mkDocVars 0 0 0 (JS.Num 0) None 0).
    fold st1. rewrite Hanswer. cbn [isStop String.eqb Ascii.eqb Bool.eqb].
    eexists. split; [reflexivity|]. split; reflexivity.
Qed.

Lemma DocumentPrompt_call_progress_stop_witness :
  exists s',
    DocumentPrompt_call (fun t => Z.of_nat (String.length t))
      (fun _ _ _ => ["aaaaaa"; "bbbbbb"]%string)
      (mkDocumentPrompt
         (Prompt_new (mkSettings "gpt-4" (Some 100) (Some 2%Q) (Some 3%Q)))
         10 (TextSplitter_new 6 0 1))
      "aaaaaabbbbbb"
      (mkDocSettings false (Some (fun _ => inr (JS.VStr "stop"))))
      (mkDocWorld
         (fun _ => mkCallWorld 10 10
                     (fun _ => ChainReturns 5
                                 (mkTextWorld (Some (JS.VStr "first")) (inl "unused"%string) 0)))
         (fun _ => 0))
      (initState (RateLimiter_new 100 1000 (8 # 10)))
    = (Ok (mkDocResult (Some (JS.VStr "first")) (JS.Num (0 + 35)) 10 5), s')
    /\ progressCalls (events s')
       = [mkProgress 1 (JS.Num (0 + 35)) 10 5 (Some (JS.VStr "first"))]
    /\ d_count (doc s') = 1.
Proof.
  destruct (DocumentPrompt_call_progress_stop
              (fun t => Z.of_nat (String.length t))
              (fun _ _ _ => ["aaaaaa"; "bbbbbb"]%string)
              (mkDocumentPrompt
                 (Prompt_new (mkSettings "gpt-4" (Some 100) (Some 2%Q) (Some 3%Q)))
                 10 (TextSplitter_new 6 0 1))
              (mkDocSettings false (Some (fun _ => inr (JS.VStr "stop"))))
              (mkDocWorld
                 (fun _ => mkCallWorld 10 10
                             (fun _ => ChainReturns 5
                                         (mkTextWorld (Some (JS.VStr "first"))
                                            (inl "unused"%string) 0)))
                 (fun _ => 0))
              (fun _ => inr (JS.VStr "stop")) eq_refl)
    as (_ & _ & _ & _ & Hscenario & _).
  destruct (Hscenario eq_refl "aaaaaabbbbbb"%string
              (mkExcerpt "aaaaaa" 6 (Pct 50)) (mkExcerpt "bbbbbb" 6 (Pct 50))
              (initState (RateLimiter_new 100 1000 (8 # 10)))
              (Result (mkCallResult (JS.VStr "first") 10 5 (JS.Num 35)))
              (snd (excerptCall
                      (mkDocumentPrompt
                         (Prompt_new (mkSettings "gpt-4" (Some 100) (Some 2%Q) (Some 3%Q)))
                         10 (TextSplitter_new 6 0 1))
                      (mkDocWorld
                         (fun _ => mkCallWorld 10 10
                                     (fun _ => ChainReturns 5
                                                 (mkTextWorld (Some (JS.VStr "first"))
                                                    (inl "unused"%string) 0)))
                         (fun _ => 0))
                      0 (initState (RateLimiter_new 100 1000 (8 # 10)))))
              ltac:(vm_compute; reflexivity) ltac:(vm_compute; reflexivity) eq_refl)
    as (s' & Hcall & Hevents & Hcount).
  exists s'. split; [exact Hcall|]. split; [|exact Hcount].
  rewrite Hevents. vm_compute. reflexivity.
Defined.

(** C7, the claim as written fails, twice.  A text of one excerpt whose
    [prompt.call] throws (here: over budget): the excerpt is iterated and
    its error logged, but the callback is never called.  And a text of
    two excerpts whose callback answers ["stop"] after the first, the
    result of the first excerpt being the falsy value [0]: the count is 1
    and the call returns no response, not the first excerpt's result. *)
Lemma DocumentPrompt_call_failed_excerpt_skips_progress :
  let self := mkDocumentPrompt
                (Prompt_new (mkSettings "gpt-4" (Some 100) (Some 2%Q) (Some 3%Q)))
                10 (TextSplitter_new 6 0 1) in
  let s := initState (RateLimiter_new 100 1000 (8 # 10)) in
  let split := TextSplitter_splitText (fun t => Z.of_nat (String.length t))
                 (fun _ _ _ => ["aaaaaa"]%string) (TextSplitter_new 6 0 1) "aaaaaa" in
  let out := DocumentPrompt_call (fun t => Z.of_nat (String.length t))
               (fun _ _ _ => ["aaaaaa"]%string) self "aaaaaa"
               (mkDocSettings false (Some (fun _ => inr (JS.VStr "continue"))))
               (mkDocWorld
                  (fun _ => mkCallWorld 101 101 (fun _ => ChainThrows "unused"%string))
                  (fun _ => 0))
               s in
  let zero := mkDocWorld
                (fun _ => mkCallWorld 10 10
                            (fun _ => ChainReturns 5
                                        (mkTextWorld (Some (JS.VNum 0))
                                           (inl "unused"%string) 0)))
                (fun _ => 0) in
  let stopped := DocumentPrompt_call (fun t => Z.of_nat (String.length t))
                   (fun _ _ _ => ["aaaaaa"; "bbbbbb"]%string) self "aaaaaabbbbbb"
                   (mkDocSettings false (Some (fun _ => inr (JS.VStr "stop"))))
                   zero s in
  (List.length (excerpts split) = 1%nat
   /\ fst out = Ok (mkDocResult None (JS.Num 0) 0 0)
   /\ logged (events (snd out)) = [budgetError]
   /\ progressCalls (events (snd out)) = []
   /\ List.length (progressCalls (events (snd out))) <> List.length (excerpts split))
  /\ (fst (excerptCall self zero 0 s)
      = Ok (Result (mkCallResult (JS.VNum 0) 10 5 (JS.Num (0 + 35))))
      /\ fst stopped = Ok (mkDocResult None (JS.Num (0 + 35)) 10 5)
      /\ d_count (doc (snd stopped)) = 1
      /\ dr_response (mkDocResult None (JS.Num (0 + 35)) 10 5) <> Some (JS.VNum 0)).
Proof. vm_compute. repeat split; try reflexivity; discriminate. Qed.

(* ------------------------------------------------------------------ *)
(** ** Prompt.chunksFromArray *)

Lemma string_append_assoc (a b c : string) :
  ((a ++ b) ++ c = a ++ (b ++ c))%string.
Proof. induction a as [|x a IH]; simpl; [reflexivity | now rewrite IH]. Qed.

Lemma concat_snoc (d : string) (g : list string) (el : string) :
  g <> [] ->
  String.concat d (g ++ [el]) = (String.concat d g ++ d ++ el)%string.
Proof.
  induction g as [|x g IH]; intros Hne; [congruence|].
  destruct g as [|y g].
  - reflexivity.
  - change (String.concat d ((x :: y :: g) ++ [el]))
      with (x ++ d ++ String.concat d ((y :: g) ++ [el]))%string.
    rewrite IH by discriminate.
    change (String.concat d (x :: y :: g))
      with (x ++ d ++ String.concat d (y :: g))%string.
    now rewrite !string_append_assoc.
Qed.

Lemma nonEmpty_append (a b : string) : nonEmpty a = true -> nonEmpty (a ++ b) = true.
Proof. destruct a; [discriminate | reflexivity]. Qed.

Lemma concat_nonEmpty (d : string) (g : list string) :
  g <> [] -> Forall (fun el => nonEmpty el = true) g ->
  nonEmpty (String.concat d g) = true.
Proof.
  destruct g as [|x g]; intros Hne Hall; [congruence|].
  inversion Hall as [|? ? Hx _]; subst.
  destruct g as [|y g]; [exact Hx|].
  change (String.concat d (x :: y :: g)) with (x ++ d ++ String.concat d (y :: g))%string.
  now apply nonEmpty_append.
Qed.

(** The loop on strings and the loop on groups go together. *)
Lemma chunk_step_rel (countTokens : string -> Z) (maxTokens : Z) (d : string)
    (v : ChunkVars) (g : GroupVars) (el : string) :
  chunk_rel d v g ->
  chunk_rel d (chunk_step countTokens maxTokens d v el)
              (group_step countTokens maxTokens d g el).
Proof.
  intros (Hc & Hcur & Ht & Hall).
  unfold chunk_step, group_step.
  destruct (nonEmpty el) eqn:Hel; simpl; [|repeat split; assumption].
  destruct (g_cur g) as [|x cur] eqn:Hg.
  - rewrite Hcur. simpl.
    repeat split; simpl; try assumption; try lia.
    constructor; [assumption | constructor].
  - assert (Htruthy : nonEmpty (String.concat d (x :: cur)) = true)
      by (apply concat_nonEmpty; [discriminate | assumption]).
    rewrite Hcur. cbn [truthyStr]. rewrite Htruthy. cbn [negb orb].
    rewrite Ht.
    destruct (maxTokens <? countTokens el + countTokens d + g_tokenCount g) eqn:Hover.
    + cbn [fst snd ch_chunks ch_curChunk ch_tokenCount nonEmpty String.eqb negb].
      repeat split; cbn [g_groups g_cur g_tokenCount]; try lia.
      * rewrite map_app, Hc. reflexivity.
      * constructor; [assumption | constructor].
    + cbn [fst snd]. rewrite Hcur, Htruthy.
      repeat split; cbn [g_groups g_cur g_tokenCount ch_chunks ch_curChunk ch_tokenCount].
      * assumption.
      * rewrite <- (concat_snoc d (x :: cur) el) by discriminate. reflexivity.
      * rewrite Ht. reflexivity.
      * apply Forall_app. split; [assumption | constructor; [assumption | constructor]].
Qed.

Lemma chunk_fold_rel (countTokens : string -> Z) (maxTokens : Z) (d : string) :
  forall (arr : list string) (v : ChunkVars) (g : GroupVars),
    chunk_rel d v g ->
    chunk_rel d (fold_left (chunk_step countTokens maxTokens d) arr v)
                (fold_left (group_step countTokens maxTokens d) arr g).
Proof.
  induction arr as [|el arr IH]; intros v g H; [exact H|].
  simpl. apply IH. now apply chunk_step_rel.
Qed.

(** The chunks are the groups, joined. *)
Lemma Prompt_chunksFromArray_groups (countTokens : string -> Z) (arr : list string)
    (maxTokens : Z) (d : string) :
  Prompt_chunksFromArray countTokens arr maxTokens d
  = map (String.concat d) (groupsFromArray countTokens arr maxTokens d).
Proof.
  unfold Prompt_chunksFromArray, groupsFromArray.
  destruct (chunk_fold_rel countTokens maxTokens d arr
              (mkChunkVars [] None 0) (mkGroupVars [] [] 0))
    as (Hc & Hcur & _ & Hall).
  { repeat split; constructor. }
  rewrite Hcur, Hc.
  destruct (g_cur (fold_left _ arr (mkGroupVars [] [] 0))) as [|x cur] eqn:Hg;
    [reflexivity|].
  rewrite (concat_nonEmpty d (x :: cur)) by (discriminate || assumption).
  rewrite map_app. reflexivity.
Qed.

Lemma groupTokens_snoc (countTokens : string -> Z) (d : string) (g : list string)
    (el : string) :
  groupTokens countTokens d (g ++ [el])
  = groupTokens countTokens d g + countTokens el + countTokens d.
Proof.
  unfold groupTokens. rewrite length_app, Nat2Z.inj_add. simpl.
  assert (Hsum : forall l, fold_right (fun el n => countTokens el + n) 0 (l ++ [el])
                           = fold_right (fun el n => countTokens el + n) 0 l + countTokens el).
  { induction l as [|x l IH]; simpl; [lia | rewrite IH; lia]. }
  rewrite Hsum. lia.
Qed.

Lemma groupTokens_single (countTokens : string -> Z) (d : string) (el : string) :
  groupTokens countTokens d [el] = countTokens el.
Proof. unfold groupTokens. simpl. lia. Qed.

Lemma groupsBounded_snoc (countTokens : string -> Z) (maxTokens : Z) (d : string)
    (gs : list (list string)) (g : list string) :
  groupsBounded countTokens maxTokens d gs ->
  groupBounded countTokens maxTokens d
    (match gs with [] => countTokens d | _ :: _ => 0 end) g ->
  groupsBounded countTokens maxTokens d (gs ++ [g]).
Proof.
  destruct gs as [|g0 gs]; simpl.
  - intros _ Hg. split; [exact Hg | constructor].
  - intros [H0 Hrest] Hg. split; [exact H0|].
    apply Forall_app. split; [exact Hrest | constructor; [exact Hg | constructor]].
Qed.

Lemma group_step_inv (countTokens : string -> Z) (maxTokens : Z) (d : string)
    (processed : list string) (v : GroupVars) (el : string) :
  group_inv countTokens maxTokens d processed v ->
  group_inv countTokens maxTokens d (processed ++ [el])
    (group_step countTokens maxTokens d v el).
Proof.
  intros (Hcat & Hne & Hnil & Htok & Hle & Hb).
  unfold group_inv, group_step. rewrite filter_app. simpl.
  destruct (nonEmpty el) eqn:Hel; simpl.
  2:{ rewrite app_nil_r. split; [|split; [|split; [|split; [|split]]]]; assumption. }
  destruct (g_cur v) as [|x cur] eqn:Hcur.
  - specialize (Hnil eq_refl). rewrite Hnil in *.
    cbn [g_groups g_cur g_tokenCount].
    split; [|split; [|split; [|split; [|split]]]].
    + rewrite <- Hcat. reflexivity.
    + constructor.
    + discriminate.
    + intros _. rewrite groupTokens_single. reflexivity.
    + simpl. lia.
    + exact I.
  - destruct (maxTokens <? countTokens el + countTokens d + g_tokenCount v) eqn:Hover;
      cbn [g_groups g_cur g_tokenCount];
      (split; [|split; [|split; [|split; [|split]]]]).
    + rewrite concat_app. simpl. rewrite app_nil_r, <- Hcat, <- app_assoc. reflexivity.
    + apply Forall_app. split; [assumption | constructor; [discriminate | constructor]].
    + discriminate.
    + intros _. rewrite groupTokens_single.
      destruct (g_groups v); [destruct cur|]; simpl; lia.
    + simpl. lia.
    + apply groupsBounded_snoc; [assumption|].
      intros Hlen. specialize (Htok ltac:(discriminate)). specialize (Hle Hlen).
      destruct (g_groups v); lia.
    + rewrite <- Hcat, <- app_assoc. reflexivity.
    + assumption.
    + intros H. destruct cur; discriminate.
    + intros _. specialize (Htok ltac:(discriminate)).
      change (x :: cur ++ [el]) with ((x :: cur) ++ [el]).
      rewrite groupTokens_snoc, Htok. lia.
    + intros _. apply Z.ltb_ge in Hover. lia.
    + assumption.
Qed.

Lemma group_fold_inv (countTokens : string -> Z) (maxTokens : Z) (d : string) :
  forall (arr processed : list string) (v : GroupVars),
    group_inv countTokens maxTokens d processed v ->
    group_inv countTokens maxTokens d (processed ++ arr)
      (fold_left (group_step countTokens maxTokens d) arr v).
Proof.
  induction arr as [|el arr IH]; intros processed v H.
  - now rewrite app_nil_r.
  - simpl. replace (processed ++ el :: arr) with ((processed ++ [el]) ++ arr)
      by (now rewrite <- app_assoc).
    apply IH. now apply group_step_inv.
Qed.

(** The groups of [chunksFromArray]: the non-empty elements in order,
    no group empty, and the bound on their tokens. *)
Lemma groupsFromArray_spec (countTokens : string -> Z) (arr : list string)
    (maxTokens : Z) (d : string) :
  let gs := groupsFromArray countTokens arr maxTokens d in
  List.concat gs = filter nonEmpty arr
  /\ Forall (fun g => g <> []) gs
  /\ Forall (Forall (fun el => nonEmpty el = true)) gs
  /\ groupsBounded countTokens maxTokens d gs.
Proof.
  cbv zeta. unfold groupsFromArray.
  destruct (group_fold_inv countTokens maxTokens d arr [] (mkGroupVars [] [] 0))
    as (Hcat & Hne & Hnil & Htok & Hle & Hb).
  { split; [|split; [|split; [|split; [|split]]]]; simpl;
      try constructor; try congruence; try lia. }
  simpl in Hcat.
  set (v := fold_left (group_step countTokens maxTokens d) arr (mkGroupVars [] [] 0)) in *.
  assert (Hgs : List.concat (match g_cur v with [] => g_groups v
                                            | _ :: _ => g_groups v ++ [g_cur v] end)
                = filter nonEmpty arr).
  { destruct (g_cur v) eqn:E.
    - now rewrite app_nil_r in Hcat.
    - rewrite concat_app. simpl. now rewrite app_nil_r. }
  split; [exact Hgs|].
  split.
  { destruct (g_cur v) eqn:E; [assumption|].
    apply Forall_app. split; [assumption | constructor; [discriminate | constructor]]. }
  split.
  { assert (Hall : Forall (fun el => nonEmpty el = true)
                     (List.concat (match g_cur v with [] => g_groups v
                                               | _ :: _ => g_groups v ++ [g_cur v] end))).
    { rewrite Hgs. apply Forall_forall. intros x Hx.
      apply filter_In in Hx. tauto. }
    revert Hall. generalize (match g_cur v with [] => g_groups v
                                          | _ :: _ => g_groups v ++ [g_cur v] end).
    induction l as [|g l IH]; simpl; intros Hall; [constructor|].
    apply Forall_app in Hall. destruct Hall as [Hg Hl].
    constructor; [exact Hg | now apply IH]. }
  destruct (g_cur v) as [|x cur] eqn:E; [assumption|].
  apply groupsBounded_snoc; [assumption|].
  intros Hlen. specialize (Htok ltac:(discriminate)). specialize (Hle Hlen).
  destruct (g_groups v); lia.
Qed.

Lemma concat_app_join (d : string) (a b : list string) :
  a <> [] -> b <> [] ->
  String.concat d (a ++ b) = (String.concat d a ++ d ++ String.concat d b)%string.
Proof.
  induction a as [|x a IH]; intros Ha Hb; [congruence|].
  destruct a as [|y a].
  - simpl. destruct b; [congruence | reflexivity].
  - change (String.concat d ((x :: y :: a) ++ b))
      with (x ++ d ++ String.concat d ((y :: a) ++ b))%string.
    rewrite IH by (discriminate || assumption).
    change (String.concat d (x :: y :: a)) with (x ++ d ++ String.concat d (y :: a))%string.
    now rewrite !string_append_assoc.
Qed.

Lemma concat_join_groups (d : string) (gs : list (list string)) :
  Forall (fun g => g <> []) gs ->
  String.concat d (map (String.concat d) gs) = String.concat d (List.concat gs).
Proof.
  induction gs as [|g gs IH]; intros Hne; [reflexivity|].
  inversion Hne as [|? ? Hg Hgs]; subst.
  destruct gs as [|g' gs].
  - simpl. now rewrite app_nil_r.
  - assert (Hcat : List.concat (g' :: gs) <> []).
    { inversion Hgs as [|? ? Hg' _]; subst.
      simpl. destruct g'; [congruence | discriminate]. }
    change (List.concat (g :: g' :: gs)) with (g ++ List.concat (g' :: gs)).
    rewrite concat_app_join by assumption.
    rewrite <- IH by assumption. reflexivity.
Qed.

(** X1. Every chunk of [chunksFromArray] is the join, by the delimiter,
    of a run of consecutive non-empty elements of the array: the runs
    taken in order are exactly the non-empty elements, none is empty, and
    a run of two elements or more counts at most [maxTokens] tokens
    (elements and delimiters between them), but for the first run, which
    may exceed it by the tokens of one delimiter. *)
Theorem Prompt_chunksFromArray_runs
    (countTokens : string -> Z) (arr : list string) (maxTokens : Z) (delimeter : string) :
  exists runs : list (list string),
    Prompt_chunksFromArray countTokens arr maxTokens delimeter
    = map (String.concat delimeter) runs
    /\ List.concat runs = filter nonEmpty arr
    /\ Forall (fun g => g <> []) runs
    /\ match runs with
       | [] => True
       | g :: rest =>
           ((2 <= List.length g)%nat ->
            groupTokens countTokens delimeter g <= maxTokens + countTokens delimeter)
           /\ Forall (fun g => (2 <= List.length g)%nat ->
                               groupTokens countTokens delimeter g <= maxTokens) rest
       end.
Proof.
  exists (groupsFromArray countTokens arr maxTokens delimeter).
  destruct (groupsFromArray_spec countTokens arr maxTokens delimeter)
    as (Hcat & Hne & _ & Hb).
  split; [apply Prompt_chunksFromArray_groups|].
  split; [exact Hcat|]. split; [exact Hne|].
  destruct (groupsFromArray countTokens arr maxTokens delimeter) as [|g rest];
    [exact I|].
  destruct Hb as [Hg Hrest]. split.
  - intros Hlen. specialize (Hg Hlen). lia.
  - eapply Forall_impl; [|exact Hrest].
    intros g' Hg' Hlen. specialize (Hg' Hlen). lia.
Qed.

(** X2. Joining the chunks of [chunksFromArray] by the delimiter gives
    back the join of the non-empty elements of the array: nothing is
    lost, repeated or reordered, whatever [maxTokens] and the tokenizer. *)
Theorem Prompt_chunksFromArray_join
    (countTokens : string -> Z) (arr : list string) (maxTokens : Z) (delimeter : string) :
  String.concat delimeter (Prompt_chunksFromArray countTokens arr maxTokens delimeter)
  = String.concat delimeter (filter nonEmpty arr).
Proof.
  destruct (groupsFromArray_spec countTokens arr maxTokens delimeter)
    as (Hcat & Hne & _ & _).
  rewrite Prompt_chunksFromArray_groups, concat_join_groups by exact Hne.
  now rewrite Hcat.
Qed.

(** X3. [chunksFromArray] returns no empty chunk and at most one chunk
    per non-empty element; it returns no chunk at all exactly when the
    array has no non-empty element. *)
Theorem Prompt_chunksFromArray_chunks
    (countTokens : string -> Z) (arr : list string) (maxTokens : Z) (delimeter : string) :
  let chunks := Prompt_chunksFromArray countTokens arr maxTokens delimeter in
  Forall (fun c => nonEmpty c = true) chunks
  /\ (List.length chunks <= List.length (filter nonEmpty arr))%nat
  /\ (chunks = [] <-> filter nonEmpty arr = []).
Proof.
  cbv zeta.
  destruct (groupsFromArray_spec countTokens arr maxTokens delimeter)
    as (Hcat & Hne & Hall & _).
  rewrite Prompt_chunksFromArray_groups, <- Hcat.
  set (gs := groupsFromArray countTokens arr maxTokens delimeter) in *.
  clearbody gs. clear Hcat.
  split; [|split].
  - induction gs as [|g gs IH]; simpl; [constructor|].
    inversion Hne; inversion Hall; subst.
    constructor; [now apply concat_nonEmpty | now apply IH].
  - rewrite length_map.
    induction gs as [|g gs IH]; simpl; [lia|].
    inversion Hne as [|? ? Hg Hgs]; inversion Hall; subst.
    rewrite length_app. specialize (IH Hgs ltac:(assumption)).
    destruct g; [congruence | simpl; lia].
  - destruct gs as [|g gs]; simpl; [tauto|].
    inversion Hne as [|? ? Hg _]; subst.
    split; [discriminate|].
    destruct g; [congruence | discriminate].
Qed.

(** One token per character and a one-token delimiter, chunks of at most
    2 tokens: the first chunk holds 3 tokens, and an element too long for
    any chunk is a chunk of its own. *)
Example Prompt_chunksFromArray_example :
  Prompt_chunksFromArray (fun t => Z.of_nat (String.length t))
    ["a"; ""; "b"; "c"; "d"]%string 2 ","
  = ["a,b"; "c"; "d"]%string
  /\ Prompt_chunksFromArray (fun t => Z.of_nat (String.length t))
       ["aaaaaaaa"; "b"]%string 2 ","
     = ["aaaaaaaa"; "b"]%string.
Proof. split; reflexivity. Qed.

(* ------------------------------------------------------------------ *)
(** ** Prompt.setMessages *)



(* ------------------------------------------------------------------ *)
(** ** Model.calculateCost *)

(** X5. With both prices set and non-negative, the cost of non-negative
    token counts is a non-negative number, and more tokens never cost
    less; when a price is missing the cost is [NaN], whatever the counts. *)
Theorem Model_calculateCost_monotone (m : Model) (sent sent' received received' : Z) :
  (forall tx rx,
     tokenTxPrice m = Some tx -> tokensRxPrice m = Some rx ->
     (0 <= tx)%Q -> (0 <= rx)%Q ->
     0 <= sent <= sent' -> 0 <= received <= received' ->
     exists c c',
       Model_calculateCost m (JS.ofZ sent) (JS.ofZ received) = JS.Num c
       /\ Model_calculateCost m (JS.ofZ sent') (JS.ofZ received') = JS.Num c'
       /\ (0 <= c)%Q
       /\ (c <= c')%Q)
  /\ (tokenTxPrice m = None \/ tokensRxPrice m = None ->
      Model_calculateCost m (JS.ofZ sent) (JS.ofZ received) = JS.NaN).
Proof.
  unfold Model_calculateCost, JS.ofZ. split.
  - intros tx rx -> -> Htx Hrx Hs Hr. simpl.
    eexists. eexists. split; [reflexivity|]. split; [reflexivity|].
    pose proof (priceFormula_nonneg tx rx sent received Htx Hrx
                  ltac:(lia) ltac:(lia)) as H0.
    unfold priceFormula in H0.
    assert (H1 : (inject_Z sent <= inject_Z sent')%Q) by (rewrite <- Zle_Qle; lia).
    assert (H2 : (inject_Z received <= inject_Z received')%Q)
      by (rewrite <- Zle_Qle; lia).
    assert (H3 : (inject_Z sent * tx <= inject_Z sent' * tx)%Q)
      by (apply Qmult_le_compat_r; assumption).
    assert (H4 : (inject_Z received * rx <= inject_Z received' * rx)%Q)
      by (apply Qmult_le_compat_r; assumption).
    split; lra.
  - intros [-> | ->]; simpl; [reflexivity|].
    destruct (tokenTxPrice m); reflexivity.
Qed.

Lemma Model_calculateCost_monotone_witness :
  exists c c',
    Model_calculateCost
      (Model_new (mkSettings "gpt-4" (Some 100) (Some (3 # 100)) (Some (6 # 100))))
      (JS.ofZ 10) (JS.ofZ 5) = JS.Num c
    /\ Model_calculateCost
         (Model_new (mkSettings "gpt-4" (Some 100) (Some (3 # 100)) (Some (6 # 100))))
         (JS.ofZ 20) (JS.ofZ 5) = JS.Num c'
    /\ (0 <= c)%Q
    /\ (c <= c')%Q.
Proof.
  apply (proj1 (Model_calculateCost_monotone
                  (Model_new (mkSettings "gpt-4" (Some 100) (Some (3 # 100)) (Some (6 # 100))))
                  10 20 5 5) (3 # 100) (6 # 100));
    try reflexivity; try lia; unfold Qle; simpl; lia.
Defined.

(* ------------------------------------------------------------------ *)
(** ** DocumentPrompt.setTextSplitter *)

Lemma Qfloor_scale_bounds (r : Z) (b : Q) :
  0 <= r -> (0 <= b)%Q -> (b <= 1)%Q ->
  0 <= Qfloor (inject_Z r * b) <= r.
Proof.
  intros Hr Hb0 Hb1.
  pose proof (inject_Z_nonneg r Hr) as Hq.
  split.
  - rewrite <- (Qfloor_Z 0). apply Qfloor_resp_le.
    change (inject_Z 0) with 0%Q. now apply Qmult_le_0_compat.
  - rewrite <- (Qfloor_Z r) at 2. apply Qfloor_resp_le. nra.
Qed.

(** X6. When no chunk size is given (or 0), the chunk size
    [setTextSplitter] settles on ([this.chunkSize]) leaves room for the
    prompt's scaffolding and for twice the response: with a buffer
    between 0 and 1 and a model whose [maxTokens] covers the scaffolding
    and twice the response length, [0 <= chunkSize] and
    [chunkSize + scaffoldTokens + 2 * responseTokenLength <= maxTokens].
    A chunk size that is given and not 0 is taken as it is. *)
Theorem DocumentPrompt_setTextSplitter_headroom
    (prompt : Prompt) (responseTokenLength scaffoldTokens mt : Z)
    (given : option Z) (bufferPercentage : Q)
    (Hmax : maxTokens (model prompt) = Some mt)
    (Hbuffer : (0 <= bufferPercentage)%Q /\ (bufferPercentage <= 1)%Q)
    (Hroom : 0 <= mt - scaffoldTokens - 2 * responseTokenLength) :
  (given = None \/ given = Some 0 ->
   exists c,
     DocumentPrompt_chunkSize prompt responseTokenLength scaffoldTokens given
       bufferPercentage = Some c
     /\ 0 <= c
     /\ c + scaffoldTokens + 2 * responseTokenLength <= mt)
  /\ (forall c, given = Some c -> c <> 0 ->
      DocumentPrompt_chunkSize prompt responseTokenLength scaffoldTokens given
        bufferPercentage = Some c).
Proof.
  assert (Hceil : Qceiling (inject_Z responseTokenLength * 2) = 2 * responseTokenLength).
  { rewrite <- (Qceiling_Z (2 * responseTokenLength)). apply Qceiling_comp.
    rewrite inject_Z_mult. change (inject_Z 2) with 2%Q. ring. }
  destruct Hbuffer as [Hb0 Hb1].
  split.
  - intros Hc.
    exists (Qfloor (inject_Z (mt - scaffoldTokens - 2 * responseTokenLength)
                    * bufferPercentage)).
    pose proof (Qfloor_scale_bounds _ bufferPercentage Hroom Hb0 Hb1) as [Hlo Hhi].
    split; [|split; [exact Hlo | lia]].
    unfold DocumentPrompt_chunkSize, Prompt_countRemainingTokens.
    rewrite Hmax, Hceil. destruct Hc as [-> | ->]; reflexivity.
  - intros c -> Hc. unfold DocumentPrompt_chunkSize, JS.orElseZ.
    destruct (c =? 0) eqn:E; [apply Z.eqb_eq in E; congruence | reflexivity].
Qed.

Lemma DocumentPrompt_setTextSplitter_headroom_witness :
  exists c,
    DocumentPrompt_chunkSize
      (Prompt_new (mkSettings "gpt-4" (Some 8192) (Some (3 # 100)) (Some (6 # 100))))
      10 300 None (95 # 100) = Some c
    /\ 0 <= c
    /\ c + 300 + 2 * 10 <= 8192.
Proof.
  destruct (proj1 (DocumentPrompt_setTextSplitter_headroom
              (Prompt_new (mkSettings "gpt-4" (Some 8192) (Some (3 # 100)) (Some (6 # 100))))
              10 300 8192 None (95 # 100) eq_refl
              ltac:(split; unfold Qle; simpl; lia) ltac:(lia)) (or_introl eq_refl))
    as (c & Hc & Hlo & Hhi).
  exists c. repeat split; assumption.
Defined.

(* ------------------------------------------------------------------ *)
(** ** RateLimiter: the constructor *)

(** X7. A limiter built with a buffer between 0 and 1 starts each
    reservoir full, at its refresh amount, and never above the configured
    per-minute limit. *)
Theorem RateLimiter_new_bounds
    (maxRequestsPerMinute maxTokensPerMinute : Z) (bufferPercentage : Q)
    (Hrequests : 0 <= maxRequestsPerMinute)
    (Htokens : 0 <= maxTokensPerMinute)
    (Hbuffer : (0 <= bufferPercentage)%Q /\ (bufferPercentage <= 1)%Q) :
  let l := RateLimiter_new maxRequestsPerMinute maxTokensPerMinute bufferPercentage in
  reservoir (requestLimiter l) = reservoirRefreshAmount (requestLimiter l)
  /\ reservoir (tokenLimiter l) = reservoirRefreshAmount (tokenLimiter l)
  /\ 0 <= reservoir (requestLimiter l) <= maxRequestsPerMinute
  /\ 0 <= reservoir (tokenLimiter l) <= maxTokensPerMinute.
Proof.
  destruct Hbuffer as [Hb0 Hb1]. cbv zeta. unfold RateLimiter_new. simpl.
  split; [reflexivity|]. split; [reflexivity|].
  split; apply Qfloor_scale_bounds; assumption.
Qed.

Lemma RateLimiter_new_bounds_witness :
  0 <= reservoir (requestLimiter (RateLimiter_new 3500 90000 (8 # 10))) <= 3500.
Proof.
  apply (RateLimiter_new_bounds 3500 90000 (8 # 10)); try lia.
  split; unfold Qle; simpl; lia.
Defined.

(** X8. A limiter whose configured limit times the buffer is below 1
    (one request per minute at the default buffer 0.80, say) never admits
    anything: from any state that holds such a limiter as it was built,
    [process] stays suspended and logs nothing, whatever the task. *)
Theorem RateLimiter_process_no_capacity
    {A} (func : (Z -> list Z -> M unit) -> M A) (s : State)
    (maxRequestsPerMinute maxTokensPerMinute : Z) (bufferPercentage : Q)
    (Hlimiter : limiter s
                = RateLimiter_new maxRequestsPerMinute maxTokensPerMinute bufferPercentage)
    (Hnone : Qfloor (inject_Z maxRequestsPerMinute * bufferPercentage) < 1
             \/ Qfloor (inject_Z maxTokensPerMinute * bufferPercentage) < 1) :
  fst (RateLimiter_process func s) = Suspended
  /\ events (snd (RateLimiter_process func s)) = events s.
Proof.
  set (r := Qfloor (inject_Z maxRequestsPerMinute * bufferPercentage)) in *.
  set (t := Qfloor (inject_Z maxTokensPerMinute * bufferPercentage)) in *.
  assert (Hl : limiter s = mkRateLimiter (mkBottleneck r r) (mkBottleneck t t))
    by exact Hlimiter.
  clear Hlimiter.
  unfold RateLimiter_process. rewrite Bottleneck_schedule_spec.
  assert (Er : awaitCapacity Requests s = if 1 <=? r then Some s else None).
  { unfold awaitCapacity. rewrite Hl. cbn [getB requestLimiter reservoir reservoirRefreshAmount].
    destruct (1 <=? r); reflexivity. }
  rewrite Er. destruct (1 <=? r) eqn:Hr; [|split; reflexivity].
  rewrite Bottleneck_schedule_spec.
  assert (Et : awaitCapacity Tokens (take Requests s) = None).
  { unfold awaitCapacity, take. cbn [limiter withLimiter]. rewrite Hl.
    cbn [getB setB tokenLimiter requestLimiter reservoir reservoirRefreshAmount].
    apply Z.leb_le in Hr.
    assert (Ht : (1 <=? t) = false) by (apply Z.leb_gt; lia).
    rewrite Ht. reflexivity. }
  rewrite Et. split; reflexivity.
Qed.

Lemma RateLimiter_process_no_capacity_witness :
  fst (RateLimiter_process (fun report => report 50 [] ;;; ret tt)
         (initState (RateLimiter_new 1 90000 (8 # 10)))) = Suspended.
Proof.
  apply (RateLimiter_process_no_capacity (fun report => report 50 [] ;;; ret tt)
           (initState (RateLimiter_new 1 90000 (8 # 10))) 1 90000 (8 # 10) eq_refl).
  left. vm_compute. reflexivity.
Defined.

(* ------------------------------------------------------------------ *)
(** ** Prompt.call and the reservoirs *)





(** X10. A call answered at the first attempt by a directly valid text,
    with capacity at hand, takes one request and, with its reservation of
    one token, [1 + tokensSent + tokensReceived] tokens: the debit is the
    sum of the prompt's and of the completion's token counts. *)
Theorem Prompt_call_direct_consumes
    (self : Prompt) (data : CallData) (w : CallWorld) (retries retryDelay : Z)
    (s : State) (mt textTokens : Z) (text : TextWorld) (d : JS.value)
    (Hmax : maxTokens (model self) = Some mt)
    (Hbudget : 0 <= mt - w_tokenCount w)
    (Hdry : dryrun data = false)
    (Hretries : 1 <= retries)
    (Hattempt : w_attempt w 0 = ChainReturns textTokens text)
    (Hdirect : w_direct text = Some d)
    (Hrequests : 1 <= requestsLeft s)
    (Htokens : 1 <= tokensLeft s) :
  exists r s',
    Prompt_call self data w retries retryDelay s = (Ok (Result r), s')
    /\ response r = d
    /\ tokensSent r = w_promptTokens w
    /\ tokensReceived r = textTokens
    /\ requestsLeft s' = requestsLeft s - 1
    /\ tokensLeft s' = tokensLeft s - 1 - (tokensSent r + tokensReceived r)
    /\ events s' = events s ++ [EvChainCall;
                                EvIncrementReservoir (- (w_promptTokens w + textTokens))].
Proof.
  unfold Prompt_call. rewrite Hmax, Hdry. simpl.
  assert (Hb : (mt - w_tokenCount w <? 0) = false) by (apply Z.ltb_ge; lia).
  unfold bind at 1, setVars, modify. rewrite Hb.
  destruct (Z.to_nat retries) as [|n] eqn:En; [lia|].
  rewrite Prompt_retry_step. unfold Prompt_attempt. rewrite Hattempt.
  unfold RateLimiter_process, Bottleneck_schedule, RateLimiter_job, Prompt_task,
    JSONParser_parse, Bottleneck_incrementReservoir.
  run. rewrite Hdirect. simpl.
  break_ifs; try (exfalso; capacity; fail).
  do 2 eexists. split; [reflexivity|].
  unfold requestsLeft, tokensLeft. simpl.
  repeat split; try lia.
  rewrite <- !app_assoc. reflexivity.
Qed.

Lemma Prompt_call_direct_consumes_witness :
  exists r s',
    Prompt_call (Prompt_new (mkSettings "gpt-4" (Some 100) (Some 2%Q) (Some 3%Q)))
      (mkCallData false None)
      (mkCallWorld 10 10
         (fun _ => ChainReturns 5 (mkTextWorld (Some (JS.VStr "hi")) (inl "unused"%string) 0)))
      5 1000 (initState (RateLimiter_new 100 1000 (8 # 10)))
    = (Ok (Result r), s')
    /\ requestsLeft s' = 80 - 1
    /\ tokensLeft s' = 800 - 1 - (tokensSent r + tokensReceived r).
Proof.
  destruct (Prompt_call_direct_consumes
              (Prompt_new (mkSettings "gpt-4" (Some 100) (Some 2%Q) (Some 3%Q)))
              (mkCallData false None)
              (mkCallWorld 10 10
                 (fun _ => ChainReturns 5
                             (mkTextWorld (Some (JS.VStr "hi")) (inl "unused"%string) 0)))
              5 1000 (initState (RateLimiter_new 100 1000 (8 # 10)))
              100 5 _ (JS.VStr "hi")
              eq_refl ltac:(simpl; lia) eq_refl ltac:(lia) eq_refl eq_refl
              ltac:(vm_compute; discriminate) ltac:(vm_compute; discriminate))
    as (r & s' & Hcall & _ & _ & _ & Hr & Ht & _).
  exists r, s'. repeat split; assumption.
Defined.

(** X11. A call whose first text needs the repair, with capacity for two
    jobs: the repair is admitted by the same limiter while the attempt is
    still running, so the call takes two requests and two token
    reservations; the debits are the rounded estimate of the repair and
    the counts of the completion, and the result adds the repair's counts
    to the completion's. *)
Theorem Prompt_call_repair_consumes
    (self : Prompt) (data : CallData) (w : CallWorld) (retries retryDelay : Z)
    (s : State) (mt textTokens : Z) (text : TextWorld) (d : JS.value)
    (Hmax : maxTokens (model self) = Some mt)
    (Hbudget : 0 <= mt - w_tokenCount w)
    (Hdry : dryrun data = false)
    (Hretries : 1 <= retries)
    (Hattempt : w_attempt w 0 = ChainReturns textTokens text)
    (Hdirect : w_direct text = None)
    (Hfixing : w_fixing text = inr d)
    (Hrequests : 2 <= requestsLeft s)
    (Htokens : 2 <= tokensLeft s) :
  exists r s',
    Prompt_call self data w retries retryDelay s = (Ok (Result r), s')
    /\ response r = d
    /\ tokensSent r = w_promptTokens w + JS.round110 (w_promptTokens w)
    /\ tokensReceived r = textTokens + w_fixedTokens text
    /\ requestsLeft s' = requestsLeft s - 2
    /\ tokensLeft s' = tokensLeft s - 2 - JS.round110 (w_promptTokens w)
                       - (w_promptTokens w + textTokens)
    /\ events s' = events s ++ [EvChainCall; EvFixingParse;
                                EvIncrementReservoir (- JS.round110 (w_promptTokens w));
                                EvIncrementReservoir (- (w_promptTokens w + textTokens))].
Proof.
  unfold Prompt_call. rewrite Hmax, Hdry. simpl.
  assert (Hb : (mt - w_tokenCount w <? 0) = false) by (apply Z.ltb_ge; lia).
  unfold bind at 1, setVars, modify. rewrite Hb.
  destruct (Z.to_nat retries) as [|n] eqn:En; [lia|].
  rewrite Prompt_retry_step. unfold Prompt_attempt. rewrite Hattempt.
  unfold RateLimiter_process, Bottleneck_schedule, RateLimiter_job, Prompt_task,
    JSONParser_parse, RateLimiter_process, Bottleneck_schedule, RateLimiter_job,
    Bottleneck_incrementReservoir.
  assert (H1 : (1 <=? reservoir (requestLimiter (limiter s))) = true)
    by (apply Z.leb_le; unfold requestsLeft in *; lia).
  assert (H2 : (1 <=? reservoir (tokenLimiter (limiter s))) = true)
    by (apply Z.leb_le; unfold tokensLeft in *; lia).
  assert (H3 : (1 <=? reservoir (requestLimiter (limiter s)) - 1) = true)
    by (apply Z.leb_le; unfold requestsLeft in *; lia).
  assert (H4 : (1 <=? reservoir (tokenLimiter (limiter s)) - 1) = true)
    by (apply Z.leb_le; unfold tokensLeft in *; lia).
  unfold bind, ret, throw, tryCatch, get, modify, emit, setReservoir,
    getVars, setVars, reportTokens.
  cbn -[JS.round110]. rewrite H1. cbn -[JS.round110]. rewrite H2. cbn -[JS.round110].
  rewrite Hdirect. cbn -[JS.round110]. rewrite H3. cbn -[JS.round110].
  rewrite H4. cbn -[JS.round110]. rewrite Hfixing. cbn -[JS.round110].
  do 2 eexists. split; [reflexivity|].
  unfold requestsLeft, tokensLeft. cbn -[JS.round110].
  repeat split; try lia.
  rewrite <- !app_assoc. reflexivity.
Qed.

Lemma Prompt_call_repair_consumes_witness :
  exists r s',
    Prompt_call (Prompt_new (mkSettings "gpt-4" (Some 100) (Some 2%Q) (Some 3%Q)))
      (mkCallData false None)
      (mkCallWorld 10 10
         (fun _ => ChainReturns 5 (mkTextWorld None (inr (JS.VStr "fixed")) 4)))
      5 1000 (initState (RateLimiter_new 100 1000 (8 # 10)))
    = (Ok (Result r), s')
    /\ tokensSent r = 10 + JS.round110 10
    /\ requestsLeft s' = 80 - 2.
Proof.
  destruct (Prompt_call_repair_consumes
              (Prompt_new (mkSettings "gpt-4" (Some 100) (Some 2%Q) (Some 3%Q)))
              (mkCallData false None)
              (mkCallWorld 10 10
                 (fun _ => ChainReturns 5 (mkTextWorld None (inr (JS.VStr "fixed")) 4)))
              5 1000 (initState (RateLimiter_new 100 1000 (8 # 10)))
              100 5 _ (JS.VStr "fixed")
              eq_refl ltac:(simpl; lia) eq_refl ltac:(lia) eq_refl eq_refl eq_refl
              ltac:(vm_compute; discriminate) ltac:(vm_compute; discriminate))
    as (r & s' & Hcall & _ & Hsent & _ & Hr & _).
  exists r, s'. repeat split; assumption.
Defined.

(** X12. When the text fails the parser and the fixing parser fails too,
    [parse] throws the error of the fixing parser.  The repair job had
    been admitted: it has taken one request and the reservation of one
    token, but nothing is debited for it, although [fixingParser.parse]
    was called. *)
Theorem JSONParser_parse_repair_fails
    (self : JSONParser) (text : TextWorld) (promptTokens : Z) (s : State) (e : error)
    (Hdirect : w_direct text = None)
    (Hfixing : w_fixing text = inl e)
    (Hrequests : 1 <= requestsLeft s)
    (Htokens : 1 <= tokensLeft s) :
  exists s',
    JSONParser_parse self text promptTokens s = (Throw e, s')
    /\ requestsLeft s' = requestsLeft s - 1
    /\ tokensLeft s' = tokensLeft s - 1
    /\ events s' = events s ++ [EvFixingParse]
    /\ tokensUsed s' = tokensUsed s.
Proof.
  assert (H1 : (1 <=? reservoir (requestLimiter (limiter s))) = true)
    by (apply Z.leb_le; unfold requestsLeft in *; lia).
  assert (H2 : (1 <=? reservoir (tokenLimiter (limiter s))) = true)
    by (apply Z.leb_le; unfold tokensLeft in *; lia).
  unfold JSONParser_parse. rewrite Hdirect.
  unfold RateLimiter_process, Bottleneck_schedule, RateLimiter_job,
    Bottleneck_incrementReservoir.
  unfold bind, ret, throw, tryCatch, get, modify, emit, setReservoir, reportTokens.
  cbn -[JS.round110]. rewrite H1. cbn -[JS.round110]. rewrite H2. cbn -[JS.round110].
  rewrite Hfixing.
  eexists. split; [reflexivity|].
  unfold requestsLeft, tokensLeft. cbn. repeat split.
Qed.

Lemma JSONParser_parse_repair_fails_witness :
  exists s',
    JSONParser_parse (JSONParser_new "gpt-4")
      (mkTextWorld None (inl "still not valid"%string) 0) 10
      (initState (RateLimiter_new 100 1000 (8 # 10)))
    = (Throw "still not valid"%string, s')
    /\ requestsLeft s' = 80 - 1
    /\ tokensLeft s' = 800 - 1.
Proof.
  destruct (JSONParser_parse_repair_fails (JSONParser_new "gpt-4")
              (mkTextWorld None (inl "still not valid"%string) 0) 10
              (initState (RateLimiter_new 100 1000 (8 # 10))) "still not valid"%string
              eq_refl eq_refl ltac:(vm_compute; discriminate) ltac:(vm_compute; discriminate))
    as (s' & Hp & Hr & Ht & _).
  exists s'. repeat split; assumption.
Defined.

(** X13. With [retries] at 0 or below, a call that is not a dry run and
    is within budget makes no attempt at all: the loop is not entered and
    the call returns [undefined], without an error and without touching
    the chain or the limiter. *)
Theorem Prompt_call_no_retries
    (self : Prompt) (data : CallData) (w : CallWorld) (retries retryDelay : Z)
    (s : State) (mt : Z)
    (Hmax : maxTokens (model self) = Some mt)
    (Hbudget : 0 <= mt - w_tokenCount w)
    (Hdry : dryrun data = false)
    (Hretries : retries <= 0) :
  exists s',
    Prompt_call self data w retries retryDelay s = (Ok Undefined, s')
    /\ events s' = events s
    /\ limiter s' = limiter s.
Proof.
  unfold Prompt_call. rewrite Hmax, Hdry. simpl.
  assert (Hb : (mt - w_tokenCount w <? 0) = false) by (apply Z.ltb_ge; lia).
  unfold bind at 1, setVars, modify. rewrite Hb.
  replace (Z.to_nat retries) with 0%nat by lia.
  eexists. split; [reflexivity|]. split; reflexivity.
Qed.

Lemma Prompt_call_no_retries_witness :
  exists s',
    Prompt_call (Prompt_new (mkSettings "gpt-4" (Some 100) (Some 2%Q) (Some 3%Q)))
      (mkCallData false None)
      (mkCallWorld 10 10 (fun _ => ChainThrows "unused"%string)) 0 1000
      (initState (RateLimiter_new 100 1000 (8 # 10)))
    = (Ok Undefined, s')
    /\ events s' = [].
Proof.
  destruct (Prompt_call_no_retries
              (Prompt_new (mkSettings "gpt-4" (Some 100) (Some 2%Q) (Some 3%Q)))
              (mkCallData false None)
              (mkCallWorld 10 10 (fun _ => ChainThrows "unused"%string)) 0 1000
              (initState (RateLimiter_new 100 1000 (8 # 10))) 100
              eq_refl ltac:(simpl; lia) eq_refl ltac:(lia))
    as (s' & Hcall & Hev & _).
  exists s'. split; assumption.
Defined.

(* ------------------------------------------------------------------ *)
(** ** DocumentPrompt.call: dry run, progress callback, bounds *)

(** The body of the [try] in a dry run without a progress callback. *)
Lemma DocumentPrompt_body_dry (self : DocumentPrompt) (settings : DocSettings)
    (w : DocWorld) (e : Excerpt) (i : nat) (s : State) :
  ds_dryrun settings = true ->
  ds_progress settings = None ->
  DocumentPrompt_body self settings w e i s =
  (Ok false,
   withDoc (mkDocVars (d_count (doc s) + 1)
              (d_tokensSent (doc s) + (dw_tokenCount w i + dp_responseTokenLength self))
              (d_tokensReceived (doc s) + (dw_tokenCount w i + dp_responseTokenLength self))
              (JS.add (d_cost (doc s))
                 (Model_calculateCost (model (dp_prompt self))
                    (JS.ofZ (d_tokensSent (doc s)
                             + (dw_tokenCount w i + dp_responseTokenLength self)))
                    (JS.ofZ (d_tokensReceived (doc s)
                             + (dw_tokenCount w i + dp_responseTokenLength self)))))
              (d_response (doc s))
              (d_currentTokenCount (doc s) + excerptTokenLength e)) s).
Proof.
  intros Hdry Hnone. unfold DocumentPrompt_body. rewrite Hdry, Hnone. reflexivity.
Qed.

Lemma DocumentPrompt_loop_dry (self : DocumentPrompt) (settings : DocSettings)
    (w : DocWorld) (tx rx : Q) :
  ds_dryrun settings = true ->
  ds_progress settings = None ->
  tokenTxPrice (model (dp_prompt self)) = Some tx ->
  tokensRxPrice (model (dp_prompt self)) = Some rx ->
  forall (es : list Excerpt) (i : nat) (s : State) (c : Q),
    d_tokensReceived (doc s) = d_tokensSent (doc s) ->
    d_cost (doc s) = JS.Num c ->
    let incs := map (fun j => dw_tokenCount w j + dp_responseTokenLength self)
                    (seq i (List.length es)) in
    exists s' c',
      DocumentPrompt_loop self settings w es i s = (Ok tt, s')
      /\ events s' = events s
      /\ limiter s' = limiter s
      /\ d_response (doc s') = d_response (doc s)
      /\ d_count (doc s') = d_count (doc s) + Z.of_nat (List.length es)
      /\ d_tokensSent (doc s') = d_tokensSent (doc s) + fold_right Z.add 0 incs
      /\ d_tokensReceived (doc s') = d_tokensSent (doc s')
      /\ d_cost (doc s') = JS.Num c'
      /\ (c' == c + dryCost tx rx incs (d_tokensSent (doc s)))%Q.
Proof.
  intros Hdry Hnone Htx Hrx.
  induction es as [|e rest IH]; intros i s c Hrecv Hcost.
  - exists s, c. simpl. repeat split; try lia; try assumption. ring.
  - rewrite DocumentPrompt_loop_step, (DocumentPrompt_body_dry _ _ _ _ _ _ Hdry Hnone).
    set (inc := dw_tokenCount w i + dp_responseTokenLength self).
    set (s1 := withDoc _ s).
    destruct (IH (S i) s1
                (c + (inject_Z (d_tokensSent (doc s) + inc) * tx
                      + rx * inject_Z (d_tokensSent (doc s) + inc)))%Q)
      as (s' & c' & Hrun & Hev & Hlim & Hresp & Hcount & Hsent & Hrecv' & Hcost' & Hc').
    { unfold s1. simpl. fold inc. lia. }
    { unfold s1. simpl. fold inc. rewrite Hcost, Hrecv.
      unfold Model_calculateCost. rewrite Htx, Hrx. reflexivity. }
    exists s', c'. split; [exact Hrun|].
    unfold s1 in Hev, Hlim, Hresp, Hcount, Hsent, Hc'. simpl in Hev, Hlim, Hresp, Hcount, Hsent, Hc'.
    fold inc in Hsent, Hc'.
    cbn [List.length seq map fold_right dryCost]. fold inc.
    repeat split; try assumption; try lia.
    rewrite Hc'. unfold priceFormula. ring.
Qed.

(** X14. A dry run of [DocumentPrompt.call] without a progress callback
    never fails and touches neither the chain nor the limiter.  It
    returns no response, the same count for [tokensSent] and
    [tokensReceived] (the sum over the excerpts of the measured prompt
    plus the response length), and as cost the sum, over the excerpts, of
    the price of the running totals after each excerpt. *)
Theorem DocumentPrompt_call_dryrun
    (countTokens : string -> Z) (createDocuments : Z -> Z -> string -> list string)
    (self : DocumentPrompt) (text : string) (settings : DocSettings) (w : DocWorld)
    (s : State) (tx rx : Q)
    (Hdry : ds_dryrun settings = true)
    (Hnone : ds_progress settings = None)
    (Htx : tokenTxPrice (model (dp_prompt self)) = Some tx)
    (Hrx : tokensRxPrice (model (dp_prompt self)) = Some rx) :
  let n := List.length (excerpts (TextSplitter_splitText countTokens createDocuments
                                    (dp_splitter self) text)) in
  let incs := map (fun j => dw_tokenCount w j + dp_responseTokenLength self) (seq 0 n) in
  exists r s',
    DocumentPrompt_call countTokens createDocuments self text settings w s = (Ok r, s')
    /\ events s' = events s
    /\ limiter s' = limiter s
    /\ dr_response r = None
    /\ dr_tokensSent r = fold_right Z.add 0 incs
    /\ dr_tokensReceived r = dr_tokensSent r
    /\ JS.eq (dr_cost r) (JS.Num (dryCost tx rx incs 0)).
Proof.
  cbv zeta. unfold DocumentPrompt_call.
  unfold bind at 1, setDoc, modify. unfold bind at 1.
  destruct (DocumentPrompt_loop_dry self settings w tx rx Hdry Hnone Htx Hrx
              (excerpts (TextSplitter_splitText countTokens createDocuments
                           (dp_splitter self) text)) 0
              (withDoc (mkDocVars 0 0 0 (JS.Num 0) None 0) s) 0%Q eq_refl eq_refl)
    as (s' & c' & Hrun & Hev & Hlim & Hresp & _ & Hsent & Hrecv & Hcost & Hc').
  rewrite Hrun. run.
  do 2 eexists. split; [reflexivity|]. simpl in *.
  rewrite Hcost. simpl.
  repeat split; try assumption; try lia.
  rewrite Hc'. ring.
Qed.

Lemma DocumentPrompt_call_dryrun_witness :
  exists r s',
    DocumentPrompt_call (fun t => Z.of_nat (String.length t))
      (fun _ _ _ => ["aaaaaa"; "bbbbbb"]%string)
      (mkDocumentPrompt
         (Prompt_new (mkSettings "gpt-4" (Some 100) (Some 2%Q) (Some 3%Q)))
         10 (TextSplitter_new 6 0 1))
      "aaaaaabbbbbb" (mkDocSettings true None)
      (mkDocWorld (fun _ => mkCallWorld 0 0 (fun _ => ChainThrows "unused"%string))
         (fun _ => 20))
      (initState (RateLimiter_new 100 1000 (8 # 10)))
    = (Ok r, s')
    /\ events s' = []
    /\ dr_tokensSent r = 60
    /\ dr_tokensReceived r = dr_tokensSent r.
Proof.
  destruct (DocumentPrompt_call_dryrun (fun t => Z.of_nat (String.length t))
              (fun _ _ _ => ["aaaaaa"; "bbbbbb"]%string)
              (mkDocumentPrompt
                 (Prompt_new (mkSettings "gpt-4" (Some 100) (Some 2%Q) (Some 3%Q)))
                 10 (TextSplitter_new 6 0 1))
              "aaaaaabbbbbb"%string (mkDocSettings true None)
              (mkDocWorld (fun _ => mkCallWorld 0 0 (fun _ => ChainThrows "unused"%string))
                 (fun _ => 20))
              (initState (RateLimiter_new 100 1000 (8 # 10))) 2%Q 3%Q
              eq_refl eq_refl eq_refl eq_refl)
    as (r & s' & Hcall & Hev & _ & _ & Hsent & Hrecv & _).
  exists r, s'. repeat split; assumption.
Defined.



(** Whatever the input, [Prompt.call] only adds to the log, and calls the
    chain at most [retries] times. *)
Lemma Prompt_call_chain_bound (self : Prompt) (data : CallData) (w : CallWorld)
    (retries retryDelay : Z) (s : State) :
  exists added,
    events (snd (Prompt_call self data w retries retryDelay s)) = events s ++ added
    /\ (chainCalls added <= Z.to_nat retries)%nat.
Proof.
  unfold Prompt_call. unfold bind at 1, setVars, modify.
  destruct (match option_map _ (maxTokens (model self)) with
            | Some r => r <? 0
            | None => false
            end).
  { exists []. simpl. rewrite app_nil_r. split; [reflexivity | unfold chainCalls; simpl; lia]. }
  destruct (dryrun data).
  { exists []. simpl. rewrite app_nil_r. split; [reflexivity | unfold chainCalls; simpl; lia]. }
  destruct (Z.to_nat retries) as [|n] eqn:En.
  { exists []. simpl. rewrite app_nil_r. split; [reflexivity | unfold chainCalls; simpl; lia]. }
  destruct (Prompt_retry_spec self w retryDelay (S n) 0
              (withVars (mkCounters 0 0 (JS.Num 0)) s) ltac:(lia))
    as (added & Hev & Hle & _).
  exists added. split; [exact Hev | exact Hle].
Qed.

Lemma DocumentPrompt_body_bound (self : DocumentPrompt) (settings : DocSettings)
    (w : DocWorld) (e : Excerpt) (i : nat) (s : State) :
  exists added,
    events (snd (DocumentPrompt_body self settings w e i s)) = events s ++ added
    /\ (chainCalls added <= 5)%nat
    /\ (ds_dryrun settings = true -> chainCalls added = 0%nat)
    /\ d_count (doc s) <= d_count (doc (snd (DocumentPrompt_body self settings w e i s)))
       <= d_count (doc s) + 1.
Proof.
  destruct (ds_dryrun settings) eqn:Hdry.
  - unfold DocumentPrompt_body. rewrite Hdry. run.
    destruct (ds_progress settings) as [progress|]; simpl.
    + destruct (progress _); simpl;
        (exists [EvProgress (mkProgress (d_count (doc s) + 1)
                   (JS.add (d_cost (doc s))
                      (Model_calculateCost (model (dp_prompt self))
                         (JS.ofZ (d_tokensSent (doc s)
                                  + (dw_tokenCount w i + dp_responseTokenLength self)))
                         (JS.ofZ (d_tokensReceived (doc s)
                                  + (dw_tokenCount w i + dp_responseTokenLength self)))))
                   (d_tokensSent (doc s) + (dw_tokenCount w i + dp_responseTokenLength self))
                   (d_tokensReceived (doc s)
                    + (dw_tokenCount w i + dp_responseTokenLength self))
                   (d_response (doc s)))]);
        unfold chainCalls; simpl; repeat split; lia.
    + exists []. rewrite app_nil_r. unfold chainCalls. simpl. repeat split; lia.
  - rewrite (DocumentPrompt_body_call self settings w e i s Hdry).
    destruct (Prompt_call_chain_bound (dp_prompt self)
                (mkCallData false (Some (dp_responseTokenLength self)))
                (dw_call w i) 5 1000 s) as (added & Hev & Hle).
    pose proof (Prompt_call_doc (dp_prompt self)
                  (mkCallData false (Some (dp_responseTokenLength self)))
                  (dw_call w i) 5 1000 s) as Hd.
    change (Z.to_nat 5) with 5%nat in Hle.
    destruct (Prompt_call _ _ _ 5 1000 s) as [[data | err | ] s1]; simpl in Hev, Hd.
    + cbv zeta. destruct (ds_progress settings) as [progress|].
      * exists (added ++ [EvProgress (runningState (afterExcerpt (doc s1) data e))]).
        assert (Hc : chainCalls (added ++ [EvProgress (runningState
                                                      (afterExcerpt (doc s1) data e))])
                     = chainCalls added).
        { rewrite chainCalls_app. unfold chainCalls. simpl. lia. }
        destruct (progress _); simpl; rewrite Hev, Hc, Hd, <- app_assoc;
          repeat split; try lia; discriminate.
      * exists added. simpl. rewrite Hev, Hd. repeat split; try lia; discriminate.
    + exists added. simpl. rewrite Hev, Hd. repeat split; try lia; discriminate.
    + exists added. simpl. rewrite Hev, Hd. repeat split; try lia; discriminate.
Qed.

Lemma DocumentPrompt_loop_bound (self : DocumentPrompt) (settings : DocSettings)
    (w : DocWorld) :
  forall (es : list Excerpt) (i : nat) (s : State),
  exists added,
    events (snd (DocumentPrompt_loop self settings w es i s)) = events s ++ added
    /\ (chainCalls added <= 5 * List.length es)%nat
    /\ (ds_dryrun settings = true -> chainCalls added = 0%nat)
    /\ d_count (doc s) <= d_count (doc (snd (DocumentPrompt_loop self settings w es i s)))
       <= d_count (doc s) + Z.of_nat (List.length es).
Proof.
  induction es as [|e rest IH]; intros i s.
  - exists []. simpl. rewrite app_nil_r. unfold chainCalls. simpl. repeat split; lia.
  - rewrite DocumentPrompt_loop_step.
    destruct (DocumentPrompt_body_bound self settings w e i s)
      as (a1 & Hev & Hle & Hdry & Hcount).
    destruct (DocumentPrompt_body self settings w e i s) as [[[] | err | ] s1];
      simpl in Hev, Hcount; cbn [List.length].
    + exists a1. simpl. repeat split; try assumption; try lia.
    + destruct (IH (S i) s1) as (a2 & Hev2 & Hle2 & Hdry2 & Hcount2).
      exists (a1 ++ a2). rewrite Hev2, Hev, chainCalls_app, <- app_assoc.
      repeat split; try lia.
      all: intros H; rewrite (Hdry H), (Hdry2 H); reflexivity.
    + destruct (IH (S i) (withEvents (events s1 ++ [EvConsoleLog err]) s1))
        as (a2 & Hev2 & Hle2 & Hdry2 & Hcount2).
      exists (a1 ++ EvConsoleLog err :: a2).
      assert (Hc : chainCalls (a1 ++ EvConsoleLog err :: a2)
                   = (chainCalls a1 + chainCalls a2)%nat).
      { rewrite chainCalls_app. unfold chainCalls. simpl. reflexivity. }
      change (events (withEvents (events s1 ++ [EvConsoleLog err]) s1))
        with (events s1 ++ [EvConsoleLog err]) in Hev2.
      change (doc (withEvents (events s1 ++ [EvConsoleLog err]) s1))
        with (doc s1) in Hcount2.
      split; [rewrite Hev2, Hev, <- !app_assoc; reflexivity|].
      rewrite Hc. split; [lia|]. split; [|lia].
      intros H. rewrite (Hdry H), (Hdry2 H). reflexivity.
    + exists a1. simpl. repeat split; try assumption; try lia.
Qed.

(** The state [DocumentPrompt.call] ends in is the one its loop ends in. *)
Lemma DocumentPrompt_call_state
    (countTokens : string -> Z) (createDocuments : Z -> Z -> string -> list string)
    (self : DocumentPrompt) (text : string) (settings : DocSettings) (w : DocWorld)
    (s : State) :
  snd (DocumentPrompt_call countTokens createDocuments self text settings w s)
  = snd (DocumentPrompt_loop self settings w
           (excerpts (TextSplitter_splitText countTokens createDocuments
                        (dp_splitter self) text)) 0
           (withDoc (mkDocVars 0 0 0 (JS.Num 0) None 0) s)).
Proof.
  unfold DocumentPrompt_call.
  unfold bind at 1, setDoc, modify. unfold bind at 1.
  destruct (DocumentPrompt_loop _ _ _ _ _ _) as [[[] | err | ] s1]; reflexivity.
Qed.

(** X16. [DocumentPrompt.call] only adds to the log and calls the chain
    at most five times per excerpt (the default [retries] of
    [prompt.call]), and never in a dry run; the count of processed
    excerpts it ends with is at most the number of excerpts. *)
Theorem DocumentPrompt_call_bounds
    (countTokens : string -> Z) (createDocuments : Z -> Z -> string -> list string)
    (self : DocumentPrompt) (text : string) (settings : DocSettings) (w : DocWorld)
    (s : State) :
  let n := List.length (excerpts (TextSplitter_splitText countTokens createDocuments
                                    (dp_splitter self) text)) in
  let s' := snd (DocumentPrompt_call countTokens createDocuments self text settings w s) in
  exists added,
    events s' = events s ++ added
    /\ (chainCalls added <= 5 * n)%nat
    /\ (ds_dryrun settings = true -> chainCalls added = 0%nat)
    /\ 0 <= d_count (doc s') <= Z.of_nat n.
Proof.
  cbv zeta. rewrite DocumentPrompt_call_state.
  destruct (DocumentPrompt_loop_bound self settings w
              (excerpts (TextSplitter_splitText countTokens createDocuments
                           (dp_splitter self) text)) 0
              (withDoc (mkDocVars 0 0 0 (JS.Num 0) None 0) s))
    as (added & Hev & Hle & Hdry & Hcount).
  change (events (withDoc (mkDocVars 0 0 0 (JS.Num 0) None 0) s)) with (events s) in Hev.
  change (d_count (doc (withDoc (mkDocVars 0 0 0 (JS.Num 0) None 0) s))) with 0 in Hcount.
  exists added.
  split; [exact Hev|]. split; [exact Hle|]. split; [exact Hdry|]. lia.
Qed.

(* ------------------------------------------------------------------ *)
(** ** TextSplitter.splitText: the excerpts *)

(** X17. The excerpts of [splitText] are the non-empty pieces of the
    langchain splitter, in order; when it gives no non-empty piece the
    whole text is the one excerpt, counted against
    [countTokens(text) + chunkOverlap].  So no excerpt is empty unless
    the text itself is. *)
Theorem TextSplitter_splitText_excerpts
    (countTokens : string -> Z) (createDocuments : Z -> Z -> string -> list string)
    (self : TextSplitter) (text : string) :
  let pieces := filter nonEmpty (createDocuments (chunkSize self) (chunkOverlap self) text) in
  let r := TextSplitter_splitText countTokens createDocuments self text in
  (pieces <> [] -> map excerpt (excerpts r) = pieces)
  /\ (pieces = [] ->
      r = mkSplitResult (countTokens text + chunkOverlap self)
            [mkExcerpt text (countTokens text)
               (roundPercent (countTokens text) (countTokens text + chunkOverlap self))])
  /\ (nonEmpty text = true ->
      Forall (fun e => nonEmpty (excerpt e) = true) (excerpts r)).
Proof.
  cbv zeta. unfold TextSplitter_splitText.
  set (pieces := filter nonEmpty _).
  assert (Hall : Forall (fun c => nonEmpty c = true) pieces).
  { apply Forall_forall. intros c Hc. apply filter_In in Hc. tauto. }
  split; [|split].
  - intros Hne. destruct pieces as [|c cs] eqn:E; [congruence|].
    cbn [excerpts]. rewrite map_map. cbn [excerpt]. apply map_id.
  - intros ->. cbn [List.length map Z.of_nat]. rewrite Z.mul_1_r. reflexivity.
  - intros Htext. cbn [excerpts].
    apply Forall_forall. intros e He. apply in_map_iff in He.
    destruct He as (c & <- & Hc). cbn [excerpt].
    destruct pieces as [|c0 cs].
    + destruct Hc as [<- | []]. exact Htext.
    + rewrite Forall_forall in Hall. now apply Hall.
Qed.

Lemma TextSplitter_splitText_excerpts_witness :
  TextSplitter_splitText (fun t => Z.of_nat (String.length t))
    (fun _ _ _ => [""; ""]%string) (TextSplitter_new 100 3 1) "short"
  = mkSplitResult (5 + 3) [mkExcerpt "short" 5 (roundPercent 5 (5 + 3))].
Proof.
  apply (proj1 (proj2 (TextSplitter_splitText_excerpts
                         (fun t => Z.of_nat (String.length t))
                         (fun _ _ _ => [""; ""]%string) (TextSplitter_new 100 3 1)
                         "short"))).
  reflexivity.
Defined.

(* ------------------------------------------------------------------ *)
(** ** RateLimiter.process: an overdrawn token reservoir *)

(** X18. The debit after a task may leave the token reservoir at 0 or
    below.  The next job takes its request and then waits for the
    refresh, which sets both reservoirs back to their refresh amounts,
    whatever was overdrawn or taken: a task that reports [count] tokens
    then ends with [refresh amount - 1 - count] tokens left, and with the
    request reservoir full again. *)
Theorem RateLimiter_process_after_overdraft
    {A} (a : A) (count : Z) (s : State)
    (Hrequests : 1 <= requestsLeft s)
    (Hoverdrawn : tokensLeft s < 1)
    (Hrefresh : 1 <= reservoirRefreshAmount (tokenLimiter (limiter s))) :
  exists s',
    RateLimiter_process (fun report => report count [] ;;; ret a) s = (Ok a, s')
    /\ events s' = events s ++ [EvRefresh Tokens; EvIncrementReservoir (- count)]
    /\ tokensLeft s' = reservoirRefreshAmount (tokenLimiter (limiter s)) - 1 - count
    /\ requestsLeft s' = reservoirRefreshAmount (requestLimiter (limiter s))
    /\ reservoirRefreshAmount (tokenLimiter (limiter s'))
       = reservoirRefreshAmount (tokenLimiter (limiter s))
    /\ reservoirRefreshAmount (requestLimiter (limiter s'))
       = reservoirRefreshAmount (requestLimiter (limiter s)).
Proof.
  assert (H1 : (1 <=? reservoir (requestLimiter (limiter s))) = true)
    by (apply Z.leb_le; unfold requestsLeft in *; lia).
  assert (H2 : (1 <=? reservoir (tokenLimiter (limiter s))) = false)
    by (apply Z.leb_gt; unfold tokensLeft in *; lia).
  assert (H3 : (1 <=? reservoirRefreshAmount (tokenLimiter (limiter s))) = true)
    by (apply Z.leb_le; lia).
  unfold RateLimiter_process, Bottleneck_schedule, RateLimiter_job,
    Bottleneck_incrementReservoir, refresh.
  unfold bind, ret, throw, tryCatch, get, modify, emit, setReservoir, reportTokens.
  cbn. rewrite H1. cbn. rewrite H2, H3. cbn.
  eexists. split; [reflexivity|].
  unfold requestsLeft, tokensLeft. cbn.
  repeat split; try lia.
  rewrite <- app_assoc. reflexivity.
Qed.

Lemma RateLimiter_process_after_overdraft_witness :
  exists s',
    RateLimiter_process (fun report => report 50 [] ;;; ret tt)
      (initState (mkRateLimiter (mkBottleneck 5 5) (mkBottleneck (-11) 40)))
    = (Ok tt, s')
    /\ tokensLeft s' = 40 - 1 - 50
    /\ requestsLeft s' = 5.
Proof.
  destruct (RateLimiter_process_after_overdraft tt 50
              (initState (mkRateLimiter (mkBottleneck 5 5) (mkBottleneck (-11) 40)))
              ltac:(vm_compute; discriminate) ltac:(vm_compute; reflexivity)
              ltac:(vm_compute; discriminate))
    as (s' & Hp & _ & Ht & Hr & _).
  exists s'. split; [exact Hp|]. split; [exact Ht | exact Hr].
Defined.
